(** * Jump Cut Hero: the silence-gated recording controller of [src/App.tsx]

    A shallow embedding of the controller that pauses and resumes a
    [MediaRecorder] from the microphone level, and the properties of
    its specification.

    Conventions of the embedding.
    - A JavaScript number is an exact rational or [NaN]: every number the
      controller handles is a byte sum, a mean of such sums or a product
      with the constants of [src/constants.ts].  The rounding of IEEE
      doubles is not part of the model.
    - A [Uint8Array] is a [list Byte.byte].
    - React state, refs, the browser's timer table and the pending
      animation frame are the fields of one record, [Sys]; handlers and
      callbacks are functions on it.
    - A function memoised with [useCallback] keeps the state variables of
      the render that created it; what it captured is a record of its own
      ([AnalysisClosure]), kept apart from the live React state.
    - Between two events the component has rendered: a handler sees the
      state its predecessors have set.
    - Device selection, the preview element and the recorded chunks play
      no part in the controller and are left out.  The teleprompter, which
      shares only the lifecycle state with it, is modelled on its own. *)

From Stdlib Require Import ZArith QArith Bool List Lia Lqa.
From Stdlib.Strings Require Import Byte.
Import ListNotations.

Local Open Scope Z_scope.

(** ** JavaScript numbers *)

Module JS.

(** Results of arithmetic are kept in lowest terms ([Qred]), so that a
    number has one representation. *)
Inductive num : Type :=
| NaN
| Num (q : Q).

(** [a + b] *)
Definition add (a b : num) : num :=
  match a, b with
  | Num x, Num y => Num (Qred (x + y))
  | _, _ => NaN
  end.

(** [a * b] *)
Definition mul (a b : num) : num :=
  match a, b with
  | Num x, Num y => Num (Qred (x * y))
  | _, _ => NaN
  end.

(** [a < b]: false as soon as one side is [NaN]. *)
Definition lt (a b : num) : bool :=
  match a, b with
  | Num x, Num y => negb (Qle_bool y x)
  | _, _ => false
  end.

(** [a > b] *)
Definition gt (a b : num) : bool := lt b a.

(** [total / count] where [count] is the length of the array [total]
    was summed over.  An empty array sums to [0], and [0 / 0] is [NaN];
    a sum that is already [NaN] stays [NaN]. *)
Definition div_length (total : num) (count : nat) : num :=
  match total, count with
  | Num x, S _ => Num (Qred (x / inject_Z (Z.of_nat count)))
  | _, _ => NaN
  end.

Definition of_Z (z : Z) : num := Num (inject_Z z).

(** Numeric equality of two numbers ([NaN] equals nothing). *)
Definition same (a b : num) : Prop :=
  match a, b with
  | Num x, Num y => x == y
  | _, _ => False
  end.

Definition is_nan (a : num) : bool :=
  match a with NaN => true | Num _ => false end.

End JS.

Import JS.

(** ** [src/constants.ts] *)

Definition CALIBRATION_TIME_MS : Z := 3000.
Definition BASE_SILENCE_DETECTION_TIME_MS : Z := 400.
Definition PAUSE_TIGHTNESS_STEP_MS : Z := 50.
Definition SILENCE_MULTIPLIER : Q := 2.
Definition SOUND_MULTIPLIER : Q := 5 # 2.
Definition FFT_SIZE : Z := 256.

(** ** The level meter

    [dataArray.reduce((acc, val) => acc + val, 0) / dataArray.length],
    lines 159 and 252. *)

Definition byte_value (b : byte) : Z := Z.of_N (Byte.to_N b).

Definition sum_bins (dataArray : list byte) : Z :=
  fold_left (fun acc val => acc + byte_value val) dataArray 0.

Definition averageVolume (dataArray : list byte) : num :=
  div_length (of_Z (sum_bins dataArray)) (length dataArray).

(** ** The two thresholds, lines 161-162 *)

Definition isSilent (averageVolume silenceThreshold : num) : bool :=
  lt averageVolume (mul silenceThreshold (Num SILENCE_MULTIPLIER)).

Definition isLoudEnoughToResume (averageVolume silenceThreshold : num) : bool :=
  gt averageVolume (mul silenceThreshold (Num SOUND_MULTIPLIER)).

(** The three-way reading of the two flags: the recording branch of the
    analysis looks at [isSilent] only and the paused branch at
    [isLoudEnoughToResume] only. *)
Inductive Classification : Type := Silent | Loud | Neutral.

Definition classify (averageVolume silenceThreshold : num) : Classification :=
  if isSilent averageVolume silenceThreshold then Silent
  else if isLoudEnoughToResume averageVolume silenceThreshold then Loud
  else Neutral.

(** ** Pause tightness, lines 165 and 317-319 *)

Definition handleTightnessChange_value (prev delta : Z) : Z :=
  Z.max (-5) (Z.min 5 (prev + delta)).

Definition silenceDetectionTime (pauseTightness : Z) : Z :=
  BASE_SILENCE_DETECTION_TIME_MS - pauseTightness * PAUSE_TIGHTNESS_STEP_MS.

(** ** The baseline, lines 262-267 *)

Definition sum_samples (calibrationData : list num) : num :=
  fold_left add calibrationData (of_Z 0).

Definition baseline (calibrationData : list num) : num :=
  if (0 <? length calibrationData)%nat then
    let average := div_length (sum_samples calibrationData) (length calibrationData) in
    if gt average (of_Z 0) then average else of_Z 1
  else of_Z 1.

(** ** The session *)

(** Modelled from the spec: the enum [RecordingState] of [./types], a
    file that is not among the sources.  Its members are the five
    lifecycle states the spec lists (Idle, Calibrating, Recording, Paused,
    Stopped), under the names [App.tsx] and the components use. *)
Inductive RecordingState : Type := IDLE | CALIBRATING | RECORDING | PAUSED | STOPPED.

(** [MediaRecorder.state] and [AudioContext.state]. *)
Inductive RecorderState : Type := inactive | recording | paused.

Inductive AudioContextState : Type := suspended | running | closed.

Definition RecordingState_eqb (a b : RecordingState) : bool :=
  match a, b with
  | IDLE, IDLE | CALIBRATING, CALIBRATING | RECORDING, RECORDING
  | PAUSED, PAUSED | STOPPED, STOPPED => true
  | _, _ => false
  end.

Definition RecorderState_eqb (a b : RecorderState) : bool :=
  match a, b with
  | inactive, inactive | recording, recording | paused, paused => true
  | _, _ => false
  end.

Definition AudioContextState_eqb (a b : AudioContextState) : bool :=
  match a, b with
  | suspended, suspended | running, running | closed, closed => true
  | _, _ => false
  end.

(** What one [runAudioAnalysis] function value sees of the React state:
    the dependency list of its [useCallback], line 190.  The function
    re-registers itself with [requestAnimationFrame], so a loop keeps the
    closure it was started with. *)
Record AnalysisClosure : Type := {
  seen_recordingState : RecordingState;
  seen_isManuallyPaused : bool;
  seen_pauseTightness : Z
}.

(** The callbacks the controller hands to [setTimeout] and
    [setInterval].  [calibrationData] names the array local to one call
    of [startCalibration]; the completion callback also holds the two
    interval handles and, through [startActualRecording], the analysis
    function of the render that was clicked. *)
Inductive Callback : Type :=
| silenceElapsed
| countdownTick
| collectCalibrationData (calibrationData : nat)
| calibrationElapsed (calibrationData collectionInterval countdownInterval : nat)
                     (analysis : AnalysisClosure).

Record Timer : Type := {
  handle : nat;
  due : Z;
  every : option Z;
  callback : Callback
}.

Record Sys : Type := {
  (* the clock, in milliseconds *)
  now : Z;
  (* React state *)
  recordingState : RecordingState;
  isManuallyPaused : bool;
  pauseTightness : Z;
  calibrationCountdown : Z;
  error : bool;
  (* refs; [mediaRecorderRef] is the recorder together with its [state] *)
  streamRef : bool;
  mediaRecorderRef : option RecorderState;
  audioContextRef : option AudioContextState;
  analyserRef : bool;
  silenceTimerRef : option nat;
  silenceThresholdRef : num;
  (* the frame callback registered with requestAnimationFrame, whose id
     is animationFrameRef.current *)
  animationFrame : option AnalysisClosure;
  (* the browser's timers and the arrays allocated by startCalibration *)
  timers : list Timer;
  nextHandle : nat;
  arrays : list (nat * list num)
}.

Definition set_now (v : Z) (s : Sys) : Sys :=
  Build_Sys
    v (recordingState s) (isManuallyPaused s) (pauseTightness s)
    (calibrationCountdown s) (error s) (streamRef s) (mediaRecorderRef s)
    (audioContextRef s) (analyserRef s) (silenceTimerRef s)
    (silenceThresholdRef s) (animationFrame s) (timers s) (nextHandle s)
    (arrays s).

Definition set_recordingState (v : RecordingState) (s : Sys) : Sys :=
  Build_Sys
    (now s) v (isManuallyPaused s) (pauseTightness s) (calibrationCountdown s)
    (error s) (streamRef s) (mediaRecorderRef s) (audioContextRef s)
    (analyserRef s) (silenceTimerRef s) (silenceThresholdRef s)
    (animationFrame s) (timers s) (nextHandle s) (arrays s).

Definition set_isManuallyPaused (v : bool) (s : Sys) : Sys :=
  Build_Sys
    (now s) (recordingState s) v (pauseTightness s) (calibrationCountdown s)
    (error s) (streamRef s) (mediaRecorderRef s) (audioContextRef s)
    (analyserRef s) (silenceTimerRef s) (silenceThresholdRef s)
    (animationFrame s) (timers s) (nextHandle s) (arrays s).

Definition set_pauseTightness (v : Z) (s : Sys) : Sys :=
  Build_Sys
    (now s) (recordingState s) (isManuallyPaused s) v (calibrationCountdown s)
    (error s) (streamRef s) (mediaRecorderRef s) (audioContextRef s)
    (analyserRef s) (silenceTimerRef s) (silenceThresholdRef s)
    (animationFrame s) (timers s) (nextHandle s) (arrays s).

Definition set_calibrationCountdown (v : Z) (s : Sys) : Sys :=
  Build_Sys
    (now s) (recordingState s) (isManuallyPaused s) (pauseTightness s) v
    (error s) (streamRef s) (mediaRecorderRef s) (audioContextRef s)
    (analyserRef s) (silenceTimerRef s) (silenceThresholdRef s)
    (animationFrame s) (timers s) (nextHandle s) (arrays s).

Definition set_error (v : bool) (s : Sys) : Sys :=
  Build_Sys
    (now s) (recordingState s) (isManuallyPaused s) (pauseTightness s)
    (calibrationCountdown s) v (streamRef s) (mediaRecorderRef s)
    (audioContextRef s) (analyserRef s) (silenceTimerRef s)
    (silenceThresholdRef s) (animationFrame s) (timers s) (nextHandle s)
    (arrays s).

Definition set_streamRef (v : bool) (s : Sys) : Sys :=
  Build_Sys
    (now s) (recordingState s) (isManuallyPaused s) (pauseTightness s)
    (calibrationCountdown s) (error s) v (mediaRecorderRef s)
    (audioContextRef s) (analyserRef s) (silenceTimerRef s)
    (silenceThresholdRef s) (animationFrame s) (timers s) (nextHandle s)
    (arrays s).

Definition set_mediaRecorderRef (v : option RecorderState) (s : Sys) : Sys :=
  Build_Sys
    (now s) (recordingState s) (isManuallyPaused s) (pauseTightness s)
    (calibrationCountdown s) (error s) (streamRef s) v (audioContextRef s)
    (analyserRef s) (silenceTimerRef s) (silenceThresholdRef s)
    (animationFrame s) (timers s) (nextHandle s) (arrays s).

Definition set_audioContextRef (v : option AudioContextState) (s : Sys) : Sys :=
  Build_Sys
    (now s) (recordingState s) (isManuallyPaused s) (pauseTightness s)
    (calibrationCountdown s) (error s) (streamRef s) (mediaRecorderRef s) v
    (analyserRef s) (silenceTimerRef s) (silenceThresholdRef s)
    (animationFrame s) (timers s) (nextHandle s) (arrays s).

Definition set_analyserRef (v : bool) (s : Sys) : Sys :=
  Build_Sys
    (now s) (recordingState s) (isManuallyPaused s) (pauseTightness s)
    (calibrationCountdown s) (error s) (streamRef s) (mediaRecorderRef s)
    (audioContextRef s) v (silenceTimerRef s) (silenceThresholdRef s)
    (animationFrame s) (timers s) (nextHandle s) (arrays s).

Definition set_silenceTimerRef (v : option nat) (s : Sys) : Sys :=
  Build_Sys
    (now s) (recordingState s) (isManuallyPaused s) (pauseTightness s)
    (calibrationCountdown s) (error s) (streamRef s) (mediaRecorderRef s)
    (audioContextRef s) (analyserRef s) v (silenceThresholdRef s)
    (animationFrame s) (timers s) (nextHandle s) (arrays s).

Definition set_silenceThresholdRef (v : num) (s : Sys) : Sys :=
  Build_Sys
    (now s) (recordingState s) (isManuallyPaused s) (pauseTightness s)
    (calibrationCountdown s) (error s) (streamRef s) (mediaRecorderRef s)
    (audioContextRef s) (analyserRef s) (silenceTimerRef s) v
    (animationFrame s) (timers s) (nextHandle s) (arrays s).

Definition set_animationFrame (v : option AnalysisClosure) (s : Sys) : Sys :=
  Build_Sys
    (now s) (recordingState s) (isManuallyPaused s) (pauseTightness s)
    (calibrationCountdown s) (error s) (streamRef s) (mediaRecorderRef s)
    (audioContextRef s) (analyserRef s) (silenceTimerRef s)
    (silenceThresholdRef s) v (timers s) (nextHandle s) (arrays s).

Definition set_timers (v : list Timer) (s : Sys) : Sys :=
  Build_Sys
    (now s) (recordingState s) (isManuallyPaused s) (pauseTightness s)
    (calibrationCountdown s) (error s) (streamRef s) (mediaRecorderRef s)
    (audioContextRef s) (analyserRef s) (silenceTimerRef s)
    (silenceThresholdRef s) (animationFrame s) v (nextHandle s) (arrays s).

Definition set_nextHandle (v : nat) (s : Sys) : Sys :=
  Build_Sys
    (now s) (recordingState s) (isManuallyPaused s) (pauseTightness s)
    (calibrationCountdown s) (error s) (streamRef s) (mediaRecorderRef s)
    (audioContextRef s) (analyserRef s) (silenceTimerRef s)
    (silenceThresholdRef s) (animationFrame s) (timers s) v (arrays s).

Definition set_arrays (v : list (nat * list num)) (s : Sys) : Sys :=
  Build_Sys
    (now s) (recordingState s) (isManuallyPaused s) (pauseTightness s)
    (calibrationCountdown s) (error s) (streamRef s) (mediaRecorderRef s)
    (audioContextRef s) (analyserRef s) (silenceTimerRef s)
    (silenceThresholdRef s) (animationFrame s) (timers s) (nextHandle s) v.

Notation "s |> f" := (f s) (at level 45, left associativity, only parsing).

(** The component as mounted: [useState] and [useRef] initial values. *)
Definition mounted : Sys := {|
  now := 0;
  recordingState := IDLE;
  isManuallyPaused := false;
  pauseTightness := 0;
  calibrationCountdown := CALIBRATION_TIME_MS;
  error := false;
  streamRef := false;
  mediaRecorderRef := None;
  audioContextRef := None;
  analyserRef := false;
  silenceTimerRef := None;
  silenceThresholdRef := of_Z 0;
  animationFrame := None;
  timers := [];
  nextHandle := 1;
  arrays := []
|}.

(** ** Timers

    [setTimeout] and [setInterval] draw handles from one counter, which
    starts at 1 (a handle is never falsy); a negative delay counts as 0.
    [clearTimeout] and [clearInterval] drop the entry with that handle. *)

Definition setTimer (cb : Callback) (delay : Z) (period : option Z) (s : Sys)
  : nat * Sys :=
  let h := nextHandle s in
  (h, s |> set_timers (timers s ++ [Build_Timer h (now s + Z.max 0 delay) period cb])
        |> set_nextHandle (S h)).

Definition setTimeout (cb : Callback) (delay : Z) (s : Sys) : nat * Sys :=
  setTimer cb delay None s.

Definition setInterval (cb : Callback) (delay : Z) (s : Sys) : nat * Sys :=
  setTimer cb delay (Some delay) s.

Definition clearTimer (h : nat) (s : Sys) : Sys :=
  s |> set_timers (filter (fun t => negb (handle t =? h)%nat) (timers s)).

Definition find_timer (h : nat) (s : Sys) : option Timer :=
  find (fun t => (handle t =? h)%nat) (timers s).

(** An interval that has run is due again one period later. *)
Definition rearm (h : nat) (period : Z) (s : Sys) : Sys :=
  s |> set_timers
         (map (fun t => if (handle t =? h)%nat
                        then Build_Timer (handle t) (due t + period) (every t) (callback t)
                        else t)
              (timers s)).

(** ** Arrays of calibration samples *)

Fixpoint read_array (a : nat) (store : list (nat * list num)) : list num :=
  match store with
  | [] => []
  | (k, data) :: rest => if (k =? a)%nat then data else read_array a rest
  end.

Fixpoint push_array (a : nat) (v : num) (store : list (nat * list num))
  : list (nat * list num) :=
  match store with
  | [] => []
  | (k, data) :: rest =>
      if (k =? a)%nat then (k, data ++ [v]) :: rest
      else (k, data) :: push_array a v rest
  end.

(** ** Handlers and callbacks of [App.tsx] *)

(** Lines 70-76. *)
Definition stopPreviewStream (s : Sys) : Sys :=
  if streamRef s then s |> set_streamRef false else s.

(** Lines 78-88.  The recorded chunks are not part of the model. *)
Definition cleanupRecording (s : Sys) : Sys :=
  let s1 := s |> set_animationFrame None in
  let s2 :=
    match audioContextRef s1 with
    | Some st =>
        if negb (AudioContextState_eqb st closed)
        then s1 |> set_audioContextRef None
        else s1
    | None => s1
    end in
  s2 |> set_mediaRecorderRef None.

(** The outcome of [getUserMedia] in [startPreview], lines 90-125. *)
Definition startPreview (granted : bool) (s : Sys) : Sys :=
  let s1 := stopPreviewStream s in
  if granted then s1 |> set_streamRef true |> set_error false
  else s1 |> set_error true |> set_streamRef false.

(** Lines 140-148; [useCallback] on [recordingState], and the button
    always holds the function of the latest render. *)
Definition stopRecording (s : Sys) : Sys :=
  let s1 :=
    match mediaRecorderRef s with
    | Some _ =>
        if negb (RecordingState_eqb (recordingState s) IDLE)
           && negb (RecordingState_eqb (recordingState s) STOPPED)
        then s |> set_mediaRecorderRef (Some inactive) |> set_recordingState STOPPED
        else s
    | None => s
    end in
  let s2 :=
    match silenceTimerRef s1 with
    | Some h => clearTimer h s1
    | None => s1
    end in
  s2 |> set_animationFrame None |> set_isManuallyPaused false.

(** The callback of the silence timer, lines 170-176. *)
Definition onSilenceElapsed (s : Sys) : Sys :=
  match mediaRecorderRef s with
  | Some recording =>
      s |> set_isManuallyPaused false
        |> set_mediaRecorderRef (Some paused)
        |> set_recordingState PAUSED
  | _ => s
  end.

(** Lines 150-190, run as the function value [seen]; [dataArray] is what
    the analyser writes into the fresh [Uint8Array]. *)
Definition runAudioAnalysis (seen : AnalysisClosure) (dataArray : list byte)
                            (s : Sys) : Sys :=
  if negb (analyserRef s) || RecordingState_eqb (seen_recordingState seen) CALIBRATING
  then s |> set_animationFrame (Some seen)
  else
    let volume := averageVolume dataArray in
    let silent := isSilent volume (silenceThresholdRef s) in
    let loud := isLoudEnoughToResume volume (silenceThresholdRef s) in
    let delay := silenceDetectionTime (seen_pauseTightness seen) in
    let s1 :=
      match mediaRecorderRef s with
      | Some st =>
          if RecorderState_eqb st recording && silent then
            match silenceTimerRef s with
            | None =>
                let (h, s') := setTimeout silenceElapsed delay s in
                s' |> set_silenceTimerRef (Some h)
            | Some _ => s
            end
          else if RecorderState_eqb st recording && negb silent then
            match silenceTimerRef s with
            | Some h => s |> clearTimer h |> set_silenceTimerRef None
            | None => s
            end
          else if RecorderState_eqb st paused && loud
                  && negb (seen_isManuallyPaused seen) then
            s |> set_mediaRecorderRef (Some recording) |> set_recordingState RECORDING
          else s
      | None => s
      end in
    s1 |> set_animationFrame (Some seen).

(** Lines 192-216, with the analysis function it was created with. *)
Definition startActualRecording (analysis : AnalysisClosure) (dataArray : list byte)
                                (s : Sys) : Sys :=
  if negb (streamRef s) then s
  else
    s |> set_recordingState RECORDING
      |> set_mediaRecorderRef (Some recording)
      |> runAudioAnalysis analysis dataArray.

(** The function values of the current render: [runAudioAnalysis] lists
    every state variable it reads as a dependency, so the one a handler
    of this render reaches has seen this render's state. *)
Definition analysis_of_render (s : Sys) : AnalysisClosure :=
  {| seen_recordingState := recordingState s;
     seen_isManuallyPaused := isManuallyPaused s;
     seen_pauseTightness := pauseTightness s |}.

(** Lines 218-277; [context] is the state in which the browser creates
    the [AudioContext].  The script lines are modelled apart, in
    [startCalibration_script]. *)
Definition startCalibration (context : AudioContextState) (s : Sys) : Sys :=
  let analysis := analysis_of_render s in
  let s1 := s |> set_recordingState CALIBRATING
              |> set_error false
              |> set_isManuallyPaused false in
  if negb (streamRef s1) then
    s1 |> set_error true |> set_recordingState IDLE
  else
    let s2 := s1 |> set_audioContextRef (Some context) |> set_analyserRef true in
    let calibrationData := nextHandle s2 in
    let s3 := s2 |> set_arrays ((calibrationData, []) :: arrays s2)
                 |> set_calibrationCountdown CALIBRATION_TIME_MS in
    let (countdownInterval, s4) := setInterval countdownTick 100 s3 in
    let (collectionInterval, s5) :=
      setInterval (collectCalibrationData calibrationData) 50 s4 in
    let (_, s6) :=
      setTimeout (calibrationElapsed calibrationData collectionInterval
                                     countdownInterval analysis)
                 CALIBRATION_TIME_MS s5 in
    s6.

(** Lines 248-255. *)
Definition onCollectCalibrationData (calibrationData : nat) (dataArray : list byte)
                                    (s : Sys) : Sys :=
  match audioContextRef s with
  | Some st =>
      if analyserRef s && AudioContextState_eqb st running
      then s |> set_arrays (push_array calibrationData (averageVolume dataArray) (arrays s))
      else s
  | None => s
  end.

(** Lines 259-271. *)
Definition onCalibrationElapsed (calibrationData collectionInterval countdownInterval : nat)
                                (analysis : AnalysisClosure) (dataArray : list byte)
                                (s : Sys) : Sys :=
  let s1 := s |> clearTimer collectionInterval |> clearTimer countdownInterval in
  let s2 := s1 |> set_silenceThresholdRef (baseline (read_array calibrationData (arrays s1))) in
  startActualRecording analysis dataArray s2.

(** Lines 244-246. *)
Definition onCountdownTick (s : Sys) : Sys :=
  s |> set_calibrationCountdown (calibrationCountdown s - 100).

(** Lines 279-287. *)
Definition handleReset (s : Sys) : Sys :=
  s |> set_recordingState IDLE
    |> set_error false
    |> set_isManuallyPaused false
    |> cleanupRecording.

(** Lines 289-295. *)
Definition handleManualPause (s : Sys) : Sys :=
  match mediaRecorderRef s with
  | Some recording =>
      s |> set_mediaRecorderRef (Some paused)
        |> set_recordingState PAUSED
        |> set_isManuallyPaused true
  | _ => s
  end.

(** Lines 297-303. *)
Definition handleResume (s : Sys) : Sys :=
  match mediaRecorderRef s with
  | Some paused =>
      s |> set_isManuallyPaused false
        |> set_mediaRecorderRef (Some recording)
        |> set_recordingState RECORDING
  | _ => s
  end.

(** Lines 317-319. *)
Definition handleTightnessChange (delta : Z) (s : Sys) : Sys :=
  s |> set_pauseTightness (handleTightnessChange_value (pauseTightness s) delta).

(** [mediaRecorderRef.current.onstop], lines 205-211. *)
Definition onstop (s : Sys) : Sys :=
  s |> cleanupRecording |> stopPreviewStream.

(** ** The event loop

    One event is one task of the browser: a click on a control that is
    rendered and enabled (lines 321-349 and 361-411), a timer callback
    whose time has come, the pending animation frame, the recorder's
    [stop] event, the outcome of [startPreview] while idle, a change of
    the [AudioContext] between suspended and running (its [statechange],
    which the browser decides), or the passage of time.  Time does not
    pass a timer that is due: the timer runs first.  Callbacks that read
    the analyser carry what it yields.

    The recorder's [stop] event is taken where [stopRecording] has
    stopped the recorder and Reset has not yet dropped it.  A recorder
    that stops at another time (its tracks end, or its event comes late)
    runs the same [onstop]; what that does to a session is stated apart,
    on [onstop] itself, and is not an event of [step]. *)

Inductive Event : Type :=
| ClickStart (context : AudioContextState)
| ClickPause
| ClickResume
| ClickStop
| ClickReset
| ClickTightness (tighter : bool)
| PreviewStream (granted : bool)
| RecorderStopped
| AnimationFrame (dataArray : list byte)
| TimerFires (h : nat) (dataArray : list byte)
| Wait (dt : Z)
| ContextStateChange (state : AudioContextState).

Definition run_callback (cb : Callback) (dataArray : list byte) (s : Sys) : Sys :=
  match cb with
  | silenceElapsed => onSilenceElapsed s
  | countdownTick => onCountdownTick s
  | collectCalibrationData a => onCollectCalibrationData a dataArray s
  | calibrationElapsed a collect countdown analysis =>
      onCalibrationElapsed a collect countdown analysis dataArray s
  end.

Definition fire (t : Timer) (dataArray : list byte) (s : Sys) : Sys :=
  let s1 :=
    match every t with
    | None => clearTimer (handle t) s
    | Some period => rearm (handle t) period s
    end in
  run_callback (callback t) dataArray s1.

Definition may_wait (dt : Z) (s : Sys) : bool :=
  (0 <=? dt) && forallb (fun t => now s + dt <=? due t) (timers s).

Definition step (s : Sys) (e : Event) : option Sys :=
  match e with
  | ClickStart context =>
      if RecordingState_eqb (recordingState s) IDLE
      then Some (startCalibration context s) else None
  | ClickPause =>
      if RecordingState_eqb (recordingState s) RECORDING
      then Some (handleManualPause s) else None
  | ClickResume =>
      if RecordingState_eqb (recordingState s) PAUSED
      then Some (handleResume s) else None
  | ClickStop =>
      if RecordingState_eqb (recordingState s) RECORDING
         || RecordingState_eqb (recordingState s) PAUSED
      then Some (stopRecording s) else None
  | ClickReset =>
      if RecordingState_eqb (recordingState s) STOPPED
      then Some (handleReset s) else None
  | ClickTightness tighter =>
      if RecordingState_eqb (recordingState s) IDLE
         && negb (pauseTightness s =? (if tighter then 5 else -5))
      then Some (handleTightnessChange (if tighter then 1 else -1) s) else None
  | PreviewStream granted =>
      if RecordingState_eqb (recordingState s) IDLE
      then Some (startPreview granted s) else None
  | RecorderStopped =>
      match mediaRecorderRef s with
      | Some inactive => Some (onstop s)
      | _ => None
      end
  | AnimationFrame dataArray =>
      match animationFrame s with
      | Some seen => Some (runAudioAnalysis seen dataArray s)
      | None => None
      end
  | TimerFires h dataArray =>
      match find_timer h s with
      | Some t => if due t <=? now s then Some (fire t dataArray s) else None
      | None => None
      end
  | Wait dt =>
      if may_wait dt s then Some (s |> set_now (now s + dt)) else None
  | ContextStateChange state =>
      match audioContextRef s with
      | Some current =>
          if AudioContextState_eqb current closed || AudioContextState_eqb state closed
          then None
          else Some (s |> set_audioContextRef (Some state))
      | None => None
      end
  end.

Fixpoint run (s : Sys) (trace : list Event) : option Sys :=
  match trace with
  | [] => Some s
  | e :: rest =>
      match step s e with
      | Some s' => run s' rest
      | None => None
      end
  end.

Definition reachable (s : Sys) : Prop :=
  exists trace, run mounted trace = Some s.

(** The automatic pauses of a run: the silence timer's callback taking
    the recorder from [recording] to [paused]. *)
Definition is_automatic_pause (s : Sys) (e : Event) : bool :=
  match e with
  | TimerFires h _ =>
      match find_timer h s, mediaRecorderRef s with
      | Some t, Some recording =>
          match callback t with
          | silenceElapsed => due t <=? now s
          | _ => false
          end
      | _, _ => false
      end
  | _ => false
  end.

Fixpoint automatic_pauses (s : Sys) (trace : list Event) : nat :=
  match trace with
  | [] => 0
  | e :: rest =>
      match step s e with
      | Some s' =>
          ((if is_automatic_pause s e then 1 else 0) + automatic_pauses s' rest)%nat
      | None => 0%nat
      end
  end.

(** Time spent in the [Wait]s of a trace. *)
Fixpoint elapsed (trace : list Event) : Z :=
  match trace with
  | [] => 0
  | Wait dt :: rest => dt + elapsed rest
  | _ :: rest => elapsed rest
  end.

(** ** Concrete signals and sessions *)

(** A frame of 128 bins ([FFT_SIZE / 2]) that all hold [level]. *)
Definition frame (level : byte) : list byte := repeat level 128.

(** [rounds] times 100 ms of the calibration window: the collection
    interval runs at 50 and 100 ms, the countdown at 100 ms. *)
Fixpoint calibration_rounds (rounds : nat) (countdown collect : nat)
                            (dataArray : list byte) : list Event :=
  match rounds with
  | O => []
  | S k =>
      [Wait 50; TimerFires collect dataArray;
       Wait 50; TimerFires collect dataArray; TimerFires countdown dataArray]
      ++ calibration_rounds k countdown collect dataArray
  end.

(** A first session: preview granted, start clicked, the whole
    calibration window with the analyser yielding [room], and the
    completion timer, whose first analysis reads [first]. *)
Definition session_start (room first : list byte) : list Event :=
  [PreviewStream true; ClickStart running]
  ++ calibration_rounds 30 1 2 room
  ++ [TimerFires 3 first].

(** [n] animation frames 20 ms apart, all reading [level]. *)
Fixpoint frames_20ms (n : nat) (level : byte) : list Event :=
  match n with
  | O => []
  | S k => [Wait 20; AnimationFrame (frame level)] ++ frames_20ms k level
  end.

(** The state a concrete trace leads to. *)
Definition after (trace : list Event) (s : Sys) : Sys :=
  match run s trace with
  | Some s' => s'
  | None => s
  end.

(** A frame whose 128 bins sum to 64: one bin at 64, the others at 0. *)
Definition faint_frame : list byte := x40 :: repeat x00 127.

(** Sessions used as examples: a room calibrated at level 10
    (thresholds 20 and 25), recording with a silent first frame (the
    silence timer, handle 4, is due at 3400 ms) or with a loud one (no
    timer), and the first after 400 ms of silence. *)
Definition quiet_recording : Sys :=
  after (session_start (frame x0a) (frame x05)) mounted.

Definition noisy_recording : Sys :=
  after (session_start (frame x0a) (frame x1e)) mounted.

Definition auto_paused : Sys :=
  after (frames_20ms 20 x05 ++ [TimerFires 4 []]) quiet_recording.

(** A manual pause 20 ms into [noisy_recording], then a frame at level
    100 (the thresholds are 20 and 25). *)
Definition manual_pause_then_loud : list Event :=
  session_start (frame x0a) (frame x1e)
  ++ [Wait 20; ClickPause; Wait 20; AnimationFrame (frame x64)].

(** [quiet_recording] through its automatic pause at 3400 ms and its
    resume by one loud frame 20 ms later. *)
Definition resumed_by_loud_frame : Sys :=
  after [Wait 20; AnimationFrame (frame x1e)] auto_paused.

(** The same automatic pause, ended by the Resume button 20 ms later. *)
Definition resumed_by_click : Sys :=
  after [Wait 20; ClickResume] auto_paused.

(** 50 ms into a calibration, after the first collected sample. *)
Definition calibrating : Sys :=
  after [PreviewStream true; ClickStart running; Wait 50; TimerFires 2 (frame x0a)]
        mounted.

(** The rest of that calibration window, the completion timer, 400 ms
    of silence and the silence timer. *)
Definition rest_of_calibration : list Event :=
  [Wait 50; TimerFires 2 (frame x0a); TimerFires 1 (frame x0a)]
  ++ calibration_rounds 29 1 2 (frame x0a)
  ++ [TimerFires 3 (frame x05)]
  ++ frames_20ms 20 x05
  ++ [TimerFires 4 []].

(** Ticks of the loop and of the clock that carry no loud sample, and
    those that carry no sample above the silence threshold (with the
    timer callbacks that come due in between). *)
Definition is_tick_below (threshold : num) (e : Event) : bool :=
  match e with
  | Wait _ => true
  | AnimationFrame dataArray =>
      negb (isLoudEnoughToResume (averageVolume dataArray) threshold)
  | _ => false
  end.

Definition is_silent_tick (threshold : num) (e : Event) : bool :=
  match e with
  | Wait _ | TimerFires _ _ => true
  | AnimationFrame dataArray => isSilent (averageVolume dataArray) threshold
  | _ => false
  end.

(** The silence timer [h] is pending, due at [deadline], and is the
    only timer. *)
Definition armed (s : Sys) (h : nat) (deadline : Z) : Prop :=
  recordingState s = RECORDING /\
  silenceTimerRef s = Some h /\
  timers s = [Build_Timer h deadline None silenceElapsed] /\
  now s <= deadline.

(** ** What holds in every state the application can reach *)

Definition is_calibrationElapsed (t : Timer) : bool :=
  match callback t with
  | calibrationElapsed _ _ _ _ => true
  | _ => false
  end.

(** What a loop started from an idle render has seen. *)
Definition idle_closure (s : Sys) : AnalysisClosure :=
  {| seen_recordingState := IDLE;
     seen_isManuallyPaused := false;
     seen_pauseTightness := pauseTightness s |}.

Definition timer_ok (s : Sys) (t : Timer) : Prop :=
  (handle t < nextHandle s)%nat /\
  match callback t with
  | calibrationElapsed _ _ _ seen =>
      every t = None /\ recordingState s = CALIBRATING /\ seen = idle_closure s
  | silenceElapsed => every t = None /\ silenceTimerRef s = Some (handle t)
  | countdownTick | collectCalibrationData _ => every t <> None
  end.

(** [u] is the completion timer [t] of a calibration or one of the two
    intervals whose handles [t] holds. *)
Definition is_completion_of (u t : Timer) : Prop :=
  match callback t with
  | calibrationElapsed _ collectionInterval countdownInterval _ =>
      is_calibrationElapsed u = true \/
      handle u = collectionInterval \/ handle u = countdownInterval
  | _ => False
  end.

Definition lifecycle_ok (s : Sys) : Prop :=
  match recordingState s with
  | IDLE => mediaRecorderRef s = None /\ animationFrame s = None
  | CALIBRATING =>
      mediaRecorderRef s = None /\ animationFrame s = None /\
      streamRef s = true /\ analyserRef s = true /\
      exists t, In t (timers s) /\ is_calibrationElapsed t = true
  | RECORDING => mediaRecorderRef s = Some recording /\ animationFrame s <> None
  | PAUSED => mediaRecorderRef s = Some paused /\ animationFrame s <> None
  | STOPPED =>
      (mediaRecorderRef s = Some inactive \/ mediaRecorderRef s = None) /\
      animationFrame s = None
  end.

Record Inv (s : Sys) : Prop := {
  tightness_range : -5 <= pauseTightness s <= 5;
  idle_not_overridden : recordingState s = IDLE -> isManuallyPaused s = false;
  frame_closure :
    forall seen, animationFrame s = Some seen ->
                 seen = idle_closure s /\ analyserRef s = true;
  lifecycle : lifecycle_ok s;
  timers_ok : forall t, In t (timers s) -> timer_ok s t;
  handle_ok :
    forall h, silenceTimerRef s = Some h ->
              (h < nextHandle s)%nat /\
              forall t, In t (timers s) -> handle t = h -> callback t = silenceElapsed;
  one_completion :
    forall t1 t2, In t1 (timers s) -> In t2 (timers s) ->
                  is_calibrationElapsed t1 = true ->
                  is_calibrationElapsed t2 = true ->
                  handle t1 = handle t2 /\ callback t1 = callback t2;
  calibration_timers :
    forall u, In u (timers s) -> callback u <> silenceElapsed ->
              exists t, In t (timers s) /\ is_completion_of u t;
  threshold_ok : exists q, silenceThresholdRef s = Num q /\ (0 <= q)%Q
}.

(** ** Kinds of events *)

Definition is_start (e : Event) : bool :=
  match e with
  | ClickStart _ => true
  | _ => false
  end.

(** The events that need no user: time, timer callbacks and frames. *)
Definition is_passive (e : Event) : bool :=
  match e with
  | Wait _ | TimerFires _ _ | AnimationFrame _ => true
  | _ => false
  end.

Definition is_context_change (e : Event) : bool :=
  match e with
  | ContextStateChange _ => true
  | _ => false
  end.

Definition is_click (e : Event) : bool :=
  match e with
  | ClickStart _ | ClickPause | ClickResume | ClickStop | ClickReset
  | ClickTightness _ => true
  | _ => false
  end.

(** ** Samples *)

(** What [collectCalibrationData] can push: the mean of a frame of bytes,
    a number between 0 and 255, or [NaN] for a frame with no bin. *)
Definition sample_in_range (v : num) : Prop :=
  v = NaN \/ exists q, v = Num q /\ (0 <= q <= 255)%Q.

(** A session in a room at level 120, paused by its first 400 ms of
    level 5. *)
Definition loud_room_paused : Sys :=
  after (session_start (frame x78) (frame x05)
         ++ frames_20ms 20 x05 ++ [TimerFires 4 []]) mounted.

(** The stored samples are frame means, the baseline is a number between
    0 and 255, and it is positive once a recorder exists. *)
Definition samples_ok (s : Sys) : Prop :=
  (forall k data, In (k, data) (arrays s) -> Forall sample_in_range data) /\
  (exists q, silenceThresholdRef s = Num q /\ (0 <= q <= 255)%Q) /\
  (mediaRecorderRef s <> None ->
   exists q, silenceThresholdRef s = Num q /\ (0 < q <= 255)%Q).

(** [s'] has the samples and the baseline of [s], and a recorder only if
    [s] has one. *)
Definition keeps_samples (s s' : Sys) : Prop :=
  arrays s' = arrays s /\
  silenceThresholdRef s' = silenceThresholdRef s /\
  (mediaRecorderRef s' <> None -> mediaRecorderRef s <> None).

(** A session in a room at level 128: every frame is below twice the
    baseline, and the first one has set the silence timer. *)
Definition saturated_room_recording : Sys :=
  after (session_start (frame x80) (frame xff)) mounted.

(** ** The timer table *)

(** The table of a calibration begun at [started]: the countdown
    interval, the sampling interval and the completion timer, with
    consecutive handles.  [ticks] and [samples] count the runs of the two
    intervals; the countdown has lost 100 per tick, and the array of the
    calibration holds at most one sample per run of the sampling
    interval: a run takes a sample if it finds the [AudioContext]
    running.  With [steady] the context is known to have been in one
    state at every run so far: the array then holds one sample per run if
    that state is [running], none otherwise. *)
Definition calibration_table_when (steady : option AudioContextState)
                                  (started : Z) (s : Sys) : Prop :=
  exists (n : nat) (ticks samples : Z) (seen : AnalysisClosure),
    timers s =
      [ Build_Timer n (started + 100 * (ticks + 1)) (Some 100) countdownTick;
        Build_Timer (S n) (started + 50 * (samples + 1)) (Some 50)
                    (collectCalibrationData n);
        Build_Timer (S (S n)) (started + CALIBRATION_TIME_MS) None
                    (calibrationElapsed n (S n) n seen) ] /\
    calibrationCountdown s = CALIBRATION_TIME_MS - 100 * ticks /\
    (0 <= ticks /\ started + 100 * ticks <= now s <= started + 100 * (ticks + 1)) /\
    (0 <= samples /\ started + 50 * samples <= now s <= started + 50 * (samples + 1)) /\
    now s <= started + CALIBRATION_TIME_MS /\
    exists data rest,
      arrays s = (n, data) :: rest /\
      match steady with
      | None => Z.of_nat (length data) <= samples
      | Some context =>
          audioContextRef s = Some context /\
          Z.of_nat (length data) =
            match context with
            | running => samples
            | _ => 0
            end
      end.

Definition calibration_table (started : Z) (s : Sys) : Prop :=
  calibration_table_when None started s.

(** No timer, or the one silence timer, whose handle is stored and which
    is due within the delay of the session's tightness. *)
Definition silence_table (s : Sys) : Prop :=
  timers s = [] \/
  exists h deadline,
    timers s = [Build_Timer h deadline None silenceElapsed] /\
    silenceTimerRef s = Some h /\
    now s <= deadline <= now s + silenceDetectionTime (pauseTightness s).

Definition timer_table_ok (s : Sys) : Prop :=
  match recordingState s with
  | IDLE | STOPPED => timers s = []
  | CALIBRATING => exists started, calibration_table started s
  | RECORDING | PAUSED => silence_table s
  end.



(** ** [StatusIndicator.tsx]

    The text of the badge, lines 11-47; the colour and the icon are left
    out.  The countdown is a whole number of milliseconds, and
    [Math.ceil] of its quotient by 1000 is the ceiling of an integer
    division. *)
Inductive StatusText : Type :=
| calibrating_text (seconds : Z)
| recording_text
| paused_text
| finished_text
| ready_text.

Definition ceil_div (a b : Z) : Z := - ((- a) / b).

Definition getStatusContent (state : RecordingState) (calibrationCountdown : Z)
  : StatusText :=
  match state with
  | CALIBRATING => calibrating_text (ceil_div calibrationCountdown 1000)
  | RECORDING => recording_text
  | PAUSED => paused_text
  | STOPPED => finished_text
  | IDLE => ready_text
  end.

Definition StatusIndicator (state : RecordingState) (calibrationCountdown : Z)
  : option StatusText :=
  if RecordingState_eqb state IDLE then None
  else Some (getStatusContent state calibrationCountdown).



(** * The teleprompter

    [script], [scriptLines] and [currentLineIndex] of [App.tsx] and the
    wheel and touch handlers of [VideoPreview.tsx].  They share nothing
    with the recording controller but the lifecycle state, which decides
    whether the teleprompter is shown. *)

(** ** JavaScript strings

    A string is its sequence of UTF-16 code units. *)

Module JSString.

Definition LINE_FEED : N := 10.

(** WhiteSpace and LineTerminator of ECMAScript, the code units that
    [trim] strips: TAB, LF, VT, FF, CR, SP, NBSP, U+1680, U+2000 to
    U+200A, LS, PS, U+202F, U+205F, U+3000 and the byte order mark. *)
Definition is_white_space (c : N) : bool :=
  existsb (N.eqb c)
          [9; 10; 11; 12; 13; 32; 160; 5760; 8232; 8233; 8239; 8287; 12288; 65279]%N
  || ((8192 <=? c) && (c <=? 8202))%N.

Fixpoint trimStart (s : list N) : list N :=
  match s with
  | [] => []
  | c :: rest => if is_white_space c then trimStart rest else s
  end.

Definition trimEnd (s : list N) : list N := rev (trimStart (rev s)).

Definition trim (s : list N) : list N := trimEnd (trimStart s).

(** [s.split(sep)] for a separator of one code unit: the pieces between
    the separators, one more than there are separators. *)
Fixpoint split (sep : N) (s : list N) : list (list N) :=
  match s with
  | [] => [[]]
  | c :: rest =>
      if (c =? sep)%N then [] :: split sep rest
      else
        match split sep rest with
        | piece :: pieces => (c :: piece) :: pieces
        | [] => [[c]]
        end
  end.

(** The code units that are not white space. *)
Definition visible (s : list N) : list N :=
  filter (fun c => negb (is_white_space c)) s.

End JSString.

(** ** The script and its lines *)

(** [script.trim().split('\n').filter(line => line.trim().length > 0)],
    line 225 of [App.tsx]. *)
Definition lines (script : list N) : list (list N) :=
  filter (fun line => (0 <? length (JSString.trim line))%nat)
         (JSString.split JSString.LINE_FEED (JSString.trim script)).

Record Prompter : Type := {
  script : list N;
  scriptLines : list (list N);
  currentLineIndex : Z
}.

(** [useState] initial values, lines 23-25. *)
Definition prompter_mounted : Prompter :=
  {| script := []; scriptLines := []; currentLineIndex := 0 |}.

(** [onChange] of the script input, line 421. *)
Definition setScript (value : list N) (p : Prompter) : Prompter :=
  {| script := value;
     scriptLines := scriptLines p;
     currentLineIndex := currentLineIndex p |}.

(** What [startCalibration] does to the teleprompter, lines 225-227,
    before it looks at the stream. *)
Definition startCalibration_script (p : Prompter) : Prompter :=
  {| script := script p;
     scriptLines := lines (script p);
     currentLineIndex := 0 |}.

Inductive Direction : Type := up | down.

(** Lines 305-315. *)
Definition handleScriptScroll (direction : Direction) (p : Prompter) : Prompter :=
  if (length (scriptLines p) =? 0)%nat then p
  else
    {| script := script p;
       scriptLines := scriptLines p;
       currentLineIndex :=
         match direction with
         | down => Z.min (currentLineIndex p + 1) (Z.of_nat (length (scriptLines p)) - 1)
         | up => Z.max (currentLineIndex p - 1) 0
         end |}.

(** [scriptLines[currentLineIndex]], line 441: [undefined] out of range. *)
Definition currentScriptLine (p : Prompter) : option (list N) :=
  if currentLineIndex p <? 0 then None
  else nth_error (scriptLines p) (Z.to_nat (currentLineIndex p)).

(** ** [VideoPreview.tsx] *)

(** Line 59. *)
Definition isRecordingActive (recordingState : RecordingState) : bool :=
  RecordingState_eqb recordingState RECORDING
  || RecordingState_eqb recordingState PAUSED.

(** Line 65, as the condition under which the overlay and the line are
    rendered: a string is truthy unless it is empty. *)
Definition shouldShowTeleprompter (recordingState : RecordingState)
                                  (currentScriptLine : option (list N)) : bool :=
  isRecordingActive recordingState
  && match currentScriptLine with
     | Some line => (0 <? length line)%nat
     | None => false
     end.

(** [Math.abs] on the pixel coordinates of a touch, which are numbers. *)
Definition Math_abs (x : Q) : Q := if Qlt_le_dec x 0 then (- x)%Q else x.

Definition SCROLL_DEBOUNCE_MS : Z := 200.
Definition TOUCH_SCROLL_THRESHOLD : Q := 30.

(** The two refs of the component, lines 16-17. *)
Record Gestures : Type := {
  lastScrollTime : Z;
  touchStartY : option Q
}.

Definition gestures_mounted : Gestures :=
  {| lastScrollTime := 0; touchStartY := None |}.

(** Lines 67-78, with the value of [Date.now()]; the result is the call
    of [onScriptScroll], if there is one. *)
Definition handleWheel (date_now : Z) (deltaY : Q) (g : Gestures)
  : Gestures * option Direction :=
  if date_now - lastScrollTime g <? SCROLL_DEBOUNCE_MS then (g, None)
  else
    ({| lastScrollTime := date_now; touchStartY := touchStartY g |},
     Some (if Qlt_le_dec 0 deltaY then down else up)).

(** Lines 80-82. *)
Definition handleTouchStart (clientY : Q) (g : Gestures) : Gestures :=
  {| lastScrollTime := lastScrollTime g; touchStartY := Some clientY |}.

(** Lines 84-100. *)
Definition handleTouchMove (clientY : Q) (g : Gestures)
  : Gestures * option Direction :=
  match touchStartY g with
  | None => (g, None)
  | Some start =>
      let deltaY := (clientY - start)%Q in
      if Qlt_le_dec TOUCH_SCROLL_THRESHOLD (Math_abs deltaY) then
        ({| lastScrollTime := lastScrollTime g; touchStartY := None |},
         Some (if Qlt_le_dec deltaY 0 then down else up))
      else (g, None)
  end.

(** Lines 102-104. *)
Definition handleTouchEnd (g : Gestures) : Gestures :=
  {| lastScrollTime := lastScrollTime g; touchStartY := None |}.

(** The events of the overlay, which is rendered while the teleprompter
    is shown (lines 113-123), and what they do to the two refs and,
    through [onScriptScroll], to the line shown. *)
Inductive Gesture : Type :=
| Wheel (date_now : Z) (deltaY : Q)
| TouchStart (clientY : Q)
| TouchMove (clientY : Q)
| TouchEnd.

Definition gesture (e : Gesture) (g : Gestures) : Gestures * option Direction :=
  match e with
  | Wheel date_now deltaY => handleWheel date_now deltaY g
  | TouchStart clientY => (handleTouchStart clientY g, None)
  | TouchMove clientY => handleTouchMove clientY g
  | TouchEnd => (handleTouchEnd g, None)
  end.

Definition onScriptScroll (call : option Direction) (p : Prompter) : Prompter :=
  match call with
  | Some direction => handleScriptScroll direction p
  | None => p
  end.

(** The gestures of a list in turn: the refs, the teleprompter and the
    scrolls they made, each with the time of its wheel event if it came
    from the wheel. *)
Fixpoint gestures (events : list Gesture) (g : Gestures) (p : Prompter)
  : Gestures * Prompter :=
  match events with
  | [] => (g, p)
  | e :: rest =>
      let (g', call) := gesture e g in
      gestures rest g' (onScriptScroll call p)
  end.

Fixpoint scrolls (events : list Gesture) (g : Gestures) : list Direction :=
  match events with
  | [] => []
  | e :: rest =>
      let (g', call) := gesture e g in
      match call with
      | Some direction => direction :: scrolls rest g'
      | None => scrolls rest g'
      end
  end.

(** The times of the wheel events of a list that scrolled. *)
Fixpoint wheel_scroll_times (events : list Gesture) (g : Gestures) : list Z :=
  match events with
  | [] => []
  | e :: rest =>
      let (g', call) := gesture e g in
      match e, call with
      | Wheel date_now _, Some _ => date_now :: wheel_scroll_times rest g'
      | _, _ => wheel_scroll_times rest g'
      end
  end.

Definition is_touch_start (e : Gesture) : bool :=
  match e with
  | TouchStart _ => true
  | _ => false
  end.

Definition is_wheel (e : Gesture) : bool :=
  match e with
  | Wheel _ _ => true
  | _ => false
  end.

(** ** The canvas preview

    The source rectangle of [drawFrame], lines 133-155 of the canvas
    variant of the preview kept in [StatusIndicator.tsx]: the part of
    the video frame that is drawn onto the whole canvas.  The sizes are
    whole numbers of pixels; quotients are exact, and the model covers
    sizes that are not 0 (a size of 0 makes an aspect ratio infinite or
    [NaN]). *)
Record SourceRect : Type := {
  sx : Q;
  sy : Q;
  sWidth : Q;
  sHeight : Q
}.

Definition drawFrame_source (videoWidth videoHeight canvasWidth canvasHeight : Z)
  : SourceRect :=
  let videoAspect := (inject_Z videoWidth / inject_Z videoHeight)%Q in
  let canvasAspect := (inject_Z canvasWidth / inject_Z canvasHeight)%Q in
  if Qlt_le_dec canvasAspect videoAspect then
    let sWidth := (inject_Z videoHeight * canvasAspect)%Q in
    {| sx := (inject_Z videoWidth - sWidth) / 2;
       sy := 0;
       sWidth := sWidth;
       sHeight := inject_Z videoHeight |}
  else
    let sHeight := (inject_Z videoWidth / canvasAspect)%Q in
    {| sx := 0;
       sy := (inject_Z videoHeight - sHeight) / 2;
       sWidth := inject_Z videoWidth;
       sHeight := sHeight |}.

(** Time passing and frames that are not silent. *)
Definition is_speech_tick (threshold : num) (e : Event) : bool :=
  match e with
  | Wait _ => true
  | AnimationFrame dataArray => negb (isSilent (averageVolume dataArray) threshold)
  | _ => false
  end.

(** ** A recorder that stops unasked *)



(** * Properties *)

(** Closed facts about concrete sessions, by evaluation. *)
Ltac by_evaluation :=
  repeat match goal with |- _ /\ _ => split end; vm_compute; reflexivity.

(** ** Numbers *)

Lemma lt_Num (x y : Q) : lt (Num x) (Num y) = true <-> (x < y)%Q.
Proof.
  unfold lt. rewrite negb_true_iff.
  split; intro H.
  - apply Qnot_le_lt. intro Hle. apply Qle_bool_iff in Hle. congruence.
  - destruct (Qle_bool y x) eqn:E; [ | reflexivity ].
    apply Qle_bool_iff in E. exfalso. apply (Qlt_not_le _ _ H E).
Qed.

Lemma lt_Num_false (x y : Q) : lt (Num x) (Num y) = false <-> (y <= x)%Q.
Proof.
  unfold lt. rewrite negb_false_iff. apply Qle_bool_iff.
Qed.

Lemma isSilent_Num (v b : Q) :
  isSilent (Num v) (Num b) = true <-> (v < b * 2)%Q.
Proof.
  unfold isSilent, mul, SILENCE_MULTIPLIER. rewrite lt_Num.
  now rewrite Qred_correct.
Qed.

Lemma isLoud_Num (v b : Q) :
  isLoudEnoughToResume (Num v) (Num b) = true <-> (b * (5 # 2) < v)%Q.
Proof.
  unfold isLoudEnoughToResume, gt, mul, SOUND_MULTIPLIER. rewrite lt_Num.
  now rewrite Qred_correct.
Qed.

Lemma silent_not_loud (v b : num) :
  (exists q, b = Num q /\ (0 <= q)%Q) ->
  isSilent v b = true -> isLoudEnoughToResume v b = false.
Proof.
  intros (q & -> & Hq) Hs.
  destruct v as [ | v]; [ discriminate | ].
  apply isSilent_Num in Hs.
  destruct (isLoudEnoughToResume (Num v) (Num q)) eqn:E; [ | reflexivity ].
  apply isLoud_Num in E. exfalso. lra.
Qed.

(** C1. For every baseline [b >= 1] and every volume [v], the sample is
    silent exactly when [v < 2.0 * b] and loud enough to resume exactly
    when [v > 2.5 * b]; the three-way classification is [Silent], [Loud]
    or [Neutral] accordingly, and the two flags are never both set. *)
Theorem classification_thresholds (v b : Q) :
  (1 <= b)%Q ->
  (isSilent (Num v) (Num b) = true <-> (v < 2 * b)%Q) /\
  (isLoudEnoughToResume (Num v) (Num b) = true <-> ((5 # 2) * b < v)%Q) /\
  (classify (Num v) (Num b) = Silent <-> (v < 2 * b)%Q) /\
  (classify (Num v) (Num b) = Loud <-> ((5 # 2) * b < v)%Q) /\
  (classify (Num v) (Num b) = Neutral <-> (2 * b <= v /\ v <= (5 # 2) * b)%Q) /\
  ~ (isSilent (Num v) (Num b) = true /\ isLoudEnoughToResume (Num v) (Num b) = true).
Proof.
  intro Hb.
  assert (HS : isSilent (Num v) (Num b) = true <-> (v < 2 * b)%Q).
  { rewrite isSilent_Num. split; intro; lra. }
  assert (HL : isLoudEnoughToResume (Num v) (Num b) = true <-> ((5 # 2) * b < v)%Q).
  { rewrite isLoud_Num. split; intro; lra. }
  unfold classify.
  destruct (isSilent (Num v) (Num b)) eqn:ES;
    destruct (isLoudEnoughToResume (Num v) (Num b)) eqn:EL.
  - exfalso. assert (v < 2 * b)%Q by (now apply HS).
    assert ((5 # 2) * b < v)%Q by (now apply HL). lra.
  - assert (v < 2 * b)%Q by (now apply HS).
    repeat split; try tauto; try discriminate; try (intro; lra);
      try (intros [? ?]; discriminate).
  - assert ((5 # 2) * b < v)%Q by (now apply HL).
    repeat split; try tauto; try discriminate; try (intro; lra);
      try (intros [? ?]; discriminate).
  - assert (~ (v < 2 * b)%Q) by (intro X; apply HS in X; discriminate).
    assert (~ ((5 # 2) * b < v)%Q) by (intro X; apply HL in X; discriminate).
    repeat split; try tauto; try discriminate; try lra;
      try (intros [? ?]; discriminate).
Qed.

Lemma classification_thresholds_witness :
  (1 <= 10)%Q /\
  classify (Num 5) (Num 10) = Silent /\
  classify (Num 26) (Num 10) = Loud /\
  classify (Num 22) (Num 10) = Neutral.
Proof.
  pose proof (classification_thresholds 5 10) as H5.
  pose proof (classification_thresholds 26 10) as H26.
  pose proof (classification_thresholds 22 10) as H22.
  assert (Hb : (1 <= 10)%Q) by (unfold Qle; simpl; lia).
  split; [ exact Hb | ].
  split; [ | split ].
  - apply (proj1 (proj2 (proj2 (H5 Hb)))). unfold Qlt; simpl; lia.
  - apply (proj1 (proj2 (proj2 (proj2 (H26 Hb))))). unfold Qlt; simpl; lia.
  - apply (proj1 (proj2 (proj2 (proj2 (proj2 (H22 Hb)))))).
    split; unfold Qle; simpl; lia.
Defined.

(** ** The level meter *)

Lemma byte_value_range (b : byte) : 0 <= byte_value b <= 255.
Proof.
  unfold byte_value. pose proof (Byte.to_N_bounded b) as H.
  apply N2Z.inj_le in H. simpl in H. lia.
Qed.

Lemma sum_bins_from (dataArray : list byte) (acc : Z) :
  fold_left (fun a val => a + byte_value val) dataArray acc
  = acc + sum_bins dataArray.
Proof.
  unfold sum_bins. revert acc.
  induction dataArray as [ | b rest IH]; intro acc; simpl.
  - lia.
  - rewrite IH. rewrite (IH (byte_value b)). lia.
Qed.

Lemma sum_bins_cons (b : byte) (rest : list byte) :
  sum_bins (b :: rest) = byte_value b + sum_bins rest.
Proof.
  unfold sum_bins at 1. simpl. apply sum_bins_from.
Qed.

Lemma sum_bins_range (dataArray : list byte) :
  0 <= sum_bins dataArray <= 255 * Z.of_nat (length dataArray).
Proof.
  induction dataArray as [ | b rest IH].
  - simpl. unfold sum_bins. simpl. lia.
  - rewrite sum_bins_cons. pose proof (byte_value_range b).
    change (length (b :: rest)) with (S (length rest)). lia.
Qed.

(** C9, as the code has it. With zero bins the level meter divides the
    sum 0 by the length 0 and yields NaN, which is neither silent nor
    loud for any baseline; with at least one bin it yields the
    arithmetic mean of the bins, a number between 0 and 255. *)
Theorem averageVolume_mean (dataArray : list byte) :
  match dataArray with
  | [] =>
      averageVolume dataArray = NaN /\
      forall b, isSilent (averageVolume dataArray) b = false /\
                isLoudEnoughToResume (averageVolume dataArray) b = false
  | _ :: _ =>
      exists q,
        averageVolume dataArray = Num q /\
        (q == inject_Z (sum_bins dataArray) / inject_Z (Z.of_nat (length dataArray)))%Q /\
        (0 <= q <= 255)%Q
  end.
Proof.
  destruct dataArray as [ | b rest].
  - split; [ reflexivity | ].
    intro t. unfold isSilent, isLoudEnoughToResume, gt, averageVolume. simpl.
    destruct t; simpl; split; reflexivity.
  - set (l := b :: rest).
    exists (Qred (inject_Z (sum_bins l) / inject_Z (Z.of_nat (length l)))).
    split; [ reflexivity | ].
    split; [ apply Qred_correct | ].
    rewrite Qred_correct.
    pose proof (sum_bins_range l) as Hr.
    assert (Hn : (0 < inject_Z (Z.of_nat (length l)))%Q).
    { unfold l. rewrite <- (Zlt_Qlt 0). simpl length. lia. }
    split.
    + apply Qle_shift_div_l; [ exact Hn | ].
      rewrite Qmult_0_l. rewrite <- (Zle_Qle 0). lia.
    + apply Qle_shift_div_r; [ exact Hn | ].
      change 255%Q with (inject_Z 255). rewrite <- inject_Z_mult.
      rewrite <- Zle_Qle. lia.
Qed.

(** C9, as stated, fails: zero bins do not give the number 0. *)
Lemma zero_bins_not_zero :
  averageVolume [] = NaN /\
  averageVolume [] <> of_Z 0 /\
  ~ same (averageVolume []) (of_Z 0).
Proof.
  split; [ reflexivity | ].
  split.
  - discriminate.
  - intro H. exact H.
Qed.

(** ** The baseline *)

Lemma baseline_gt_0 (calibrationData : list num) :
  exists q, baseline calibrationData = Num q /\ (0 < q)%Q.
Proof.
  unfold baseline.
  destruct (0 <? length calibrationData)%nat;
    [ | exists 1%Q; split; reflexivity ].
  destruct (div_length (sum_samples calibrationData) (length calibrationData))
    as [ | m]; [ exists 1%Q; split; reflexivity | ].
  unfold gt, of_Z. destruct (lt (Num (inject_Z 0)) (Num m)) eqn:E.
  - exists m. split; [ reflexivity | ]. apply lt_Num in E. exact E.
  - exists 1%Q. split; reflexivity.
Qed.

(** C3, as the code has it. The baseline is always a number greater
    than 0: it is the arithmetic mean of the collected samples when that
    mean is positive, whatever its size, and exactly 1 when no sample
    was collected, when the mean is 0 (or below) and when it is not a
    number. *)
Theorem baseline_positive (calibrationData : list num) :
  let average := div_length (sum_samples calibrationData) (length calibrationData) in
  (exists q, baseline calibrationData = Num q /\ (0 < q)%Q) /\
  (calibrationData = [] -> baseline calibrationData = Num 1) /\
  (forall m, average = Num m -> (m == 0)%Q -> baseline calibrationData = Num 1) /\
  (forall m, average = Num m -> (m <= 0)%Q -> baseline calibrationData = Num 1) /\
  (average = NaN -> baseline calibrationData = Num 1) /\
  (forall m, average = Num m -> (0 < m)%Q -> baseline calibrationData = Num m).
Proof.
  intro average.
  assert (Hpos : forall m, average = Num m -> (0 < m)%Q ->
                           baseline calibrationData = Num m).
  { intros m Hm Hlt. unfold baseline.
    destruct calibrationData as [ | v rest].
    - unfold average in Hm. simpl in Hm. discriminate.
    - change (0 <? length (v :: rest))%nat with true. cbv iota.
      fold average. rewrite Hm. unfold gt, of_Z.
      replace (lt (Num (inject_Z 0)) (Num m)) with true; [ reflexivity | ].
      symmetry. apply lt_Num. exact Hlt. }
  assert (Hneg : forall m, average = Num m -> (m <= 0)%Q ->
                           baseline calibrationData = Num 1).
  { intros m Hm Hle. unfold baseline.
    destruct (0 <? length calibrationData)%nat; [ | reflexivity ].
    fold average. rewrite Hm. unfold gt, of_Z.
    replace (lt (Num (inject_Z 0)) (Num m)) with false; [ reflexivity | ].
    symmetry. apply lt_Num_false. exact Hle. }
  assert (Hnan : average = NaN -> baseline calibrationData = Num 1).
  { intro Hm. unfold baseline.
    destruct (0 <? length calibrationData)%nat; [ | reflexivity ].
    fold average. rewrite Hm. reflexivity. }
  split; [ | split; [ | split; [ | split; [ | split ] ] ] ].
  - destruct average as [ | m] eqn:E.
    + exists 1%Q. split; [ now apply Hnan | reflexivity ].
    + destruct (Qlt_le_dec 0 m) as [Hlt | Hle].
      * exists m. split; [ now apply Hpos | exact Hlt ].
      * exists 1%Q. split; [ now apply (Hneg m) | reflexivity ].
  - intros ->. reflexivity.
  - intros m Hm H0. apply (Hneg m Hm). rewrite H0. apply Qle_refl.
  - exact Hneg.
  - exact Hnan.
  - exact Hpos.
Qed.

Lemma baseline_positive_witness :
  baseline [] = Num 1 /\
  baseline [averageVolume (frame x00); averageVolume (frame x00)] = Num 1 /\
  baseline [averageVolume (frame x0a); averageVolume (frame x14)] = Num 15.
Proof.
  split; [ | split ].
  - apply (proj1 (proj2 (baseline_positive []))). reflexivity.
  - apply (proj1 (proj2 (proj2
             (baseline_positive [averageVolume (frame x00); averageVolume (frame x00)])))
           0%Q).
    + vm_compute. reflexivity.
    + reflexivity.
  - apply (proj2 (proj2 (proj2 (proj2 (proj2
             (baseline_positive [averageVolume (frame x0a); averageVolume (frame x14)])))))
           15%Q).
    + vm_compute. reflexivity.
    + reflexivity.
Defined.

(** C3, as stated, fails: a quiet room whose frames average 1/2 gives
    the baseline 1/2, which is below 1; a whole calibration window of
    such frames leaves that value in [silenceThresholdRef]. *)
Lemma baseline_below_one :
  averageVolume faint_frame = Num (1 # 2) /\
  baseline [averageVolume faint_frame] = Num (1 # 2) /\
  silenceThresholdRef (after (session_start faint_frame faint_frame) mounted)
  = Num (1 # 2) /\
  ~ (1 <= 1 # 2)%Q.
Proof.
  split; [ vm_compute; reflexivity | ].
  split; [ vm_compute; reflexivity | ].
  split; [ vm_compute; reflexivity | ].
  intro H. unfold Qle in H. simpl in H. lia.
Qed.

(** ** Timers *)

Lemma In_clearTimer (h : nat) (s : Sys) (t : Timer) :
  In t (timers (clearTimer h s)) <-> In t (timers s) /\ handle t <> h.
Proof.
  unfold clearTimer. simpl. rewrite filter_In.
  rewrite negb_true_iff, Nat.eqb_neq. tauto.
Qed.

Lemma find_timer_In (h : nat) (s : Sys) (t : Timer) :
  find_timer h s = Some t -> In t (timers s) /\ handle t = h.
Proof.
  unfold find_timer. intro H. apply find_some in H.
  destruct H as [H1 H2]. apply Nat.eqb_eq in H2. tauto.
Qed.

Lemma find_timer_cleared (h : nat) (s : Sys) :
  find_timer h (clearTimer h s) = None.
Proof.
  destruct (find_timer h (clearTimer h s)) as [t | ] eqn:E; [ | reflexivity ].
  apply find_timer_In in E. destruct E as [E1 E2].
  apply In_clearTimer in E1. tauto.
Qed.

(** A re-armed interval keeps its handle and callback. *)
Lemma In_rearm (h : nat) (period : Z) (s : Sys) (t : Timer) :
  In t (timers (rearm h period s)) ->
  exists t0, In t0 (timers s) /\ handle t = handle t0 /\
             callback t = callback t0 /\ every t = every t0.
Proof.
  unfold rearm. simpl. rewrite in_map_iff.
  intros [t0 [E Hin]]. exists t0. split; [ exact Hin | ].
  destruct (handle t0 =? h)%nat; subst t; simpl; tauto.
Qed.

Lemma rearm_In (h : nat) (period : Z) (s : Sys) (t0 : Timer) :
  In t0 (timers s) ->
  exists t, In t (timers (rearm h period s)) /\
            handle t = handle t0 /\ callback t = callback t0.
Proof.
  unfold rearm. simpl. intro Hin.
  eexists. split.
  - apply in_map_iff. exists t0. split; [ reflexivity | exact Hin ].
  - destruct (handle t0 =? h)%nat; simpl; tauto.
Qed.

Lemma is_calibrationElapsed_callback (t t0 : Timer) :
  callback t = callback t0 -> is_calibrationElapsed t = is_calibrationElapsed t0.
Proof.
  unfold is_calibrationElapsed. intros ->. reflexivity.
Qed.

(** ** The invariant *)

Lemma Inv_mounted : Inv mounted.
Proof.
  constructor; simpl; try (intros; discriminate); try tauto; try lia.
  - unfold lifecycle_ok. simpl. tauto.
  - exists 0%Q. split; [ reflexivity | apply Qle_refl ].
Qed.

Ltac use_inv H :=
  let Ht := fresh "Htight" in
  let Hi := fresh "Hidle" in
  let Hf := fresh "Hframe" in
  let Hl := fresh "Hlife" in
  let Hk := fresh "Htimers" in
  let Hh := fresh "Hhandle" in
  let Ho := fresh "Hone" in
  let Hc := fresh "Hcal" in
  let Hq := fresh "Hthreshold" in
  destruct H as [Ht Hi Hf Hl Hk Hh Ho Hc Hq].

Lemma timer_ok_outside_calibration (s s' : Sys) (t : Timer) :
  timer_ok s t ->
  recordingState s <> CALIBRATING ->
  (nextHandle s <= nextHandle s')%nat ->
  silenceTimerRef s' = silenceTimerRef s ->
  timer_ok s' t.
Proof.
  unfold timer_ok. intros [Hlt Hcb] Hst Hn Href.
  split; [ lia | ].
  destruct (callback t); try tauto.
  rewrite Href. exact Hcb.
Qed.

Lemma only_silence_timers (s : Sys) (u : Timer) :
  Inv s ->
  recordingState s <> CALIBRATING ->
  In u (timers s) ->
  callback u = silenceElapsed /\ every u = None /\
  silenceTimerRef s = Some (handle u).
Proof.
  intros H Hst Hin.
  assert (E : callback u = silenceElapsed).
  { destruct (callback u) eqn:Ecb; try reflexivity; exfalso.
    all: destruct (calibration_timers s H u Hin) as (t & Ht & Hc);
      [ rewrite Ecb; discriminate | ].
    all: unfold is_completion_of in Hc;
      pose proof (timers_ok s H t Ht) as Hok; unfold timer_ok in Hok;
      destruct (callback t); try contradiction; tauto. }
  pose proof (timers_ok s H u Hin) as Hok. unfold timer_ok in Hok.
  rewrite E in Hok. tauto.
Qed.

(** Outside a calibration every timer is a silence timer, so nothing is
    left to say about calibration timers. *)
Ltac no_calibration_timers s H :=
  let u := fresh "u" in
  let Hu := fresh "Hu" in
  let Hns := fresh "Hns" in
  intros u Hu Hns; exfalso; apply Hns;
  apply (only_silence_timers s u H); [ congruence | auto ].

Lemma Inv_wait (s : Sys) (t : Z) : Inv s -> Inv (set_now t s).
Proof.
  intro H. use_inv H. constructor; simpl; assumption.
Qed.

Lemma Inv_contextState (s : Sys) (v : option AudioContextState) :
  Inv s -> Inv (set_audioContextRef v s).
Proof.
  intro H. use_inv H. constructor; simpl; assumption.
Qed.

Lemma step_contextState (s s' : Sys) (state : AudioContextState) :
  step s (ContextStateChange state) = Some s' ->
  s' = set_audioContextRef (Some state) s.
Proof.
  simpl. destruct (audioContextRef s) as [current | ]; [ | discriminate ].
  destruct (AudioContextState_eqb current closed || AudioContextState_eqb state closed);
    [ discriminate | ].
  intro H. injection H as <-. reflexivity.
Qed.

Lemma Inv_startPreview (s : Sys) (granted : bool) :
  recordingState s = IDLE -> Inv s -> Inv (startPreview granted s).
Proof.
  intros Hst H. use_inv H.
  unfold lifecycle_ok in Hlife. rewrite Hst in Hlife.
  unfold startPreview, stopPreviewStream.
  destruct granted, (streamRef s);
    (constructor; simpl; try assumption;
     unfold lifecycle_ok; simpl; rewrite Hst; assumption).
Qed.

Lemma Inv_handleTightnessChange (s : Sys) (delta : Z) :
  recordingState s = IDLE -> Inv s -> Inv (handleTightnessChange delta s).
Proof.
  intros Hst H. pose proof H as H0. use_inv H.
  unfold lifecycle_ok in Hlife. rewrite Hst in Hlife. destruct Hlife as [Hrec Hfr].
  unfold handleTightnessChange, handleTightnessChange_value.
  constructor; simpl.
  - lia.
  - assumption.
  - intros seen E. rewrite Hfr in E. discriminate.
  - unfold lifecycle_ok. simpl. rewrite Hst. tauto.
  - intros t Hin. apply (timer_ok_outside_calibration s); simpl; auto; congruence.
  - assumption.
  - assumption.
  - no_calibration_timers s H0.
  - assumption.
Qed.

Lemma Inv_handleManualPause (s : Sys) :
  recordingState s = RECORDING -> Inv s -> Inv (handleManualPause s).
Proof.
  intros Hst H. pose proof H as H0. use_inv H.
  unfold lifecycle_ok in Hlife. rewrite Hst in Hlife. destruct Hlife as [Hrec Hfr].
  unfold handleManualPause. rewrite Hrec.
  constructor; simpl.
  - assumption.
  - discriminate.
  - assumption.
  - unfold lifecycle_ok. simpl. tauto.
  - intros t Hin. apply (timer_ok_outside_calibration s); simpl; auto; congruence.
  - assumption.
  - assumption.
  - no_calibration_timers s H0.
  - assumption.
Qed.

Lemma Inv_handleResume (s : Sys) :
  recordingState s = PAUSED -> Inv s -> Inv (handleResume s).
Proof.
  intros Hst H. pose proof H as H0. use_inv H.
  unfold lifecycle_ok in Hlife. rewrite Hst in Hlife. destruct Hlife as [Hrec Hfr].
  unfold handleResume. rewrite Hrec.
  constructor; simpl.
  - assumption.
  - discriminate.
  - assumption.
  - unfold lifecycle_ok. simpl. tauto.
  - intros t Hin. apply (timer_ok_outside_calibration s); simpl; auto; congruence.
  - assumption.
  - assumption.
  - no_calibration_timers s H0.
  - assumption.
Qed.

Lemma stopRecording_fields (s : Sys) :
  recordingState s = RECORDING \/ recordingState s = PAUSED ->
  mediaRecorderRef s <> None ->
  let s' := stopRecording s in
  recordingState s' = STOPPED /\
  mediaRecorderRef s' = Some inactive /\
  animationFrame s' = None /\
  isManuallyPaused s' = false /\
  pauseTightness s' = pauseTightness s /\
  nextHandle s' = nextHandle s /\
  silenceTimerRef s' = silenceTimerRef s /\
  forall t, In t (timers s') <->
            In t (timers s) /\ silenceTimerRef s <> Some (handle t).
Proof.
  intros Hst Hrec. unfold stopRecording.
  destruct (mediaRecorderRef s) as [st | ]; [ | contradiction ].
  replace (negb (RecordingState_eqb (recordingState s) IDLE)
           && negb (RecordingState_eqb (recordingState s) STOPPED)) with true
    by (destruct Hst as [-> | ->]; reflexivity).
  simpl. destruct (silenceTimerRef s) as [h | ] eqn:E; simpl.
  - repeat (split; [ reflexivity || assumption | ]).
    intro t. rewrite filter_In, negb_true_iff, Nat.eqb_neq.
    split; (intros [Hin Hne]; split; [ exact Hin | congruence ]).
  - repeat (split; [ reflexivity || assumption | ]).
    intro t. split; [ intro Hin; split; [ exact Hin | discriminate ] | tauto ].
Qed.

Lemma stopRecording_threshold (s : Sys) :
  silenceThresholdRef (stopRecording s) = silenceThresholdRef s.
Proof.
  unfold stopRecording.
  destruct (mediaRecorderRef s);
    [ destruct (negb (RecordingState_eqb (recordingState s) IDLE)
                && negb (RecordingState_eqb (recordingState s) STOPPED)) | ];
    simpl; destruct (silenceTimerRef s); reflexivity.
Qed.

Lemma cleanupRecording_threshold (s : Sys) :
  silenceThresholdRef (cleanupRecording s) = silenceThresholdRef s.
Proof.
  unfold cleanupRecording. simpl.
  destruct (audioContextRef s) as [[ | | ] | ]; reflexivity.
Qed.

Lemma stopPreviewStream_threshold (s : Sys) :
  silenceThresholdRef (stopPreviewStream s) = silenceThresholdRef s.
Proof.
  unfold stopPreviewStream. destruct (streamRef s); reflexivity.
Qed.

Lemma Inv_stopRecording (s : Sys) :
  recordingState s = RECORDING \/ recordingState s = PAUSED ->
  Inv s -> Inv (stopRecording s).
Proof.
  intros Hst H. pose proof H as H0. use_inv H.
  assert (Hnc : recordingState s <> CALIBRATING) by (destruct Hst; congruence).
  assert (Hrec : mediaRecorderRef s <> None).
  { unfold lifecycle_ok in Hlife.
    destruct Hst as [E | E]; rewrite E in Hlife; destruct Hlife as [-> _];
      discriminate. }
  destruct (stopRecording_fields s Hst Hrec)
    as (E1 & E2 & E3 & E4 & E5 & E6 & E7 & E8).
  constructor.
  - rewrite E5. assumption.
  - intros _. exact E4.
  - intros seen E. rewrite E3 in E. discriminate.
  - unfold lifecycle_ok. rewrite E1. tauto.
  - intros t Hin. apply E8 in Hin. destruct Hin as [Hin _].
    apply (timer_ok_outside_calibration s);
      [ auto | exact Hnc | rewrite E6; lia | exact E7 ].
  - intros h Hh. rewrite E7 in Hh. rewrite E6.
    destruct (Hhandle h Hh) as [Hlt Hcb].
    split; [ exact Hlt | ].
    intros t Hin. apply E8 in Hin. apply Hcb. tauto.
  - intros t1 t2 H1 H2. apply E8 in H1. apply E8 in H2. apply Hone; tauto.
  - intros u Hu Hns. apply E8 in Hu. destruct Hu as [Hu _].
    exfalso. apply Hns. now apply (only_silence_timers s u H0).
  - rewrite stopRecording_threshold. assumption.
Qed.

Lemma Inv_cleanupRecording_fields (s : Sys) :
  let s' := cleanupRecording s in
  pauseTightness s' = pauseTightness s /\
  recordingState s' = recordingState s /\
  isManuallyPaused s' = isManuallyPaused s /\
  animationFrame s' = None /\
  mediaRecorderRef s' = None /\
  timers s' = timers s /\
  nextHandle s' = nextHandle s /\
  silenceTimerRef s' = silenceTimerRef s /\
  streamRef s' = streamRef s /\
  analyserRef s' = analyserRef s.
Proof.
  unfold cleanupRecording. simpl.
  destruct (audioContextRef s) as [st | ]; [ destruct st | ]; simpl; tauto.
Qed.

Lemma Inv_handleReset (s : Sys) :
  recordingState s = STOPPED -> Inv s -> Inv (handleReset s).
Proof.
  intros Hst H. pose proof H as H0. use_inv H.
  unfold handleReset.
  pose (s0 := s |> set_recordingState IDLE |> set_error false
                |> set_isManuallyPaused false).
  change (Inv (cleanupRecording s0)).
  destruct (Inv_cleanupRecording_fields s0)
    as (E1 & E2 & E3 & E4 & E5 & E6 & E7 & E8 & E9 & E10).
  change (pauseTightness s0) with (pauseTightness s) in E1.
  change (recordingState s0) with IDLE in E2.
  change (isManuallyPaused s0) with false in E3.
  change (timers s0) with (timers s) in E6.
  change (nextHandle s0) with (nextHandle s) in E7.
  change (silenceTimerRef s0) with (silenceTimerRef s) in E8.
  assert (Ethr : silenceThresholdRef (cleanupRecording s0) = silenceThresholdRef s)
    by (rewrite cleanupRecording_threshold; reflexivity).
  clearbody s0.
  constructor.
  - rewrite E1. assumption.
  - intros _. rewrite E3. reflexivity.
  - intros seen E. rewrite E4 in E. discriminate.
  - unfold lifecycle_ok. rewrite E2. tauto.
  - intros t Hin. rewrite E6 in Hin.
    apply (timer_ok_outside_calibration s); auto; try congruence.
    rewrite E7. lia.
  - intros h Hh. rewrite E8 in Hh. rewrite E7, E6. auto.
  - rewrite E6. assumption.
  - rewrite E6. no_calibration_timers s H0.
  - rewrite Ethr. assumption.
Qed.

Lemma Inv_onstop (s : Sys) :
  mediaRecorderRef s = Some inactive -> Inv s -> Inv (onstop s).
Proof.
  intros Hrec H. pose proof H as H0. use_inv H.
  assert (Hst : recordingState s = STOPPED).
  { unfold lifecycle_ok in Hlife.
    destruct (recordingState s); try reflexivity;
      destruct Hlife as [Hl _]; congruence. }
  unfold onstop.
  destruct (Inv_cleanupRecording_fields s)
    as (E1 & E2 & E3 & E4 & E5 & E6 & E7 & E8 & E9 & E10).
  assert (F : forall s0 : Sys,
             pauseTightness (stopPreviewStream s0) = pauseTightness s0 /\
             recordingState (stopPreviewStream s0) = recordingState s0 /\
             isManuallyPaused (stopPreviewStream s0) = isManuallyPaused s0 /\
             animationFrame (stopPreviewStream s0) = animationFrame s0 /\
             mediaRecorderRef (stopPreviewStream s0) = mediaRecorderRef s0 /\
             timers (stopPreviewStream s0) = timers s0 /\
             nextHandle (stopPreviewStream s0) = nextHandle s0 /\
             silenceTimerRef (stopPreviewStream s0) = silenceTimerRef s0).
  { intro s0. unfold stopPreviewStream. destruct (streamRef s0); simpl; tauto. }
  destruct (F (cleanupRecording s)) as (G1 & G2 & G3 & G4 & G5 & G6 & G7 & G8).
  constructor.
  - rewrite G1, E1. assumption.
  - rewrite G2, E2, Hst. discriminate.
  - intros seen E. rewrite G4, E4 in E. discriminate.
  - unfold lifecycle_ok. rewrite G2, E2, Hst, G5, E5, G4, E4. tauto.
  - intros t Hin. rewrite G6, E6 in Hin.
    apply (timer_ok_outside_calibration s); auto; try congruence.
    rewrite G7, E7. lia.
  - intros h Hh. rewrite G8, E8 in Hh. rewrite G7, E7, G6, E6. auto.
  - rewrite G6, E6. assumption.
  - rewrite G6, E6. no_calibration_timers s H0.
  - rewrite stopPreviewStream_threshold, cleanupRecording_threshold. assumption.
Qed.

Lemma startCalibration_without_stream (context : AudioContextState) (s : Sys) :
  streamRef s = false ->
  startCalibration context s
  = (s |> set_recordingState CALIBRATING |> set_error false
       |> set_isManuallyPaused false |> set_error true |> set_recordingState IDLE).
Proof.
  intro E. unfold startCalibration. simpl. rewrite E. reflexivity.
Qed.

Lemma startCalibration_with_stream (context : AudioContextState) (s : Sys) :
  streamRef s = true ->
  let n := nextHandle s in
  let s' := startCalibration context s in
  now s' = now s /\
  recordingState s' = CALIBRATING /\
  isManuallyPaused s' = false /\
  pauseTightness s' = pauseTightness s /\
  streamRef s' = true /\
  mediaRecorderRef s' = mediaRecorderRef s /\
  analyserRef s' = true /\
  silenceTimerRef s' = silenceTimerRef s /\
  silenceThresholdRef s' = silenceThresholdRef s /\
  animationFrame s' = animationFrame s /\
  nextHandle s' = S (S (S n)) /\
  timers s' =
    timers s ++
    [ Build_Timer n (now s + 100) (Some 100) countdownTick;
      Build_Timer (S n) (now s + 50) (Some 50) (collectCalibrationData n);
      Build_Timer (S (S n)) (now s + CALIBRATION_TIME_MS) None
                  (calibrationElapsed n (S n) n (analysis_of_render s)) ].
Proof.
  intro E. unfold startCalibration. simpl. rewrite E. simpl.
  repeat (split; [ reflexivity || exact E | ]).
  rewrite <- !app_assoc. reflexivity.
Qed.

Lemma Inv_startCalibration (s : Sys) (context : AudioContextState) :
  recordingState s = IDLE -> Inv s -> Inv (startCalibration context s).
Proof.
  intros Hst H. pose proof H as H0. use_inv H.
  pose proof Hlife as Hl. unfold lifecycle_ok in Hl. rewrite Hst in Hl.
  destruct Hl as [Hrec Hfr].
  destruct (streamRef s) eqn:Estream.
  - destruct (startCalibration_with_stream context s Estream)
      as (_ & E1 & E2 & E3 & E4 & E5 & E6 & E7 & Ethr & E8 & E9 & E10).
    assert (Hold : forall t, In t (timers s) -> is_calibrationElapsed t = false).
    { intros t Hin. specialize (Htimers t Hin). unfold timer_ok in Htimers.
      unfold is_calibrationElapsed. destruct (callback t); try reflexivity.
      destruct Htimers as [_ [_ [Hc _]]]. congruence. }
    constructor.
    + rewrite E3. assumption.
    + intros _. exact E2.
    + intros seen E. rewrite E8, Hfr in E. discriminate.
    + unfold lifecycle_ok. rewrite E1, E5, E8.
      repeat (split; [ assumption | ]).
      eexists. split.
      * rewrite E10. apply in_or_app. right. right. right. left. reflexivity.
      * reflexivity.
    + intros t Hin. rewrite E10 in Hin. apply in_app_or in Hin.
      destruct Hin as [Hin | Hin].
      * pose proof (Hold t Hin) as Hno. specialize (Htimers t Hin).
        unfold timer_ok in *. rewrite E9, E7. destruct Htimers as [Hlt Hcb].
        split; [ lia | ].
        unfold is_calibrationElapsed in Hno.
        destruct (callback t); try assumption. discriminate.
      * unfold timer_ok. rewrite E9, E1.
        destruct Hin as [<- | [<- | [<- | []]]]; simpl.
        -- split; [ lia | discriminate ].
        -- split; [ lia | discriminate ].
        -- split; [ lia | ].
           repeat split. unfold analysis_of_render, idle_closure.
           rewrite E3, Hst, (Hidle Hst). reflexivity.
    + intros h Hh. rewrite E7 in Hh. destruct (Hhandle h Hh) as [Hlt Hcb].
      rewrite E9. split; [ lia | ].
      intros t Hin Eh. rewrite E10 in Hin. apply in_app_or in Hin.
      destruct Hin as [Hin | Hin]; [ auto | ].
      destruct Hin as [<- | [<- | [<- | []]]]; simpl in Eh; lia.
    + intros t1 t2 H1 H2 C1 C2. rewrite E10 in H1, H2.
      apply in_app_or in H1. apply in_app_or in H2.
      destruct H1 as [H1 | H1]; [ rewrite (Hold t1 H1) in C1; discriminate | ].
      destruct H2 as [H2 | H2]; [ rewrite (Hold t2 H2) in C2; discriminate | ].
      destruct H1 as [<- | [<- | [<- | []]]]; try discriminate.
      destruct H2 as [<- | [<- | [<- | []]]]; try discriminate.
      split; reflexivity.
    + intros u Hu Hns. rewrite E10 in Hu. rewrite E10.
      apply in_app_or in Hu. destruct Hu as [Hu | Hu].
      * exfalso. apply Hns. apply (only_silence_timers s u H0); [ congruence | auto ].
      * eexists. split.
        -- apply in_or_app. right. right. right. left. reflexivity.
        -- unfold is_completion_of. simpl.
           destruct Hu as [<- | [<- | [<- | []]]]; simpl; tauto.
    + rewrite Ethr. assumption.
  - rewrite (startCalibration_without_stream context s Estream).
    constructor; simpl; try assumption.
    + reflexivity.
    + unfold lifecycle_ok. simpl. tauto.
    + intros t Hin. apply (timer_ok_outside_calibration s); simpl; auto; congruence.
Qed.

(** ** The branches of [runAudioAnalysis] *)

Section Analysis.

Variable seen : AnalysisClosure.
Variable dataArray : list byte.
Variable s : Sys.

Hypothesis analyser_ready : analyserRef s = true.
Hypothesis not_calibrating : seen_recordingState seen <> CALIBRATING.

Abbreviation silent := (isSilent (averageVolume dataArray) (silenceThresholdRef s)).
Abbreviation loud :=
  (isLoudEnoughToResume (averageVolume dataArray) (silenceThresholdRef s)).

Lemma analysis_guard :
  negb (analyserRef s) || RecordingState_eqb (seen_recordingState seen) CALIBRATING
  = false.
Proof.
  rewrite analyser_ready. simpl.
  destruct (seen_recordingState seen); try reflexivity. contradiction.
Qed.

(** Silence while recording with no handle stored: a timer is set. *)
Lemma analysis_arms :
  mediaRecorderRef s = Some recording ->
  silent = true ->
  silenceTimerRef s = None ->
  runAudioAnalysis seen dataArray s
  = (s |> set_timers
            (timers s ++
             [Build_Timer (nextHandle s)
                          (now s + Z.max 0 (silenceDetectionTime (seen_pauseTightness seen)))
                          None silenceElapsed])
       |> set_nextHandle (S (nextHandle s))
       |> set_silenceTimerRef (Some (nextHandle s))
       |> set_animationFrame (Some seen)).
Proof.
  intros Hrec Hs Href. unfold runAudioAnalysis.
  rewrite analysis_guard, Hrec. rewrite Hs, Href. reflexivity.
Qed.

(** Silence while recording with a handle stored: nothing is set. *)
Lemma analysis_keeps_handle (h : nat) :
  mediaRecorderRef s = Some recording ->
  silent = true ->
  silenceTimerRef s = Some h ->
  runAudioAnalysis seen dataArray s = (s |> set_animationFrame (Some seen)).
Proof.
  intros Hrec Hs Href. unfold runAudioAnalysis.
  rewrite analysis_guard, Hrec. rewrite Hs, Href. reflexivity.
Qed.

(** A sample that is not silent while recording clears the timer. *)
Lemma analysis_cancels (h : nat) :
  mediaRecorderRef s = Some recording ->
  silent = false ->
  silenceTimerRef s = Some h ->
  runAudioAnalysis seen dataArray s
  = (s |> clearTimer h |> set_silenceTimerRef None |> set_animationFrame (Some seen)).
Proof.
  intros Hrec Hs Href. unfold runAudioAnalysis.
  rewrite analysis_guard, Hrec. rewrite Hs, Href. reflexivity.
Qed.

Lemma analysis_nothing_to_cancel :
  mediaRecorderRef s = Some recording ->
  silent = false ->
  silenceTimerRef s = None ->
  runAudioAnalysis seen dataArray s = (s |> set_animationFrame (Some seen)).
Proof.
  intros Hrec Hs Href. unfold runAudioAnalysis.
  rewrite analysis_guard, Hrec. rewrite Hs, Href. reflexivity.
Qed.

(** A loud sample while paused resumes, unless the closure has seen the
    manual pause. *)
Lemma analysis_resumes :
  mediaRecorderRef s = Some paused ->
  loud = true ->
  seen_isManuallyPaused seen = false ->
  runAudioAnalysis seen dataArray s
  = (s |> set_mediaRecorderRef (Some recording) |> set_recordingState RECORDING
       |> set_animationFrame (Some seen)).
Proof.
  intros Hrec Hl Hm. unfold runAudioAnalysis.
  rewrite analysis_guard, Hrec. rewrite Hl, Hm. reflexivity.
Qed.

Lemma analysis_stays_paused :
  mediaRecorderRef s = Some paused ->
  loud = false \/ seen_isManuallyPaused seen = true ->
  runAudioAnalysis seen dataArray s = (s |> set_animationFrame (Some seen)).
Proof.
  intros Hrec H. unfold runAudioAnalysis.
  rewrite analysis_guard, Hrec. simpl.
  destruct H as [-> | ->]; [ reflexivity | ].
  rewrite andb_false_r. reflexivity.
Qed.

Lemma analysis_cases :
  mediaRecorderRef s = Some recording \/ mediaRecorderRef s = Some paused ->
  let s0 := s |> set_animationFrame (Some seen) in
  runAudioAnalysis seen dataArray s = s0 \/
  (mediaRecorderRef s = Some recording /\ silenceTimerRef s = None /\ silent = true /\
   runAudioAnalysis seen dataArray s
   = (s0 |> set_timers
             (timers s ++
              [Build_Timer (nextHandle s)
                           (now s + Z.max 0 (silenceDetectionTime (seen_pauseTightness seen)))
                           None silenceElapsed])
         |> set_nextHandle (S (nextHandle s))
         |> set_silenceTimerRef (Some (nextHandle s)))) \/
  (exists h, mediaRecorderRef s = Some recording /\ silenceTimerRef s = Some h /\
             silent = false /\
             runAudioAnalysis seen dataArray s
             = (s0 |> clearTimer h |> set_silenceTimerRef None)) \/
  (mediaRecorderRef s = Some paused /\ loud = true /\
   seen_isManuallyPaused seen = false /\
   runAudioAnalysis seen dataArray s
   = (s0 |> set_mediaRecorderRef (Some recording) |> set_recordingState RECORDING)).
Proof.
  intros [Hrec | Hrec] s0.
  - destruct silent eqn:Es; destruct (silenceTimerRef s) as [h | ] eqn:Er.
    + left. now apply (analysis_keeps_handle h).
    + right. left. repeat (split; [ assumption || reflexivity | ]).
      now apply analysis_arms.
    + right. right. left. exists h.
      repeat (split; [ assumption || reflexivity | ]).
      now apply analysis_cancels.
    + left. now apply analysis_nothing_to_cancel.
  - destruct loud eqn:El; destruct (seen_isManuallyPaused seen) eqn:Em.
    + left. apply analysis_stays_paused; auto.
    + right. right. right. repeat (split; [ assumption || reflexivity | ]).
      now apply analysis_resumes.
    + left. apply analysis_stays_paused; auto.
    + left. apply analysis_stays_paused; auto.
Qed.

End Analysis.

(** ** The invariant under the effects of the analysis and of the timers *)

Lemma Inv_arm (s : Sys) (at_time : Z) :
  Inv s ->
  silenceTimerRef s = None ->
  Inv (s |> set_timers
             (timers s ++ [Build_Timer (nextHandle s) at_time None silenceElapsed])
         |> set_nextHandle (S (nextHandle s))
         |> set_silenceTimerRef (Some (nextHandle s))).
Proof.
  intros H Href. use_inv H.
  constructor; simpl; try assumption.
  - unfold lifecycle_ok in *. simpl.
    destruct (recordingState s); try assumption.
    destruct Hlife as (? & ? & ? & ? & t & Hin & Hc).
    repeat (split; [ assumption | ]).
    exists t. split; [ apply in_or_app; tauto | exact Hc ].
  - intros t Hin. apply in_app_or in Hin. destruct Hin as [Hin | [<- | []]].
    + specialize (Htimers t Hin). unfold timer_ok in *. simpl.
      destruct Htimers as [Hlt Hcb]. split; [ lia | ].
      destruct (callback t); try assumption.
      destruct Hcb as [_ Hcb]. congruence.
    + unfold timer_ok. simpl. split; [ lia | tauto ].
  - intros h Hh. injection Hh as <-. split; [ lia | ].
    intros t Hin Eh. apply in_app_or in Hin. destruct Hin as [Hin | [<- | []]].
    + specialize (Htimers t Hin). unfold timer_ok in Htimers. lia.
    + reflexivity.
  - intros t1 t2 H1 H2 C1 C2.
    apply in_app_or in H1. apply in_app_or in H2.
    destruct H1 as [H1 | [<- | []]]; [ | discriminate ].
    destruct H2 as [H2 | [<- | []]]; [ | discriminate ].
    auto.
  - intros u Hu Hns. apply in_app_or in Hu.
    destruct Hu as [Hu | [<- | []]]; [ | contradiction ].
    destruct (Hcal u Hu Hns) as (t & Ht & Hc).
    exists t. split; [ apply in_or_app; tauto | exact Hc ].
Qed.

Lemma Inv_cancel (s : Sys) (h : nat) :
  Inv s ->
  silenceTimerRef s = Some h ->
  Inv (s |> clearTimer h |> set_silenceTimerRef None).
Proof.
  intros H Href. use_inv H.
  destruct (Hhandle h Href) as [Hlt Hsil].
  assert (Hin' : forall t, In t (filter (fun t0 => negb (handle t0 =? h)%nat) (timers s))
                           <-> In t (timers s) /\ handle t <> h).
  { intro t. rewrite filter_In, negb_true_iff, Nat.eqb_neq. tauto. }
  constructor; simpl; try assumption.
  - unfold lifecycle_ok in *. simpl.
    destruct (recordingState s); try assumption.
    destruct Hlife as (? & ? & ? & ? & t & Hin & Hc).
    repeat (split; [ assumption | ]).
    exists t. split; [ | exact Hc ].
    apply Hin'. split; [ exact Hin | ].
    intro Eh. specialize (Hsil t Hin Eh).
    unfold is_calibrationElapsed in Hc. rewrite Hsil in Hc. discriminate.
  - intros t Hin. apply Hin' in Hin. destruct Hin as [Hin Hne].
    specialize (Htimers t Hin). unfold timer_ok in *. simpl.
    destruct Htimers as [Hl Hcb]. split; [ exact Hl | ].
    destruct (callback t); try assumption.
    destruct Hcb as [_ Hcb]. congruence.
  - intros h0 Hh0. discriminate.
  - intros t1 t2 H1 H2. apply Hin' in H1. apply Hin' in H2. apply Hone; tauto.
  - intros u Hu Hns. apply Hin' in Hu. destruct Hu as [Hu _].
    destruct (Hcal u Hu Hns) as (t & Ht & Hc).
    exists t. split; [ | exact Hc ].
    apply Hin'. split; [ exact Ht | ].
    intro Eh. specialize (Hsil t Ht Eh).
    unfold is_completion_of in Hc. rewrite Hsil in Hc. exact Hc.
Qed.

Lemma Inv_resume (s : Sys) :
  Inv s ->
  recordingState s = PAUSED ->
  Inv (s |> set_mediaRecorderRef (Some recording) |> set_recordingState RECORDING).
Proof.
  intros H Hst. use_inv H.
  unfold lifecycle_ok in Hlife. rewrite Hst in Hlife. destruct Hlife as [Hrec Hfr].
  constructor; simpl; try assumption.
  - discriminate.
  - unfold lifecycle_ok. simpl. tauto.
  - intros t Hin. apply (timer_ok_outside_calibration s); simpl; auto; congruence.
Qed.

Lemma Inv_onSilenceElapsed (s : Sys) : Inv s -> Inv (onSilenceElapsed s).
Proof.
  intro H. unfold onSilenceElapsed.
  destruct (mediaRecorderRef s) as [[ | | ] | ] eqn:Hrec; try exact H.
  use_inv H.
  assert (Hst : recordingState s = RECORDING).
  { unfold lifecycle_ok in Hlife.
    destruct (recordingState s); try reflexivity;
      destruct Hlife as [Hl _]; try congruence.
    destruct Hl; congruence. }
  unfold lifecycle_ok in Hlife. rewrite Hst in Hlife. destruct Hlife as [_ Hfr].
  constructor; simpl; try assumption.
  - discriminate.
  - unfold lifecycle_ok. simpl. tauto.
  - intros t Hin. apply (timer_ok_outside_calibration s); simpl; auto; congruence.
Qed.

Lemma Inv_runAudioAnalysis (seen : AnalysisClosure) (dataArray : list byte) (s : Sys) :
  Inv (s |> set_animationFrame (Some seen)) ->
  Inv (runAudioAnalysis seen dataArray s).
Proof.
  intro H. pose proof H as H0. use_inv H.
  destruct (Hframe seen eq_refl) as [Hseen Han]. simpl in Han.
  assert (Hnc : seen_recordingState seen <> CALIBRATING).
  { rewrite Hseen. discriminate. }
  assert (Hm : seen_isManuallyPaused seen = false).
  { rewrite Hseen. reflexivity. }
  assert (Hrec : mediaRecorderRef s = Some recording /\ recordingState s = RECORDING \/
                 mediaRecorderRef s = Some paused /\ recordingState s = PAUSED).
  { unfold lifecycle_ok in Hlife. simpl in Hlife.
    destruct (recordingState s); try (destruct Hlife as [_ Hl]; try discriminate;
                                      destruct Hl as [Hl _]; discriminate).
    - left. tauto.
    - right. tauto. }
  assert (Hrec' : mediaRecorderRef s = Some recording \/ mediaRecorderRef s = Some paused)
    by tauto.
  destruct (analysis_cases seen dataArray s Han Hnc Hrec')
    as [-> | [(_ & Href & _ & ->) | [(h & _ & Href & _ & ->) | (Hp & _ & _ & ->)]]].
  - exact H0.
  - apply (Inv_arm (s |> set_animationFrame (Some seen))); assumption.
  - apply (Inv_cancel (s |> set_animationFrame (Some seen))); assumption.
  - apply (Inv_resume (s |> set_animationFrame (Some seen))); [ assumption | ].
    simpl. destruct Hrec as [[E _] | [_ E]]; congruence.
Qed.

Lemma set_animationFrame_same (s : Sys) (seen : AnalysisClosure) :
  animationFrame s = Some seen -> (s |> set_animationFrame (Some seen)) = s.
Proof.
  destruct s. simpl. intros ->. reflexivity.
Qed.

Lemma Inv_clear_fired_silence (s : Sys) (h : nat) :
  Inv s ->
  silenceTimerRef s = Some h ->
  Inv (clearTimer h s).
Proof.
  intros H Href. use_inv H.
  destruct (Hhandle h Href) as [Hlt Hsil].
  constructor; try assumption.
  - unfold lifecycle_ok in *. simpl.
    destruct (recordingState s); try assumption.
    destruct Hlife as (? & ? & ? & ? & t & Hin & Hc).
    repeat (split; [ assumption | ]).
    exists t. split; [ | exact Hc ].
    apply (In_clearTimer h s). split; [ exact Hin | ].
    intro Eh. specialize (Hsil t Hin Eh).
    unfold is_calibrationElapsed in Hc. rewrite Hsil in Hc. discriminate.
  - intros t Hin. apply In_clearTimer in Hin. destruct Hin as [Hin Hne].
    exact (Htimers t Hin).
  - intros h0 Hh0. simpl in Hh0. destruct (Hhandle h0 Hh0) as [Hl0 Hs0].
    split; [ exact Hl0 | ].
    intros t Hin. apply In_clearTimer in Hin. apply Hs0. tauto.
  - intros t1 t2 H1 H2. apply In_clearTimer in H1. apply In_clearTimer in H2.
    apply Hone; tauto.
  - intros u Hu Hns. apply In_clearTimer in Hu. destruct Hu as [Hu _].
    destruct (Hcal u Hu Hns) as (t & Ht & Hc).
    exists t. split; [ | exact Hc ].
    apply In_clearTimer. split; [ exact Ht | ].
    intro Eh. specialize (Hsil t Ht Eh).
    unfold is_completion_of in Hc. rewrite Hsil in Hc. exact Hc.
Qed.

Lemma Inv_rearm (s : Sys) (h : nat) (period : Z) : Inv s -> Inv (rearm h period s).
Proof.
  intro H. use_inv H.
  constructor; try assumption.
  - unfold lifecycle_ok in *. simpl.
    destruct (recordingState s); try assumption.
    destruct Hlife as (? & ? & ? & ? & t & Hin & Hc).
    repeat (split; [ assumption | ]).
    destruct (rearm_In h period s t Hin) as (t' & Hin' & _ & Ecb).
    exists t'. split; [ exact Hin' | ].
    rewrite (is_calibrationElapsed_callback t' t Ecb). exact Hc.
  - intros t Hin. apply In_rearm in Hin. destruct Hin as (t0 & Hin & Eh & Ecb & Eev).
    specialize (Htimers t0 Hin). unfold timer_ok in *. simpl.
    rewrite Eh, Ecb, Eev. exact Htimers.
  - intros h0 Hh0. simpl in Hh0. destruct (Hhandle h0 Hh0) as [Hl0 Hs0].
    split; [ exact Hl0 | ].
    intros t Hin Et. apply In_rearm in Hin.
    destruct Hin as (t0 & Hin & Eh & Ecb & _).
    rewrite Ecb. apply Hs0; congruence.
  - intros t1 t2 H1 H2 C1 C2.
    apply In_rearm in H1. destruct H1 as (u1 & H1 & Eh1 & Ecb1 & _).
    apply In_rearm in H2. destruct H2 as (u2 & H2 & Eh2 & Ecb2 & _).
    rewrite Eh1, Eh2.
    rewrite (is_calibrationElapsed_callback _ _ Ecb1) in C1.
    rewrite (is_calibrationElapsed_callback _ _ Ecb2) in C2.
    rewrite Ecb1, Ecb2. auto.
  - intros u Hu Hns. apply In_rearm in Hu.
    destruct Hu as (u0 & Hu0 & Eh & Ecb & _).
    rewrite Ecb in Hns. destruct (Hcal u0 Hu0 Hns) as (t & Ht & Hc).
    destruct (rearm_In h period s t Ht) as (t' & Ht' & _ & Ecb').
    exists t'. split; [ exact Ht' | ].
    unfold is_completion_of in *. rewrite Ecb'.
    rewrite (is_calibrationElapsed_callback u u0 Ecb), Eh. exact Hc.
Qed.

Lemma Inv_onCountdownTick (s : Sys) : Inv s -> Inv (onCountdownTick s).
Proof.
  intro H. use_inv H. constructor; assumption.
Qed.

Lemma Inv_onCollectCalibrationData (a : nat) (dataArray : list byte) (s : Sys) :
  Inv s -> Inv (onCollectCalibrationData a dataArray s).
Proof.
  intro H. unfold onCollectCalibrationData.
  destruct (audioContextRef s) as [st | ]; [ | exact H ].
  destruct (analyserRef s && AudioContextState_eqb st running); [ | exact H ].
  use_inv H. constructor; assumption.
Qed.

Lemma Inv_onCalibrationElapsed (t : Timer) (a c d : nat) (seen : AnalysisClosure)
                               (dataArray : list byte) (s : Sys) :
  Inv s ->
  In t (timers s) ->
  callback t = calibrationElapsed a c d seen ->
  Inv (onCalibrationElapsed a c d seen dataArray (clearTimer (handle t) s)).
Proof.
  intros H Hin Ecb. use_inv H.
  pose proof (Htimers t Hin) as Hok. unfold timer_ok in Hok. rewrite Ecb in Hok.
  destruct Hok as (Hlt & Hev & Hst & Hseen).
  unfold lifecycle_ok in Hlife. rewrite Hst in Hlife.
  destruct Hlife as (Hrec & Hfr & Hstream & Han & _).
  unfold onCalibrationElapsed, startActualRecording.
  change (streamRef _) with (streamRef s). rewrite Hstream. simpl negb. cbv iota.
  apply Inv_runAudioAnalysis.
  set (left_over := timers (clearTimer (handle t) s |> clearTimer c |> clearTimer d)).
  assert (Hsub' : forall u, In u left_over ->
                            (In u (timers s) /\ handle u <> handle t) /\
                            handle u <> c /\ handle u <> d).
  { intros u Hu. unfold left_over in Hu.
    apply In_clearTimer in Hu. destruct Hu as [Hu Hd].
    apply In_clearTimer in Hu. destruct Hu as [Hu Hc].
    apply In_clearTimer in Hu. tauto. }
  assert (Hsub : forall u, In u left_over -> In u (timers s) /\ handle u <> handle t).
  { intros u Hu. apply Hsub'. exact Hu. }
  assert (Hnone : forall u, In u left_over -> is_calibrationElapsed u = false).
  { intros u Hu. destruct (Hsub u Hu) as [Hu1 Hu2].
    destruct (is_calibrationElapsed u) eqn:E; [ | reflexivity ].
    exfalso. apply Hu2. apply Hone; auto.
    unfold is_calibrationElapsed. rewrite Ecb. reflexivity. }
  assert (Hsilence : forall u, In u left_over -> callback u = silenceElapsed).
  { intros u Hu. destruct (Hsub' u Hu) as ([Hu1 _] & Hc & Hd).
    destruct (callback u) eqn:Eu; try reflexivity; exfalso.
    all: destruct (Hcal u Hu1) as (t' & Ht' & Hof); [ rewrite Eu; discriminate | ].
    all: unfold is_completion_of in Hof.
    all: assert (Et' : is_calibrationElapsed t' = true)
           by (unfold is_calibrationElapsed; destruct (callback t');
               try contradiction; reflexivity).
    all: assert (Et : is_calibrationElapsed t = true)
           by (unfold is_calibrationElapsed; rewrite Ecb; reflexivity).
    all: destruct (Hone t' t Ht' Hin Et' Et) as [_ Esame].
    all: rewrite Esame, Ecb in Hof.
    all: rewrite (Hnone u Hu) in Hof.
    all: destruct Hof as [Hof | [Hof | Hof]]; congruence. }
  constructor.
  - exact Htight.
  - discriminate.
  - intros seen' E. simpl in E. injection E as <-. split; [ exact Hseen | exact Han ].
  - unfold lifecycle_ok. simpl. split; [ reflexivity | discriminate ].
  - intros u Hu. change (In u left_over) in Hu.
    pose proof (Hnone u Hu) as Hno. destruct (Hsub u Hu) as [Hu1 _].
    specialize (Htimers u Hu1). unfold timer_ok in *.
    destruct Htimers as [Hl Hcb]. split; [ exact Hl | ].
    unfold is_calibrationElapsed in Hno.
    destruct (callback u); try exact Hcb. discriminate.
  - intros h0 Hh0. change (silenceTimerRef s = Some h0) in Hh0.
    destruct (Hhandle h0 Hh0) as [Hl0 Hs0].
    split; [ exact Hl0 | ].
    intros u Hu. change (In u left_over) in Hu. apply Hs0. apply Hsub. exact Hu.
  - intros t1 t2 H1 H2 C1. change (In t1 left_over) in H1.
    rewrite (Hnone t1 H1) in C1. discriminate.
  - intros u Hu Hns. change (In u left_over) in Hu.
    exfalso. apply Hns. apply Hsilence. exact Hu.
  - simpl.
    destruct (baseline_gt_0
                (read_array a (arrays (clearTimer (handle t) s |> clearTimer c
                                                               |> clearTimer d))))
      as (q & Eq & Hq).
    exists q. split; [ exact Eq | apply Qlt_le_weak; exact Hq ].
Qed.

Lemma Inv_fire (h : nat) (t : Timer) (dataArray : list byte) (s : Sys) :
  find_timer h s = Some t -> Inv s -> Inv (fire t dataArray s).
Proof.
  intros Hfind H. apply find_timer_In in Hfind. destruct Hfind as [Hin _].
  pose proof (timers_ok s H t Hin) as Hok. unfold timer_ok in Hok.
  unfold fire.
  destruct (callback t) as [ | | a | a c d seen] eqn:Ecb; simpl run_callback.
  - destruct Hok as (_ & -> & Href).
    apply Inv_onSilenceElapsed. apply Inv_clear_fired_silence; assumption.
  - destruct Hok as [_ Hev].
    destruct (every t) as [period | ]; [ | contradiction ].
    apply Inv_onCountdownTick. apply Inv_rearm. exact H.
  - destruct Hok as [_ Hev].
    destruct (every t) as [period | ]; [ | contradiction ].
    apply Inv_onCollectCalibrationData. apply Inv_rearm. exact H.
  - destruct Hok as (_ & -> & _).
    apply (Inv_onCalibrationElapsed t); assumption.
Qed.

Lemma Inv_step (s s' : Sys) (e : Event) :
  step s e = Some s' -> Inv s -> Inv s'.
Proof.
  intros Hstep H. destruct e; simpl in Hstep.
  - destruct (recordingState s) eqn:E; try discriminate.
    injection Hstep as <-. now apply Inv_startCalibration.
  - destruct (recordingState s) eqn:E; try discriminate.
    injection Hstep as <-. now apply Inv_handleManualPause.
  - destruct (recordingState s) eqn:E; try discriminate.
    injection Hstep as <-. now apply Inv_handleResume.
  - destruct (recordingState s) eqn:E; try discriminate;
      injection Hstep as <-; apply Inv_stopRecording; auto.
  - destruct (recordingState s) eqn:E; try discriminate.
    injection Hstep as <-. now apply Inv_handleReset.
  - destruct (recordingState s) eqn:E; try discriminate.
    destruct (negb (pauseTightness s =? (if tighter then 5 else -5)));
      try discriminate.
    injection Hstep as <-. now apply Inv_handleTightnessChange.
  - destruct (recordingState s) eqn:E; try discriminate.
    injection Hstep as <-. now apply Inv_startPreview.
  - destruct (mediaRecorderRef s) as [[ | | ] | ] eqn:E; try discriminate.
    injection Hstep as <-. now apply Inv_onstop.
  - destruct (animationFrame s) as [seen | ] eqn:E; try discriminate.
    injection Hstep as <-. apply Inv_runAudioAnalysis.
    rewrite (set_animationFrame_same s seen E). exact H.
  - destruct (find_timer h s) as [t | ] eqn:E; try discriminate.
    destruct (due t <=? now s); try discriminate.
    injection Hstep as <-. now apply (Inv_fire h).
  - destruct (may_wait dt s); try discriminate.
    injection Hstep as <-. now apply Inv_wait.
  - rewrite (step_contextState s s' state Hstep). now apply Inv_contextState.
Qed.

Lemma Inv_run (trace : list Event) (s s' : Sys) :
  run s trace = Some s' -> Inv s -> Inv s'.
Proof.
  revert s. induction trace as [ | e rest IH]; intros s Hrun H; simpl in Hrun.
  - injection Hrun as <-. exact H.
  - destruct (step s e) as [s1 | ] eqn:E; [ | discriminate ].
    apply (IH s1 Hrun). exact (Inv_step s s1 e E H).
Qed.

Lemma reachable_Inv (s : Sys) : reachable s -> Inv s.
Proof.
  intros [trace Hrun]. exact (Inv_run trace mounted s Hrun Inv_mounted).
Qed.

Lemma reachable_step (s s' : Sys) (e : Event) :
  reachable s -> step s e = Some s' -> reachable s'.
Proof.
  intros [trace Hrun] Hstep. exists (trace ++ [e]).
  revert Hrun. generalize mounted.
  induction trace as [ | e0 rest IH]; intros s0 Hrun; simpl in *.
  - injection Hrun as ->. rewrite Hstep. reflexivity.
  - destruct (step s0 e0) as [s1 | ]; [ | discriminate ]. now apply IH.
Qed.

(** ** The running loop in a reachable state *)

Lemma reachable_after (trace : list Event) (s : Sys) :
  run mounted trace = Some s -> reachable s.
Proof.
  intro H. exists trace. exact H.
Qed.

(** While recording or paused the loop is scheduled, with the closure
    of the idle render that started the session. *)
Lemma loop_of_session (s : Sys) :
  reachable s ->
  recordingState s = RECORDING \/ recordingState s = PAUSED ->
  animationFrame s = Some (idle_closure s) /\
  analyserRef s = true /\
  (recordingState s = RECORDING -> mediaRecorderRef s = Some recording) /\
  (recordingState s = PAUSED -> mediaRecorderRef s = Some paused).
Proof.
  intros Hr Hst. apply reachable_Inv in Hr. use_inv Hr.
  unfold lifecycle_ok in Hlife.
  assert (Hfr : animationFrame s <> None).
  { destruct Hst as [E | E]; rewrite E in Hlife; tauto. }
  destruct (animationFrame s) as [seen | ] eqn:Ef; [ | contradiction ].
  destruct (Hframe seen eq_refl) as [-> Han].
  split; [ reflexivity | ]. split; [ exact Han | ].
  split; intro E; rewrite E in Hlife; tauto.
Qed.

Lemma no_timer_without_handle (s : Sys) :
  reachable s ->
  recordingState s <> CALIBRATING ->
  silenceTimerRef s = None ->
  timers s = [].
Proof.
  intros Hr Hst Href. apply reachable_Inv in Hr.
  destruct (timers s) as [ | u rest] eqn:E; [ reflexivity | exfalso ].
  assert (Hin : In u (timers s)) by (rewrite E; left; reflexivity).
  destruct (only_silence_timers s u Hr Hst Hin) as (_ & _ & Hu). congruence.
Qed.

(** The paused branch of the loop in a reachable state: the closure has
    never seen a manual pause, so a loud frame resumes. *)
Lemma paused_loud_frame (s : Sys) (dataArray : list byte) :
  reachable s ->
  recordingState s = PAUSED ->
  isLoudEnoughToResume (averageVolume dataArray) (silenceThresholdRef s) = true ->
  step s (AnimationFrame dataArray)
  = Some (s |> set_mediaRecorderRef (Some recording) |> set_recordingState RECORDING
            |> set_animationFrame (Some (idle_closure s))).
Proof.
  intros Hr Hst Hloud.
  destruct (loop_of_session s Hr (or_intror Hst)) as (Hfr & Han & _ & Hrec).
  specialize (Hrec Hst).
  simpl. rewrite Hfr.
  rewrite (analysis_resumes (idle_closure s) dataArray s Han); try assumption;
    try reflexivity.
  simpl. discriminate.
Qed.

Lemma paused_quiet_frame (s : Sys) (dataArray : list byte) :
  reachable s ->
  recordingState s = PAUSED ->
  isLoudEnoughToResume (averageVolume dataArray) (silenceThresholdRef s) = false ->
  step s (AnimationFrame dataArray) = Some s.
Proof.
  intros Hr Hst Hloud.
  destruct (loop_of_session s Hr (or_intror Hst)) as (Hfr & Han & _ & Hrec).
  specialize (Hrec Hst).
  simpl. rewrite Hfr.
  rewrite (analysis_stays_paused (idle_closure s) dataArray s Han);
    [ | simpl; discriminate | assumption | left; assumption ].
  rewrite (set_animationFrame_same s _ Hfr). reflexivity.
Qed.

(** Time and frames that are not loud leave a paused session paused. *)
Lemma paused_quiet_ticks (ticks : list Event) (s s1 : Sys) :
  reachable s ->
  recordingState s = PAUSED ->
  forallb (is_tick_below (silenceThresholdRef s)) ticks = true ->
  run s ticks = Some s1 ->
  reachable s1 /\
  recordingState s1 = PAUSED /\
  isManuallyPaused s1 = isManuallyPaused s /\
  silenceThresholdRef s1 = silenceThresholdRef s /\
  now s1 = now s + elapsed ticks.
Proof.
  revert s. induction ticks as [ | e rest IH]; intros s Hr Hst Hq Hrun.
  - simpl in Hrun. injection Hrun as <-. simpl. repeat split; auto. lia.
  - simpl in Hq. apply andb_true_iff in Hq. destruct Hq as [He Hq].
    simpl in Hrun. destruct (step s e) as [s0 | ] eqn:Estep; [ | discriminate ].
    pose proof (reachable_step s s0 e Hr Estep) as Hr0.
    destruct e; try discriminate.
    + simpl in He. apply negb_true_iff in He.
      rewrite (paused_quiet_frame s dataArray Hr Hst He) in Estep.
      injection Estep as <-.
      destruct (IH s Hr Hst Hq Hrun) as (? & ? & ? & ? & ?).
      simpl. repeat split; assumption.
    + simpl in Estep. destruct (may_wait dt s); [ | discriminate ].
      injection Estep as <-.
      destruct (IH _ Hr0 Hst Hq Hrun) as (? & ? & ? & ? & En).
      simpl in *. repeat split; try assumption. lia.
Qed.

(** C7. While the session is paused with the manual-override flag
    false, one sample that is loud enough (above 2.5 times the baseline)
    resumes the recording in the analysis of that very frame: the clock
    has not moved and no timer was set. *)
Theorem loud_sample_resumes (s : Sys) (dataArray : list byte) :
  reachable s ->
  recordingState s = PAUSED ->
  isManuallyPaused s = false ->
  isLoudEnoughToResume (averageVolume dataArray) (silenceThresholdRef s) = true ->
  exists s',
    step s (AnimationFrame dataArray) = Some s' /\
    recordingState s' = RECORDING /\
    mediaRecorderRef s' = Some recording /\
    now s' = now s /\
    timers s' = timers s.
Proof.
  intros Hr Hst _ Hloud.
  eexists. split.
  - apply paused_loud_frame; assumption.
  - simpl. repeat split; reflexivity.
Qed.

Lemma loud_sample_resumes_witness :
  recordingState auto_paused = PAUSED /\
  isManuallyPaused auto_paused = false /\
  averageVolume (frame x1a) = Num 26 /\
  silenceThresholdRef auto_paused = Num 10 /\
  exists s',
    step auto_paused (AnimationFrame (frame x1a)) = Some s' /\
    recordingState s' = RECORDING /\
    mediaRecorderRef s' = Some recording /\
    now s' = now auto_paused /\
    timers s' = timers auto_paused.
Proof.
  split; [ vm_compute; reflexivity | ].
  split; [ vm_compute; reflexivity | ].
  split; [ vm_compute; reflexivity | ].
  split; [ vm_compute; reflexivity | ].
  apply (loud_sample_resumes auto_paused (frame x1a)).
  - apply (reachable_after
             (session_start (frame x0a) (frame x05)
              ++ frames_20ms 20 x05 ++ [TimerFires 4 []])).
    vm_compute. reflexivity.
  - vm_compute. reflexivity.
  - vm_compute. reflexivity.
  - vm_compute. reflexivity.
Defined.

(** ** The silence timer *)

(** The callback of a due silence timer while recording. *)
Lemma silence_timer_fires (s : Sys) (h : nat) (t : Timer) (late : list byte) :
  reachable s ->
  recordingState s = RECORDING ->
  find_timer h s = Some t ->
  due t <= now s ->
  step s (TimerFires h late)
  = Some (clearTimer (handle t) s
            |> set_isManuallyPaused false
            |> set_mediaRecorderRef (Some paused)
            |> set_recordingState PAUSED).
Proof.
  intros Hr Hst Hfind Hdue.
  destruct (loop_of_session s Hr (or_introl Hst)) as (_ & _ & Hrec & _).
  specialize (Hrec Hst).
  pose proof (find_timer_In h s t Hfind) as [Hin _].
  destruct (only_silence_timers s t (reachable_Inv s Hr)) as (Ecb & Eev & _);
    [ congruence | exact Hin | ].
  simpl. rewrite Hfind.
  replace (due t <=? now s) with true by (symmetry; apply Z.leb_le; exact Hdue).
  unfold fire. rewrite Eev, Ecb. simpl.
  unfold onSilenceElapsed.
  change (mediaRecorderRef (clearTimer (handle t) s)) with (mediaRecorderRef s).
  rewrite Hrec. reflexivity.
Qed.

(** C10. When the silence timer fires while recording, the session
    becomes paused with the manual-override flag false; from there, after
    any stretch of time and of frames that are not loud, one loud sample
    resumes the recording. *)
Theorem automatic_pause_clears_override
        (s : Sys) (h : nat) (t : Timer) (late : list byte) :
  reachable s ->
  recordingState s = RECORDING ->
  find_timer h s = Some t ->
  callback t = silenceElapsed ->
  due t <= now s ->
  exists s',
    step s (TimerFires h late) = Some s' /\
    recordingState s' = PAUSED /\
    mediaRecorderRef s' = Some paused /\
    isManuallyPaused s' = false /\
    forall (ticks : list Event) (s1 : Sys) (dataArray : list byte),
      forallb (is_tick_below (silenceThresholdRef s')) ticks = true ->
      run s' ticks = Some s1 ->
      isLoudEnoughToResume (averageVolume dataArray) (silenceThresholdRef s1) = true ->
      exists s2,
        step s1 (AnimationFrame dataArray) = Some s2 /\
        recordingState s2 = RECORDING /\
        mediaRecorderRef s2 = Some recording.
Proof.
  intros Hr Hst Hfind _ Hdue.
  pose proof (silence_timer_fires s h t late Hr Hst Hfind Hdue) as Hstep.
  eexists. split; [ exact Hstep | ].
  repeat (split; [ reflexivity | ]).
  intros ticks s1 dataArray Hq Hrun Hloud.
  pose proof (reachable_step _ _ _ Hr Hstep) as Hr'.
  destruct (paused_quiet_ticks ticks _ s1 Hr' eq_refl Hq Hrun) as (Hr1 & Hst1 & _).
  eexists. split.
  - apply paused_loud_frame; assumption.
  - split; reflexivity.
Qed.

Lemma automatic_pause_clears_override_witness :
  let s := after (frames_20ms 20 x05) quiet_recording in
  now s = 3400 /\
  exists s',
    step s (TimerFires 4 []) = Some s' /\
    recordingState s' = PAUSED /\
    mediaRecorderRef s' = Some paused /\
    isManuallyPaused s' = false /\
    exists s2,
      step (after [Wait 20; AnimationFrame (frame x05)] s')
           (AnimationFrame (frame x1a)) = Some s2 /\
      recordingState s2 = RECORDING /\
      mediaRecorderRef s2 = Some recording.
Proof.
  intro s. split; [ vm_compute; reflexivity | ].
  assert (Hr : reachable s).
  { apply (reachable_after
             (session_start (frame x0a) (frame x05) ++ frames_20ms 20 x05)).
    vm_compute. reflexivity. }
  assert (Hst : recordingState s = RECORDING) by (vm_compute; reflexivity).
  assert (Hfind : find_timer 4 s = Some (Build_Timer 4 3400 None silenceElapsed))
    by (vm_compute; reflexivity).
  assert (Hdue : due (Build_Timer 4 3400 None silenceElapsed) <= now s)
    by (vm_compute; discriminate).
  destruct (automatic_pause_clears_override s 4 _ [] Hr Hst Hfind eq_refl Hdue)
    as (s' & Hstep & H1 & H2 & H3 & Hnext).
  exists s'. repeat (split; [ assumption | ]).
  assert (Es' : step s (TimerFires 4 []) = Some auto_paused)
    by (vm_compute; reflexivity).
  assert (E : s' = auto_paused) by congruence.
  rewrite E in Hnext |- *.
  apply (Hnext [Wait 20; AnimationFrame (frame x05)]).
  - vm_compute. reflexivity.
  - vm_compute. reflexivity.
  - vm_compute. reflexivity.
Defined.

Lemma delay_in_range (t : Z) :
  -5 <= t <= 5 ->
  silenceDetectionTime t = 400 - 50 * t /\ 150 <= silenceDetectionTime t <= 650.
Proof.
  unfold silenceDetectionTime, BASE_SILENCE_DETECTION_TIME_MS, PAUSE_TIGHTNESS_STEP_MS.
  lia.
Qed.

(** A silent frame while recording with no handle stored sets the timer
    for the whole delay of the session's tightness. *)
Lemma silent_frame_arms (s : Sys) (dataArray : list byte) :
  reachable s ->
  recordingState s = RECORDING ->
  silenceTimerRef s = None ->
  isSilent (averageVolume dataArray) (silenceThresholdRef s) = true ->
  step s (AnimationFrame dataArray)
  = Some (s |> set_timers
                 [Build_Timer (nextHandle s)
                              (now s + silenceDetectionTime (pauseTightness s))
                              None silenceElapsed]
            |> set_nextHandle (S (nextHandle s))
            |> set_silenceTimerRef (Some (nextHandle s))
            |> set_animationFrame (Some (idle_closure s))).
Proof.
  intros Hr Hst Href Hs.
  destruct (loop_of_session s Hr (or_introl Hst)) as (Hfr & Han & Hrec & _).
  specialize (Hrec Hst).
  assert (Hnone : timers s = []).
  { apply no_timer_without_handle; [ assumption | congruence | assumption ]. }
  pose proof (tightness_range s (reachable_Inv s Hr)) as Ht.
  destruct (delay_in_range _ Ht) as [_ Hd].
  simpl. rewrite Hfr.
  rewrite (analysis_arms (idle_closure s) dataArray s Han);
    [ | simpl; discriminate | assumption | assumption | assumption ].
  rewrite Hnone. simpl seen_pauseTightness.
  replace (Z.max 0 (silenceDetectionTime (pauseTightness s)))
    with (silenceDetectionTime (pauseTightness s)) by lia.
  reflexivity.
Qed.

(** C2. Every adjustment of the tightness clamps the result: it is the
    old value plus the step where that lies between -5 and 5, -5 where it
    is below and 5 where it is above, so it is between -5 and 5 after
    every adjustment and in every reachable state; for a tightness [t] in that
    range the delay is [400 - 50 * t] ms, strictly decreasing in [t], with
    650, 400 and 150 ms at -5, 0 and 5; and that delay, for the tightness
    of the session, is what the timer is set to when a silent frame arms
    it. *)
Theorem pause_tightness_delay :
  (forall s delta, -5 <= pauseTightness (handleTightnessChange delta s) <= 5) /\
  (forall s delta,
      (-5 <= pauseTightness s + delta <= 5 ->
       pauseTightness (handleTightnessChange delta s) = pauseTightness s + delta) /\
      (pauseTightness s + delta < -5 ->
       pauseTightness (handleTightnessChange delta s) = -5) /\
      (5 < pauseTightness s + delta ->
       pauseTightness (handleTightnessChange delta s) = 5)) /\
  (forall s, reachable s -> -5 <= pauseTightness s <= 5) /\
  (forall t, -5 <= t <= 5 -> silenceDetectionTime t = 400 - 50 * t) /\
  (forall t1 t2, t1 < t2 -> silenceDetectionTime t2 < silenceDetectionTime t1) /\
  silenceDetectionTime (-5) = 650 /\
  silenceDetectionTime 0 = 400 /\
  silenceDetectionTime 5 = 150 /\
  (forall s dataArray,
      reachable s ->
      recordingState s = RECORDING ->
      silenceTimerRef s = None ->
      isSilent (averageVolume dataArray) (silenceThresholdRef s) = true ->
      exists s',
        step s (AnimationFrame dataArray) = Some s' /\
        silenceTimerRef s' = Some (nextHandle s) /\
        timers s' = [Build_Timer (nextHandle s)
                                 (now s + (400 - 50 * pauseTightness s))
                                 None silenceElapsed]).
Proof.
  split; [ | split; [ | split; [ | split; [ | split; [ | split; [ | split; [ | split ] ] ] ] ] ] ].
  - intros s delta. unfold handleTightnessChange, handleTightnessChange_value.
    simpl. lia.
  - intros s delta. unfold handleTightnessChange, handleTightnessChange_value.
    simpl. lia.
  - intros s Hr. exact (tightness_range s (reachable_Inv s Hr)).
  - intros t Ht. apply delay_in_range. exact Ht.
  - intros t1 t2 Hlt.
    unfold silenceDetectionTime, BASE_SILENCE_DETECTION_TIME_MS, PAUSE_TIGHTNESS_STEP_MS.
    lia.
  - reflexivity.
  - reflexivity.
  - reflexivity.
  - intros s dataArray Hr Hst Href Hs.
    eexists. split; [ apply silent_frame_arms; assumption | ].
    split; [ reflexivity | ]. simpl.
    pose proof (tightness_range s (reachable_Inv s Hr)) as Ht.
    destruct (delay_in_range _ Ht) as [-> _]. reflexivity.
Qed.

Lemma pause_tightness_delay_witness :
  pauseTightness (handleTightnessChange 1 (handleTightnessChange 1 mounted)) = 2 /\
  pauseTightness
    (handleTightnessChange 1 (set_pauseTightness 5 mounted)) = 5 /\
  pauseTightness
    (handleTightnessChange (-1) (set_pauseTightness (-5) mounted)) = -5 /\
  silenceDetectionTime 2 = 300 /\
  exists s',
    step noisy_recording (AnimationFrame (frame x05)) = Some s' /\
    silenceTimerRef s' = Some 4%nat /\
    timers s' = [Build_Timer 4 3400 None silenceElapsed].
Proof.
  destruct pause_tightness_delay as (_ & Hclamp & _ & Hd & _ & _ & _ & _ & Harm).
  split.
  { destruct (Hclamp (handleTightnessChange 1 mounted) 1) as (Hin & _ & _).
    rewrite Hin; [ | simpl; lia ].
    destruct (Hclamp mounted 1) as (Hin0 & _ & _).
    rewrite Hin0; [ reflexivity | simpl; lia ]. }
  split.
  { destruct (Hclamp (set_pauseTightness 5 mounted) 1) as (_ & _ & Hhigh).
    apply Hhigh. simpl. lia. }
  split.
  { destruct (Hclamp (set_pauseTightness (-5) mounted) (-1)) as (_ & Hlow & _).
    apply Hlow. simpl. lia. }
  split; [ apply (Hd 2); lia | ].
  apply (Harm noisy_recording (frame x05)).
  - apply (reachable_after (session_start (frame x0a) (frame x1e))).
    vm_compute. reflexivity.
  - vm_compute. reflexivity.
  - vm_compute. reflexivity.
  - vm_compute. reflexivity.
Defined.

(** C5. While recording with the silence timer pending, one frame that
    is not silent (loud or in between) clears the timer and the stored
    handle, and no timer is left; when a silent frame comes, however
    much later, it sets a new timer due a whole delay after that frame. *)
Theorem noise_cancels_pending_pause
        (s : Sys) (h : nat) (t : Timer) (noisy : list byte) :
  reachable s ->
  recordingState s = RECORDING ->
  silenceTimerRef s = Some h ->
  find_timer h s = Some t ->
  isSilent (averageVolume noisy) (silenceThresholdRef s) = false ->
  exists s1,
    step s (AnimationFrame noisy) = Some s1 /\
    recordingState s1 = RECORDING /\
    silenceTimerRef s1 = None /\
    timers s1 = [] /\
    forall (dt : Z) (quiet : list byte),
      0 <= dt ->
      isSilent (averageVolume quiet) (silenceThresholdRef s1) = true ->
      exists s2,
        run s1 [Wait dt; AnimationFrame quiet] = Some s2 /\
        recordingState s2 = RECORDING /\
        silenceTimerRef s2 = Some (nextHandle s1) /\
        timers s2 = [Build_Timer (nextHandle s1)
                                 (now s + dt + silenceDetectionTime (pauseTightness s))
                                 None silenceElapsed].
Proof.
  intros Hr Hst Href Hfind Hnoisy.
  destruct (loop_of_session s Hr (or_introl Hst)) as (Hfr & Han & Hrec & _).
  specialize (Hrec Hst).
  assert (Hstep : step s (AnimationFrame noisy)
                  = Some (s |> clearTimer h |> set_silenceTimerRef None
                            |> set_animationFrame (Some (idle_closure s)))).
  { simpl. rewrite Hfr.
    rewrite (analysis_cancels (idle_closure s) noisy s Han) with (h := h);
      [ reflexivity | simpl; discriminate | assumption | assumption | assumption ]. }
  set (s1 := s |> clearTimer h |> set_silenceTimerRef None
               |> set_animationFrame (Some (idle_closure s))) in *.
  pose proof (reachable_step _ _ _ Hr Hstep) as Hr1.
  assert (Hst1 : recordingState s1 = RECORDING) by exact Hst.
  assert (Hnone : timers s1 = []).
  { apply no_timer_without_handle; [ assumption | congruence | reflexivity ]. }
  exists s1. split; [ exact Hstep | ].
  split; [ exact Hst1 | ]. split; [ reflexivity | ]. split; [ exact Hnone | ].
  intros dt quiet Hdt Hquiet.
  assert (Hwait : step s1 (Wait dt) = Some (s1 |> set_now (now s1 + dt))).
  { simpl step. unfold may_wait. rewrite Hnone. simpl forallb.
    replace (0 <=? dt) with true by (symmetry; apply Z.leb_le; exact Hdt).
    reflexivity. }
  pose proof (reachable_step _ _ _ Hr1 Hwait) as Hr2.
  pose proof (silent_frame_arms (s1 |> set_now (now s1 + dt)) quiet Hr2 Hst1 eq_refl Hquiet)
    as Harm.
  eexists. split.
  - unfold run. rewrite Hwait. rewrite Harm. reflexivity.
  - simpl. repeat split; reflexivity || exact Hst.
Qed.

Lemma noise_cancels_pending_pause_witness :
  let s := after (frames_20ms 15 x05) quiet_recording in
  now s = 3300 /\
  find_timer 4 s = Some (Build_Timer 4 3400 None silenceElapsed) /\
  exists s1,
    step s (AnimationFrame (frame x1e)) = Some s1 /\
    timers s1 = [] /\
    exists s2,
      run s1 [Wait 20; AnimationFrame (frame x05)] = Some s2 /\
      timers s2 = [Build_Timer 5 3720 None silenceElapsed].
Proof.
  intro s.
  split; [ vm_compute; reflexivity | ].
  split; [ vm_compute; reflexivity | ].
  assert (Hr : reachable s).
  { apply (reachable_after
             (session_start (frame x0a) (frame x05) ++ frames_20ms 15 x05)).
    vm_compute. reflexivity. }
  assert (Hst : recordingState s = RECORDING) by (vm_compute; reflexivity).
  assert (Href : silenceTimerRef s = Some 4%nat) by (vm_compute; reflexivity).
  assert (Hfind : find_timer 4 s = Some (Build_Timer 4 3400 None silenceElapsed))
    by (vm_compute; reflexivity).
  assert (Hnoisy : isSilent (averageVolume (frame x1e)) (silenceThresholdRef s) = false)
    by (vm_compute; reflexivity).
  destruct (noise_cancels_pending_pause s 4 _ (frame x1e) Hr Hst Href Hfind Hnoisy)
    as (s1 & Hstep & Hst1 & Href1 & Hnone & Hnext).
  exists s1. split; [ exact Hstep | ]. split; [ exact Hnone | ].
  assert (Es1 : step s (AnimationFrame (frame x1e))
                = Some (after [AnimationFrame (frame x1e)] s))
    by (vm_compute; reflexivity).
  assert (E : s1 = after [AnimationFrame (frame x1e)] s) by congruence.
  rewrite E in Hnext |- *.
  destruct (Hnext 20 (frame x05)) as (s2 & Hrun & _ & _ & Htim).
  - lia.
  - vm_compute. reflexivity.
  - exists s2. split; [ exact Hrun | ].
    rewrite Htim. vm_compute. reflexivity.
Defined.

(** ** Manual pause *)

(** The manual pause itself is immediate and sets the flag, whatever the
    level; but the loop that runs is the closure of the idle render, for
    which [isManuallyPaused] is false, so the next loud frame resumes. *)
Lemma manual_pause_then_loud_frame (s : Sys) (dataArray : list byte) :
  reachable s ->
  recordingState s = RECORDING ->
  isLoudEnoughToResume (averageVolume dataArray) (silenceThresholdRef s) = true ->
  exists s1 s2,
    step s ClickPause = Some s1 /\
    recordingState s1 = PAUSED /\
    mediaRecorderRef s1 = Some paused /\
    isManuallyPaused s1 = true /\
    now s1 = now s /\
    step s1 (AnimationFrame dataArray) = Some s2 /\
    recordingState s2 = RECORDING /\
    mediaRecorderRef s2 = Some recording /\
    isManuallyPaused s2 = true.
Proof.
  intros Hr Hst Hloud.
  destruct (loop_of_session s Hr (or_introl Hst)) as (_ & _ & Hrec & _).
  specialize (Hrec Hst).
  assert (Hstep : step s ClickPause
                  = Some (s |> set_mediaRecorderRef (Some paused)
                            |> set_recordingState PAUSED
                            |> set_isManuallyPaused true)).
  { simpl. rewrite Hst. simpl. unfold handleManualPause. rewrite Hrec. reflexivity. }
  pose proof (reachable_step _ _ _ Hr Hstep) as Hr1.
  eexists. eexists. split; [ exact Hstep | ].
  repeat (split; [ reflexivity | ]).
  split; [ apply paused_loud_frame; [ exact Hr1 | reflexivity | exact Hloud ] | ].
  repeat split; reflexivity.
Qed.

(** C6, where the code departs from it. In a first session calibrated
    at level 10, a manual pause followed 20 ms later by one frame at
    level 100 leaves the session recording again, with the
    manual-override flag still set and no resume command issued. *)
Theorem manual_pause_overridden_by_loud_sample :
  exists s1 s2,
    run mounted (session_start (frame x0a) (frame x1e) ++ [Wait 20; ClickPause])
    = Some s1 /\
    recordingState s1 = PAUSED /\
    isManuallyPaused s1 = true /\
    run s1 [Wait 20; AnimationFrame (frame x64)] = Some s2 /\
    run mounted manual_pause_then_loud = Some s2 /\
    recordingState s2 = RECORDING /\
    mediaRecorderRef s2 = Some recording /\
    isManuallyPaused s2 = true.
Proof.
  exists (after [Wait 20; ClickPause] noisy_recording).
  exists (after manual_pause_then_loud mounted).
  by_evaluation.
Qed.

(** ** Sustained silence from a session with no handle stored

    What the silence timer does when it is set afresh: the pause comes
    when the clock reads the time of the first silent frame plus the
    delay, not before, and time does not pass that instant without it. *)

Lemma paused_silent_ticks (ticks : list Event) (s s' : Sys) :
  reachable s ->
  recordingState s = PAUSED ->
  timers s = [] ->
  forallb (is_silent_tick (silenceThresholdRef s)) ticks = true ->
  run s ticks = Some s' ->
  recordingState s' = PAUSED /\
  automatic_pauses s ticks = 0%nat /\
  0 <= elapsed ticks.
Proof.
  revert s. induction ticks as [ | e rest IH]; intros s Hr Hst Hnone Hq Hrun.
  - simpl. repeat split; try lia. simpl in Hrun. congruence.
  - simpl in Hq. apply andb_true_iff in Hq. destruct Hq as [He Hq].
    simpl in Hrun. cbn [automatic_pauses].
    destruct (step s e) as [s0 | ] eqn:Estep; [ | discriminate ].
    pose proof (reachable_step s s0 e Hr Estep) as Hr0.
    destruct e; try discriminate.
    + simpl in He.
      assert (Hloud : isLoudEnoughToResume (averageVolume dataArray)
                                           (silenceThresholdRef s) = false).
      { apply silent_not_loud; [ | exact He ].
        exact (threshold_ok s (reachable_Inv s Hr)). }
      rewrite (paused_quiet_frame s dataArray Hr Hst Hloud) in Estep.
      injection Estep as <-.
      destruct (IH s Hr Hst Hnone Hq Hrun) as (? & ? & ?).
      simpl. repeat split; assumption.
    + simpl in Estep. unfold find_timer in Estep. rewrite Hnone in Estep.
      simpl in Estep. discriminate.
    + simpl in Estep. destruct (may_wait dt s) eqn:Ew; [ | discriminate ].
      injection Estep as <-.
      unfold may_wait in Ew. apply andb_true_iff in Ew. destruct Ew as [Ew _].
      apply Z.leb_le in Ew.
      destruct (IH _ Hr0 Hst Hnone Hq Hrun) as (? & ? & ?).
      simpl in *. repeat split; try assumption. lia.
Qed.

Lemma armed_silent_ticks (ticks : list Event) (s s' : Sys) (h : nat) (deadline : Z) :
  reachable s ->
  armed s h deadline ->
  forallb (is_silent_tick (silenceThresholdRef s)) ticks = true ->
  run s ticks = Some s' ->
  (now s + elapsed ticks < deadline ->
   recordingState s' = RECORDING /\ automatic_pauses s ticks = 0%nat) /\
  (deadline < now s + elapsed ticks ->
   recordingState s' = PAUSED /\ automatic_pauses s ticks = 1%nat) /\
  (automatic_pauses s ticks <= 1)%nat /\
  (recordingState s' = PAUSED <-> automatic_pauses s ticks = 1%nat).
Proof.
  revert s. induction ticks as [ | e rest IH]; intros s Hr Harmed Hq Hrun.
  - destruct Harmed as (Hst & _ & _ & Hnow).
    simpl in Hrun. injection Hrun as <-. simpl.
    repeat split; try lia; try assumption; intro E; congruence || discriminate.
  - simpl in Hq. apply andb_true_iff in Hq. destruct Hq as [He Hq].
    simpl in Hrun. cbn [automatic_pauses].
    destruct (step s e) as [s0 | ] eqn:Estep; [ | discriminate ].
    pose proof (reachable_step s s0 e Hr Estep) as Hr0.
    pose proof Harmed as (Hst & Href & Htim & Hnow).
    destruct e; try discriminate.
    + (* a silent frame: the stored handle keeps the timer as it is *)
      destruct (loop_of_session s Hr (or_introl Hst)) as (Hfr & Han & Hrec & _).
      specialize (Hrec Hst).
      simpl in He. simpl in Estep. rewrite Hfr in Estep.
      rewrite (analysis_keeps_handle (idle_closure s) dataArray s Han) with (h := h)
        in Estep; [ | simpl; discriminate | assumption | assumption | assumption ].
      rewrite (set_animationFrame_same s _ Hfr) in Estep.
      injection Estep as <-.
      exact (IH s Hr Harmed Hq Hrun).
    + (* the timer runs: the clock reads the deadline *)
      assert (Hfind : find_timer h0 s = Some (Build_Timer h deadline None silenceElapsed)
                      /\ deadline <= now s).
      { simpl in Estep. unfold find_timer in *. rewrite Htim in *. simpl in *.
        destruct (h =? h0)%nat; [ | discriminate ].
        split; [ reflexivity | ].
        cbn [due] in Estep.
        destruct (deadline <=? now s) eqn:El; [ | discriminate ].
        apply Z.leb_le. exact El. }
      destruct Hfind as [Hfind Hdue].
      destruct (loop_of_session s Hr (or_introl Hst)) as (_ & _ & Hrec & _).
      specialize (Hrec Hst).
      assert (Hauto : is_automatic_pause s (TimerFires h0 dataArray) = true).
      { simpl. rewrite Hfind, Hrec. simpl. apply Z.leb_le. exact Hdue. }
      rewrite Hauto.
      rewrite (silence_timer_fires s h0 _ dataArray Hr Hst Hfind Hdue) in Estep.
      injection Estep as <-.
      match type of Hrun with run ?x rest = _ => set (s1 := x) in * end.
      assert (Hnone1 : timers s1 = []).
      { unfold s1. simpl. rewrite Htim. simpl. rewrite Nat.eqb_refl. reflexivity. }
      destruct (paused_silent_ticks rest s1 s' Hr0 eq_refl Hnone1 Hq Hrun)
        as (Hp & Hz & Hel).
      rewrite Hz. simpl elapsed.
      split; [ intro; exfalso; lia | ].
      split; [ intro; split; [ exact Hp | reflexivity ] | ].
      split; [ simpl; lia | ].
      split; intro; [ reflexivity | exact Hp ].
    + (* time passes, up to the deadline at most *)
      simpl in Estep. destruct (may_wait dt s) eqn:Ew; [ | discriminate ].
      injection Estep as <-.
      unfold may_wait in Ew. apply andb_true_iff in Ew. destruct Ew as [Ew1 Ew2].
      apply Z.leb_le in Ew1. rewrite Htim in Ew2. simpl in Ew2.
      rewrite andb_true_r in Ew2. apply Z.leb_le in Ew2.
      assert (Harmed' : armed (s |> set_now (now s + dt)) h deadline).
      { unfold armed. simpl. tauto. }
      destruct (IH _ Hr0 Harmed' Hq Hrun) as (I1 & I2 & I3 & I4).
      simpl now in I1, I2. simpl elapsed. simpl is_automatic_pause. cbn iota.
      rewrite Nat.add_0_l.
      split; [ intro; apply I1; lia | ].
      split; [ intro; apply I2; lia | ].
      split; [ exact I3 | exact I4 ].
Qed.

(** The part of C4 that the code keeps: with no handle stored, silence
    until less than the delay after its first frame never pauses, and
    silence until more than the delay after it has paused exactly once. *)
Lemma fresh_silence_pauses_once
      (first : list byte) (ticks : list Event) (s s' : Sys) :
  reachable s ->
  recordingState s = RECORDING ->
  silenceTimerRef s = None ->
  isSilent (averageVolume first) (silenceThresholdRef s) = true ->
  forallb (is_silent_tick (silenceThresholdRef s)) ticks = true ->
  run s (AnimationFrame first :: ticks) = Some s' ->
  (elapsed ticks < silenceDetectionTime (pauseTightness s) ->
   recordingState s' = RECORDING /\
   automatic_pauses s (AnimationFrame first :: ticks) = 0%nat) /\
  (silenceDetectionTime (pauseTightness s) < elapsed ticks ->
   recordingState s' = PAUSED /\
   automatic_pauses s (AnimationFrame first :: ticks) = 1%nat) /\
  (automatic_pauses s (AnimationFrame first :: ticks) <= 1)%nat.
Proof.
  intros Hr Hst Href Hs Hq Hrun.
  pose proof (silent_frame_arms s first Hr Hst Href Hs) as Hstep.
  cbn [run] in Hrun. rewrite Hstep in Hrun.
  cbn [automatic_pauses]. rewrite Hstep.
  cbn [is_automatic_pause]. rewrite Nat.add_0_l.
  match type of Hrun with run ?x ticks = _ => set (s1 := x) in * end.
  pose proof (reachable_step _ _ _ Hr Hstep) as Hr1. fold s1 in Hr1.
  pose proof (tightness_range s (reachable_Inv s Hr)) as Ht.
  destruct (delay_in_range _ Ht) as [_ Hd].
  assert (Harmed : armed s1 (nextHandle s)
                         (now s + silenceDetectionTime (pauseTightness s))).
  { unfold armed, s1. simpl. repeat split; try assumption; try reflexivity. lia. }
  destruct (armed_silent_ticks ticks s1 s' _ _ Hr1 Harmed Hq Hrun)
    as (I1 & I2 & I3 & _).
  change (now s1) with (now s) in I1, I2.
  split; [ intro; apply I1; lia | ].
  split; [ intro; apply I2; lia | exact I3 ].
Qed.

(** ** Sustained silence with a handle left behind *)

(** A handle left in [silenceTimerRef] by a timer that has run, or that
    [stopRecording] has cleared, keeps the recording branch from setting
    a timer: silence then never pauses. *)
Lemma stale_handle_never_pauses (ticks : list Event) (s s' : Sys) (h : nat) :
  reachable s ->
  recordingState s = RECORDING ->
  silenceTimerRef s = Some h ->
  timers s = [] ->
  forallb (is_silent_tick (silenceThresholdRef s)) ticks = true ->
  run s ticks = Some s' ->
  recordingState s' = RECORDING /\
  timers s' = [] /\
  automatic_pauses s ticks = 0%nat /\
  now s' = now s + elapsed ticks.
Proof.
  revert s. induction ticks as [ | e rest IH]; intros s Hr Hst Href Hnone Hq Hrun.
  - simpl in Hrun. injection Hrun as <-. simpl. repeat split; auto. lia.
  - simpl in Hq. apply andb_true_iff in Hq. destruct Hq as [He Hq].
    simpl in Hrun. cbn [automatic_pauses].
    destruct (step s e) as [s0 | ] eqn:Estep; [ | discriminate ].
    pose proof (reachable_step s s0 e Hr Estep) as Hr0.
    destruct e; try discriminate.
    + destruct (loop_of_session s Hr (or_introl Hst)) as (Hfr & Han & Hrec & _).
      specialize (Hrec Hst).
      simpl in He. simpl in Estep. rewrite Hfr in Estep.
      rewrite (analysis_keeps_handle (idle_closure s) dataArray s Han) with (h := h)
        in Estep; [ | simpl; discriminate | assumption | assumption | assumption ].
      rewrite (set_animationFrame_same s _ Hfr) in Estep.
      injection Estep as <-.
      destruct (IH s Hr Hst Href Hnone Hq Hrun) as (? & ? & ? & ?).
      simpl. repeat split; assumption.
    + simpl in Estep. unfold find_timer in Estep. rewrite Hnone in Estep.
      simpl in Estep. discriminate.
    + simpl in Estep. destruct (may_wait dt s); [ | discriminate ].
      injection Estep as <-.
      destruct (IH _ Hr0 Hst Href Hnone Hq Hrun) as (? & ? & ? & En).
      simpl in *. repeat split; try assumption. lia.
Qed.

(** C4, where the code departs from it. In a first session calibrated
    at level 10 (delay 400 ms), 400 ms of silence pause the recording
    once; one loud frame resumes it; the 2000 ms of silent frames that
    follow, with no other sample, produce no pause: the handle of the
    timer that has run is still stored and no timer is set. The same
    happens when the Resume button ends that pause. *)
Theorem silence_after_resume_never_pauses :
  automatic_pauses quiet_recording (frames_20ms 20 x05 ++ [TimerFires 4 []]) = 1%nat /\
  recordingState auto_paused = PAUSED /\
  run auto_paused [Wait 20; AnimationFrame (frame x1e)] = Some resumed_by_loud_frame /\
  recordingState resumed_by_loud_frame = RECORDING /\
  silenceTimerRef resumed_by_loud_frame = Some 4%nat /\
  silenceDetectionTime (pauseTightness resumed_by_loud_frame) = 400 /\
  forallb (is_silent_tick (silenceThresholdRef resumed_by_loud_frame))
          (frames_20ms 100 x05) = true /\
  elapsed (frames_20ms 100 x05) = 2000 /\
  (exists s',
      run resumed_by_loud_frame (frames_20ms 100 x05) = Some s' /\
      recordingState s' = RECORDING /\
      mediaRecorderRef s' = Some recording /\
      timers s' = [] /\
      automatic_pauses resumed_by_loud_frame (frames_20ms 100 x05) = 0%nat) /\
  run auto_paused [Wait 20; ClickResume] = Some resumed_by_click /\
  recordingState resumed_by_click = RECORDING /\
  exists s',
    run resumed_by_click (frames_20ms 100 x05) = Some s' /\
    recordingState s' = RECORDING /\
    mediaRecorderRef s' = Some recording /\
    timers s' = [] /\
    automatic_pauses resumed_by_click (frames_20ms 100 x05) = 0%nat.
Proof.
  do 8 (split; [ vm_compute; reflexivity | ]).
  split.
  { exists (after (frames_20ms 100 x05) resumed_by_loud_frame). by_evaluation. }
  do 2 (split; [ vm_compute; reflexivity | ]).
  exists (after (frames_20ms 100 x05) resumed_by_click).
  by_evaluation.
Qed.

(** ** Stop during calibration *)

Lemma stopRecording_without_recorder (s : Sys) :
  mediaRecorderRef s = None ->
  stopRecording s
  = (match silenceTimerRef s with
     | Some h => clearTimer h s
     | None => s
     end |> set_animationFrame None |> set_isManuallyPaused false).
Proof.
  intro Hrec. unfold stopRecording. rewrite Hrec. reflexivity.
Qed.

(** The analysis of a frame while the recorder records changes neither
    the lifecycle state nor the baseline. *)
Lemma analysis_while_recording (seen : AnalysisClosure) (dataArray : list byte) (s : Sys) :
  analyserRef s = true ->
  seen_recordingState seen <> CALIBRATING ->
  mediaRecorderRef s = Some recording ->
  let s' := runAudioAnalysis seen dataArray s in
  recordingState s' = recordingState s /\
  mediaRecorderRef s' = Some recording /\
  silenceThresholdRef s' = silenceThresholdRef s /\
  animationFrame s' = Some seen.
Proof.
  intros Han Hnc Hrec.
  destruct (analysis_cases seen dataArray s Han Hnc (or_introl Hrec))
    as [E | [(_ & _ & _ & E) | [(h & _ & _ & _ & E) | (Hp & _)]]];
    [ | | | congruence ].
  all: rewrite E; simpl; repeat split; try reflexivity; exact Hrec.
Qed.

(** C8, as the code has it. No stop is offered while calibrating: the
    only control is disabled. If [stopRecording] runs all the same, the
    session stays in calibration with the baseline untouched and every
    calibration timer still pending; the completion timer is among them,
    and when it runs it computes the baseline from the collected samples
    and starts the recording and its analysis loop. *)
Theorem stop_while_calibrating (s : Sys) :
  reachable s ->
  recordingState s = CALIBRATING ->
  step s ClickStop = None /\
  recordingState (stopRecording s) = CALIBRATING /\
  silenceThresholdRef (stopRecording s) = silenceThresholdRef s /\
  (forall u, In u (timers s) -> callback u <> silenceElapsed ->
             In u (timers (stopRecording s))) /\
  exists t a c d seen,
    In t (timers (stopRecording s)) /\
    callback t = calibrationElapsed a c d seen /\
    forall dataArray,
      let s' := fire t dataArray (stopRecording s) in
      recordingState s' = RECORDING /\
      mediaRecorderRef s' = Some recording /\
      silenceThresholdRef s' = baseline (read_array a (arrays s)) /\
      animationFrame s' = Some seen.
Proof.
  intros Hr Hst. apply reachable_Inv in Hr. pose proof Hr as H0. use_inv Hr.
  unfold lifecycle_ok in Hlife. rewrite Hst in Hlife.
  destruct Hlife as (Hrec & Hfr & Hstream & Han & t & Hin & Hc).
  assert (Hkeep : forall u, In u (timers s) -> callback u <> silenceElapsed ->
                            In u (timers (stopRecording s))).
  { intros u Hu Hns. rewrite (stopRecording_without_recorder s Hrec). simpl.
    destruct (silenceTimerRef s) as [h | ] eqn:Href; [ | exact Hu ].
    apply In_clearTimer. split; [ exact Hu | ].
    intro Eh. destruct (Hhandle h eq_refl) as [_ Hsil]. apply Hns. now apply Hsil. }
  split; [ simpl; rewrite Hst; reflexivity | ].
  split.
  { rewrite (stopRecording_without_recorder s Hrec). simpl.
    destruct (silenceTimerRef s); exact Hst. }
  split; [ apply stopRecording_threshold | ].
  split; [ exact Hkeep | ].
  pose proof (Htimers t Hin) as Hok. unfold timer_ok in Hok.
  unfold is_calibrationElapsed in Hc.
  destruct (callback t) as [ | | | a c d seen] eqn:Ecb; try discriminate.
  destruct Hok as (_ & Hev & _ & Hseen).
  exists t, a, c, d, seen.
  split; [ apply Hkeep; [ exact Hin | rewrite Ecb; discriminate ] | ].
  split; [ exact Ecb | ].
  intros dataArray. unfold fire. rewrite Hev, Ecb. simpl run_callback.
  unfold onCalibrationElapsed, startActualRecording.
  set (s1 := clearTimer (handle t) (stopRecording s) |> clearTimer c |> clearTimer d).
  assert (F : streamRef s1 = streamRef s /\ analyserRef s1 = analyserRef s /\
              arrays s1 = arrays s).
  { unfold s1. rewrite (stopRecording_without_recorder s Hrec). simpl.
    destruct (silenceTimerRef s); simpl; repeat split; reflexivity. }
  destruct F as (F1 & F2 & F3). clearbody s1.
  change (streamRef (s1 |> set_silenceThresholdRef (baseline (read_array a (arrays s1)))))
    with (streamRef s1).
  rewrite F1, Hstream. simpl negb. cbv iota.
  destruct (analysis_while_recording seen dataArray
              (s1 |> set_silenceThresholdRef (baseline (read_array a (arrays s1)))
                  |> set_recordingState RECORDING
                  |> set_mediaRecorderRef (Some recording)))
    as (R1 & R2 & R3 & R4).
  - change (analyserRef s1 = true). rewrite F2. exact Han.
  - rewrite Hseen. simpl. discriminate.
  - reflexivity.
  - split; [ rewrite R1; reflexivity | ].
    split; [ exact R2 | ].
    split; [ rewrite R3; simpl; rewrite F3; reflexivity | exact R4 ].
Qed.

Lemma stop_while_calibrating_witness :
  recordingState calibrating = CALIBRATING /\
  step calibrating ClickStop = None /\
  recordingState (stopRecording calibrating) = CALIBRATING /\
  silenceThresholdRef (stopRecording calibrating) = silenceThresholdRef calibrating.
Proof.
  assert (Hr : reachable calibrating).
  { apply (reachable_after
             [PreviewStream true; ClickStart running; Wait 50; TimerFires 2 (frame x0a)]).
    vm_compute. reflexivity. }
  assert (Hst : recordingState calibrating = CALIBRATING) by (vm_compute; reflexivity).
  destruct (stop_while_calibrating calibrating Hr Hst) as (H1 & H2 & H3 & _).
  split; [ exact Hst | ]. split; [ exact H1 | ]. split; [ exact H2 | exact H3 ].
Defined.

(** C8, as stated, fails: 50 ms into a calibration, [stopRecording]
    leaves the three calibration timers (handles 1, 2 and 3) pending;
    the window then completes, the baseline 10 is computed and stored,
    the recording starts, and 400 ms of silence later the silence timer
    pauses it. *)
Lemma calibration_survives_stop :
  recordingState calibrating = CALIBRATING /\
  map handle (timers calibrating) = [1; 2; 3]%nat /\
  recordingState (stopRecording calibrating) = CALIBRATING /\
  map handle (timers (stopRecording calibrating)) = [1; 2; 3]%nat /\
  silenceThresholdRef (stopRecording calibrating) = Num 0 /\
  exists s',
    run (stopRecording calibrating) rest_of_calibration = Some s' /\
    silenceThresholdRef s' = Num 10 /\
    recordingState s' = PAUSED /\
    mediaRecorderRef s' = Some paused /\
    automatic_pauses (stopRecording calibrating) rest_of_calibration = 1%nat.
Proof.
  do 5 (split; [ vm_compute; reflexivity | ]).
  exists (after rest_of_calibration (stopRecording calibrating)).
  by_evaluation.
Qed.

(** * Further properties of the controller *)

Lemma reachable_quiet_recording : reachable quiet_recording.
Proof.
  apply (reachable_after (session_start (frame x0a) (frame x05))).
  vm_compute. reflexivity.
Qed.

Lemma reachable_noisy_recording : reachable noisy_recording.
Proof.
  apply (reachable_after (session_start (frame x0a) (frame x1e))).
  vm_compute. reflexivity.
Qed.

Lemma reachable_auto_paused : reachable auto_paused.
Proof.
  apply (reachable_after
           (session_start (frame x0a) (frame x05)
            ++ frames_20ms 20 x05 ++ [TimerFires 4 []])).
  vm_compute. reflexivity.
Qed.

Lemma reachable_calibrating : reachable calibrating.
Proof.
  apply (reachable_after
           [PreviewStream true; ClickStart running; Wait 50; TimerFires 2 (frame x0a)]).
  vm_compute. reflexivity.
Qed.

(** ** Pause and resume *)

(** A manual pause followed by a manual resume leaves the session as it
    was, the override flag cleared: the clock, the baseline, the stored
    timer handle and the pending silence timer are untouched, so a timer
    set before the pause still runs. *)
Theorem pause_then_resume (s : Sys) :
  reachable s ->
  recordingState s = RECORDING ->
  run s [ClickPause; ClickResume] = Some (s |> set_isManuallyPaused false).
Proof.
  intros Hr Hst.
  destruct (loop_of_session s Hr (or_introl Hst)) as (_ & _ & Hrec & _).
  specialize (Hrec Hst).
  simpl. rewrite Hst. simpl. unfold handleManualPause. rewrite Hrec. simpl.
  f_equal. destruct s. simpl in *. subst. reflexivity.
Qed.

Lemma pause_then_resume_witness :
  run quiet_recording [ClickPause; ClickResume]
  = Some (quiet_recording |> set_isManuallyPaused false) /\
  timers (quiet_recording |> set_isManuallyPaused false)
  = [Build_Timer 4 3400 None silenceElapsed].
Proof.
  split.
  - apply (pause_then_resume quiet_recording reachable_quiet_recording).
    vm_compute. reflexivity.
  - vm_compute. reflexivity.
Defined.

(** ** After Stop *)

Lemma startPreview_fields (granted : bool) (s : Sys) :
  let s' := startPreview granted s in
  recordingState s' = recordingState s /\
  timers s' = timers s /\
  silenceThresholdRef s' = silenceThresholdRef s /\
  pauseTightness s' = pauseTightness s /\
  streamRef s' = granted.
Proof.
  unfold startPreview, stopPreviewStream.
  destruct granted, (streamRef s); simpl; repeat split; reflexivity.
Qed.

Lemma onstop_fields (s : Sys) :
  let s' := onstop s in
  recordingState s' = recordingState s /\
  timers s' = timers s /\
  silenceThresholdRef s' = silenceThresholdRef s /\
  pauseTightness s' = pauseTightness s /\
  isManuallyPaused s' = isManuallyPaused s /\
  mediaRecorderRef s' = None /\
  animationFrame s' = None /\
  streamRef s' = false.
Proof.
  unfold onstop, stopPreviewStream.
  destruct (Inv_cleanupRecording_fields s)
    as (E1 & E2 & E3 & E4 & E5 & E6 & E7 & E8 & E9 & E10).
  pose proof (cleanupRecording_threshold s) as Et.
  destruct (streamRef (cleanupRecording s)) eqn:Es; simpl;
    repeat split; try assumption; congruence.
Qed.

Lemma handleReset_fields (s : Sys) :
  let s' := handleReset s in
  recordingState s' = IDLE /\
  timers s' = timers s /\
  silenceThresholdRef s' = silenceThresholdRef s /\
  pauseTightness s' = pauseTightness s /\
  isManuallyPaused s' = false /\
  mediaRecorderRef s' = None /\
  animationFrame s' = None /\
  streamRef s' = streamRef s.
Proof.
  unfold handleReset.
  match goal with |- context [cleanupRecording ?x] =>
    destruct (Inv_cleanupRecording_fields x)
      as (E1 & E2 & E3 & E4 & E5 & E6 & E7 & E8 & E9 & E10);
    pose proof (cleanupRecording_threshold x) as Et
  end.
  simpl in *. repeat split; assumption.
Qed.

Lemma at_rest (s : Sys) :
  reachable s ->
  recordingState s = STOPPED \/ recordingState s = IDLE ->
  animationFrame s = None /\
  mediaRecorderRef s <> Some recording /\
  mediaRecorderRef s <> Some paused.
Proof.
  intros Hr Hst. apply reachable_Inv in Hr. destruct Hr as [_ _ _ Hlife _ _ _ _ _].
  unfold lifecycle_ok in Hlife.
  destruct Hst as [E | E]; rewrite E in Hlife.
  - destruct Hlife as [[-> | ->] ->]; repeat split; discriminate.
  - destruct Hlife as [-> ->]. repeat split; discriminate.
Qed.

(** With no timer and no ClickStart, a stopped or idle session stays
    stopped or idle. *)
Lemma quiescent_run (trace : list Event) (s s' : Sys) :
  reachable s ->
  recordingState s = STOPPED \/ recordingState s = IDLE ->
  timers s = [] ->
  forallb (fun e => negb (is_start e)) trace = true ->
  run s trace = Some s' ->
  reachable s' /\
  (recordingState s' = STOPPED \/ recordingState s' = IDLE) /\
  timers s' = [] /\
  automatic_pauses s trace = 0%nat /\
  silenceThresholdRef s' = silenceThresholdRef s.
Proof.
  revert s. induction trace as [ | e rest IH]; intros s Hr Hst Hnone Hq Hrun.
  - simpl in Hrun. injection Hrun as <-. simpl. repeat split; auto.
  - simpl in Hq. apply andb_true_iff in Hq. destruct Hq as [He Hq].
    simpl in Hrun. cbn [automatic_pauses].
    destruct (step s e) as [s0 | ] eqn:Estep; [ | discriminate ].
    pose proof (reachable_step s s0 e Hr Estep) as Hr0.
    assert (Hnext : (recordingState s0 = STOPPED \/ recordingState s0 = IDLE) /\
                    timers s0 = [] /\
                    is_automatic_pause s e = false /\
                    silenceThresholdRef s0 = silenceThresholdRef s).
    { destruct e; try discriminate; simpl in Estep.
      - destruct Hst as [E | E]; rewrite E in Estep; discriminate.
      - destruct Hst as [E | E]; rewrite E in Estep; discriminate.
      - destruct Hst as [E | E]; rewrite E in Estep; discriminate.
      - destruct (RecordingState_eqb (recordingState s) STOPPED); [ | discriminate ].
        injection Estep as <-.
        destruct (handleReset_fields s) as (E1 & E2 & E3 & _).
        repeat split; try (right; assumption); congruence.
      - destruct (RecordingState_eqb (recordingState s) IDLE
                  && negb (pauseTightness s =? (if tighter then 5 else -5)));
          [ | discriminate ].
        injection Estep as <-. simpl. repeat split; assumption.
      - destruct (RecordingState_eqb (recordingState s) IDLE); [ | discriminate ].
        injection Estep as <-.
        destruct (startPreview_fields granted s) as (E1 & E2 & E3 & _).
        repeat split; try congruence; try (rewrite E1; exact Hst).
      - destruct (mediaRecorderRef s) as [[ | | ] | ]; try discriminate.
        injection Estep as <-.
        destruct (onstop_fields s) as (E1 & E2 & E3 & _).
        repeat split; try congruence; try (rewrite E1; exact Hst).
      - destruct (at_rest s Hr Hst) as (Hfr & _).
        rewrite Hfr in Estep. discriminate.
      - unfold find_timer in Estep. rewrite Hnone in Estep. discriminate.
      - destruct (may_wait dt s); [ | discriminate ].
        injection Estep as <-. simpl. repeat split; assumption.
      - rewrite (step_contextState s s0 state Estep). simpl.
        repeat split; assumption || reflexivity. }
    destruct Hnext as (Hst0 & Hnone0 & Hauto & Ethr).
    destruct (IH s0 Hr0 Hst0 Hnone0 Hq Hrun) as (I1 & I2 & I3 & I4 & I5).
    rewrite Hauto, I4. repeat split; try assumption. congruence.
Qed.

Lemma stop_clears_timers (s : Sys) :
  reachable s ->
  recordingState s = RECORDING \/ recordingState s = PAUSED ->
  step s ClickStop = Some (stopRecording s) /\
  recordingState (stopRecording s) = STOPPED /\
  timers (stopRecording s) = [] /\
  silenceThresholdRef (stopRecording s) = silenceThresholdRef s /\
  pauseTightness (stopRecording s) = pauseTightness s.
Proof.
  intros Hr Hst.
  assert (Hrec : mediaRecorderRef s <> None).
  { destruct (loop_of_session s Hr Hst) as (_ & _ & H1 & H2).
    destruct Hst as [E | E]; [ rewrite (H1 E) | rewrite (H2 E) ]; discriminate. }
  destruct (stopRecording_fields s Hst Hrec) as (E1 & _ & _ & _ & E5 & _ & _ & E8).
  split; [ simpl; destruct Hst as [-> | ->]; reflexivity | ].
  split; [ exact E1 | ].
  split; [ | split; [ apply stopRecording_threshold | exact E5 ] ].
  assert (Hno : forall u, In u (timers (stopRecording s)) -> False).
  { intros u Hin. apply E8 in Hin. destruct Hin as [Hin Hne].
    destruct (only_silence_timers s u (reachable_Inv s Hr)) as (_ & _ & Href);
      [ destruct Hst; congruence | exact Hin | ].
    contradiction. }
  destruct (timers (stopRecording s)) as [ | u rest]; [ reflexivity | exfalso ].
  apply (Hno u). left. reflexivity.
Qed.

(** Stop leaves nothing behind: the silence timer and the pending frame
    are cancelled, and whatever happens next, short of a new start, the
    session stays stopped or idle with no timer and no frame pending; no
    pause decision fires and the baseline is kept. *)
Theorem nothing_runs_after_stop (s s' : Sys) (trace : list Event) :
  reachable s ->
  recordingState s = RECORDING \/ recordingState s = PAUSED ->
  forallb (fun e => negb (is_start e)) trace = true ->
  run s (ClickStop :: trace) = Some s' ->
  (recordingState s' = STOPPED \/ recordingState s' = IDLE) /\
  timers s' = [] /\
  animationFrame s' = None /\
  mediaRecorderRef s' <> Some recording /\
  mediaRecorderRef s' <> Some paused /\
  automatic_pauses s (ClickStop :: trace) = 0%nat /\
  silenceThresholdRef s' = silenceThresholdRef s.
Proof.
  intros Hr Hst Hq Hrun.
  destruct (stop_clears_timers s Hr Hst) as (Hstep & E1 & E2 & E3 & _).
  cbn [run] in Hrun. cbn [automatic_pauses]. rewrite Hstep in *.
  pose proof (reachable_step _ _ _ Hr Hstep) as Hr1.
  destruct (quiescent_run trace _ s' Hr1 (or_introl E1) E2 Hq Hrun)
    as (Hr' & Hst' & Hnone' & Hzero & Ethr).
  destruct (at_rest s' Hr' Hst') as (A1 & A2 & A3).
  repeat (split; [ assumption | ]).
  congruence.
Qed.

Lemma nothing_runs_after_stop_witness :
  exists s',
    run quiet_recording [ClickStop; Wait 1000; RecorderStopped; ClickReset; Wait 1000]
    = Some s' /\
    timers s' = [] /\
    animationFrame s' = None.
Proof.
  exists (after [ClickStop; Wait 1000; RecorderStopped; ClickReset; Wait 1000]
                quiet_recording).
  assert (Hrun : run quiet_recording
                     [ClickStop; Wait 1000; RecorderStopped; ClickReset; Wait 1000]
                 = Some (after [ClickStop; Wait 1000; RecorderStopped; ClickReset;
                                Wait 1000] quiet_recording))
    by (vm_compute; reflexivity).
  assert (Hst : recordingState quiet_recording = RECORDING \/
                recordingState quiet_recording = PAUSED)
    by (left; vm_compute; reflexivity).
  assert (Hq : forallb (fun e => negb (is_start e))
                       [Wait 1000; RecorderStopped; ClickReset; Wait 1000] = true)
    by (vm_compute; reflexivity).
  destruct (nothing_runs_after_stop quiet_recording _ _
              reachable_quiet_recording Hst Hq Hrun)
    as (_ & H2 & H3 & _).
  split; [ exact Hrun | ]. split; [ exact H2 | exact H3 ].
Defined.

Lemma silenceTimerRef_kept (s : Sys) :
  silenceTimerRef (stopRecording s) = silenceTimerRef s /\
  silenceTimerRef (onstop s) = silenceTimerRef s /\
  silenceTimerRef (handleReset s) = silenceTimerRef s.
Proof.
  split; [ | split ].
  - unfold stopRecording.
    destruct (mediaRecorderRef s);
      [ destruct (negb (RecordingState_eqb (recordingState s) IDLE)
                  && negb (RecordingState_eqb (recordingState s) STOPPED)) | ];
      simpl; destruct (silenceTimerRef s) eqn:E; simpl; rewrite ?E; reflexivity.
  - unfold onstop, stopPreviewStream.
    destruct (Inv_cleanupRecording_fields s) as (_ & _ & _ & _ & _ & _ & _ & E8 & _).
    destruct (streamRef (cleanupRecording s)); simpl; exact E8.
  - unfold handleReset.
    match goal with |- context [cleanupRecording ?x] =>
      destruct (Inv_cleanupRecording_fields x) as (_ & _ & _ & _ & _ & _ & _ & E8 & _)
    end.
    exact E8.
Qed.

Lemma startCalibration_error (context : AudioContextState) (s : Sys) :
  streamRef s = true -> error (startCalibration context s) = false.
Proof.
  intro E. unfold startCalibration. simpl. rewrite E. reflexivity.
Qed.

(** Stop, the recorder's stop event and Reset bring the session back to
    idle with the recorder, the loop and the camera stream released and
    no timer pending, while the baseline, the tightness and the stored
    timer handle are kept.  A new start is refused with the camera error
    until a preview stream is granted again, and accepted after that. *)
Theorem record_again (s : Sys) (context : AudioContextState) :
  reachable s ->
  recordingState s = RECORDING \/ recordingState s = PAUSED ->
  exists s1,
    run s [ClickStop; RecorderStopped; ClickReset] = Some s1 /\
    recordingState s1 = IDLE /\
    mediaRecorderRef s1 = None /\
    streamRef s1 = false /\
    animationFrame s1 = None /\
    timers s1 = [] /\
    isManuallyPaused s1 = false /\
    silenceThresholdRef s1 = silenceThresholdRef s /\
    pauseTightness s1 = pauseTightness s /\
    silenceTimerRef s1 = silenceTimerRef s /\
    (exists s2,
        step s1 (ClickStart context) = Some s2 /\
        recordingState s2 = IDLE /\
        error s2 = true /\
        timers s2 = []) /\
    (exists s3,
        run s1 [PreviewStream true; ClickStart context] = Some s3 /\
        recordingState s3 = CALIBRATING /\
        error s3 = false /\
        length (timers s3) = 3%nat).
Proof.
  intros Hr Hst.
  destruct (stop_clears_timers s Hr Hst) as (Hstep & E1 & E2 & E3 & E4).
  assert (Hrec : mediaRecorderRef s <> None).
  { destruct (loop_of_session s Hr Hst) as (_ & _ & H1 & H2).
    destruct Hst as [E | E]; [ rewrite (H1 E) | rewrite (H2 E) ]; discriminate. }
  destruct (stopRecording_fields s Hst Hrec) as (_ & F2 & _).
  destruct (silenceTimerRef_kept s) as (K1 & _).
  set (sa := stopRecording s) in *.
  destruct (onstop_fields sa) as (O1 & O2 & O3 & O4 & _ & _ & _ & O8).
  destruct (silenceTimerRef_kept sa) as (_ & K2 & _).
  set (sb := onstop sa) in *.
  destruct (handleReset_fields sb) as (R1 & R2 & R3 & R4 & R5 & R6 & R7 & R8).
  destruct (silenceTimerRef_kept sb) as (_ & _ & K3).
  set (sc := handleReset sb) in *.
  assert (Hrun : run s [ClickStop; RecorderStopped; ClickReset] = Some sc).
  { cbn [run]. rewrite Hstep.
    assert (S2 : step sa RecorderStopped = Some sb)
      by (cbn [step]; rewrite F2; reflexivity).
    rewrite S2.
    assert (S3 : step sb ClickReset = Some sc)
      by (cbn [step]; rewrite O1, E1; reflexivity).
    rewrite S3. reflexivity. }
  exists sc. split; [ exact Hrun | ].
  split; [ exact R1 | ]. split; [ exact R6 | ].
  split; [ congruence | ]. split; [ exact R7 | ].
  split; [ congruence | ]. split; [ exact R5 | ].
  split; [ congruence | ]. split; [ congruence | ]. split; [ congruence | ].
  assert (Hstream : streamRef sc = false) by congruence.
  assert (Htim : timers sc = []) by congruence.
  clearbody sc. clear - R1 Hstream Htim.
  split.
  - eexists. split.
    + simpl. rewrite R1. simpl.
      rewrite (startCalibration_without_stream context sc Hstream). reflexivity.
    + simpl. repeat split; try reflexivity. exact Htim.
  - destruct (startPreview_fields true sc) as (P1 & P2 & _ & _ & P5).
    destruct (startCalibration_with_stream context (startPreview true sc) P5)
      as (_ & C1 & _ & _ & _ & _ & _ & _ & _ & _ & _ & C10).
    exists (startCalibration context (startPreview true sc)).
    split; [ | split; [ exact C1 | split ] ].
    + cbn [run step]. rewrite R1. cbn [RecordingState_eqb]. cbn [step].
      rewrite P1, R1. reflexivity.
    + apply startCalibration_error. exact P5.
    + rewrite C10, P2, Htim. reflexivity.
Qed.

Lemma record_again_witness :
  exists s1,
    run auto_paused [ClickStop; RecorderStopped; ClickReset] = Some s1 /\
    recordingState s1 = IDLE /\
    silenceThresholdRef s1 = silenceThresholdRef auto_paused /\
    silenceTimerRef s1 = silenceTimerRef auto_paused.
Proof.
  assert (Hst : recordingState auto_paused = RECORDING \/
                recordingState auto_paused = PAUSED)
    by (right; vm_compute; reflexivity).
  destruct (record_again auto_paused running reachable_auto_paused Hst)
    as (s1 & H1 & H2 & _ & _ & _ & _ & _ & H8 & _ & H10 & _).
  exists s1. repeat (split; [ assumption | ]). exact H10.
Defined.

(** ** What a session keeps fixed *)

Lemma runAudioAnalysis_keeps (seen : AnalysisClosure) (dataArray : list byte) (s : Sys) :
  let s' := runAudioAnalysis seen dataArray s in
  now s' = now s /\
  pauseTightness s' = pauseTightness s /\
  isManuallyPaused s' = isManuallyPaused s /\
  silenceThresholdRef s' = silenceThresholdRef s /\
  calibrationCountdown s' = calibrationCountdown s /\
  arrays s' = arrays s.
Proof.
  unfold runAudioAnalysis.
  destruct (negb (analyserRef s)
            || RecordingState_eqb (seen_recordingState seen) CALIBRATING);
    [ simpl; repeat split; reflexivity | ].
  destruct (mediaRecorderRef s) as [st | ]; [ | simpl; repeat split; reflexivity ].
  destruct (RecorderState_eqb st recording
            && isSilent (averageVolume dataArray) (silenceThresholdRef s)).
  { destruct (silenceTimerRef s); simpl; repeat split; reflexivity. }
  destruct (RecorderState_eqb st recording
            && negb (isSilent (averageVolume dataArray) (silenceThresholdRef s))).
  { destruct (silenceTimerRef s); simpl; repeat split; reflexivity. }
  destruct (RecorderState_eqb st paused
            && isLoudEnoughToResume (averageVolume dataArray) (silenceThresholdRef s)
            && negb (seen_isManuallyPaused seen));
    simpl; repeat split; reflexivity.
Qed.

Lemma fire_keeps_tightness (t : Timer) (dataArray : list byte) (s : Sys) :
  pauseTightness (fire t dataArray s) = pauseTightness s /\
  now (fire t dataArray s) = now s.
Proof.
  unfold fire.
  set (s1 := match every t with
             | Some period => rearm (handle t) period s
             | None => clearTimer (handle t) s
             end).
  assert (E1 : pauseTightness s1 = pauseTightness s /\ now s1 = now s)
    by (unfold s1; destruct (every t); split; reflexivity).
  destruct E1 as [E1 E2]. rewrite <- E1, <- E2. clearbody s1.
  destruct (callback t) as [ | | a | a c d seen]; simpl.
  - unfold onSilenceElapsed.
    destruct (mediaRecorderRef s1) as [[ | | ] | ]; split; reflexivity.
  - split; reflexivity.
  - unfold onCollectCalibrationData.
    destruct (audioContextRef s1) as [st | ]; [ | split; reflexivity ].
    destruct (analyserRef s1 && AudioContextState_eqb st running); split; reflexivity.
  - unfold onCalibrationElapsed, startActualRecording.
    match goal with |- context [if ?b then _ else _] => destruct b end;
      [ split; reflexivity | ].
    match goal with |- context [runAudioAnalysis ?a ?b ?x] =>
      destruct (runAudioAnalysis_keeps a b x) as (K1 & K2 & _)
    end.
    split; [ rewrite K2 | rewrite K1 ]; reflexivity.
Qed.


(** The tightness moves only by the two tightness buttons, one step at a
    time and only while idle: from the start of a calibration until the
    session is idle again no event changes it, and the loop that runs
    uses the value of the setting. *)
Theorem tightness_fixed_in_session (s s' : Sys) (e : Event) :
  reachable s ->
  step s e = Some s' ->
  (pauseTightness s' <> pauseTightness s ->
   recordingState s = IDLE /\
   ((e = ClickTightness true /\ pauseTightness s' = pauseTightness s + 1) \/
    (e = ClickTightness false /\ pauseTightness s' = pauseTightness s - 1))) /\
  (forall seen, animationFrame s' = Some seen ->
                seen_pauseTightness seen = pauseTightness s').
Proof.
  intros Hr Hstep. split.
  - intro Hne. destruct e; simpl in Hstep.
    + destruct (RecordingState_eqb (recordingState s) IDLE); [ | discriminate ].
      injection Hstep as <-. exfalso. apply Hne.
      destruct (streamRef s) eqn:Es.
      * destruct (startCalibration_with_stream context s Es) as (_ & _ & _ & E & _).
        exact E.
      * rewrite (startCalibration_without_stream context s Es). reflexivity.
    + destruct (RecordingState_eqb (recordingState s) RECORDING); [ | discriminate ].
      injection Hstep as <-. exfalso. apply Hne. unfold handleManualPause.
      destruct (mediaRecorderRef s) as [[ | | ] | ]; reflexivity.
    + destruct (RecordingState_eqb (recordingState s) PAUSED); [ | discriminate ].
      injection Hstep as <-. exfalso. apply Hne. unfold handleResume.
      destruct (mediaRecorderRef s) as [[ | | ] | ]; reflexivity.
    + destruct (RecordingState_eqb (recordingState s) RECORDING
                || RecordingState_eqb (recordingState s) PAUSED); [ | discriminate ].
      injection Hstep as <-. exfalso. apply Hne. unfold stopRecording.
      destruct (mediaRecorderRef s);
        [ destruct (negb (RecordingState_eqb (recordingState s) IDLE)
                    && negb (RecordingState_eqb (recordingState s) STOPPED)) | ];
        simpl; destruct (silenceTimerRef s); reflexivity.
    + destruct (RecordingState_eqb (recordingState s) STOPPED); [ | discriminate ].
      injection Hstep as <-. exfalso. apply Hne.
      destruct (handleReset_fields s) as (_ & _ & _ & E & _). exact E.
    + destruct (recordingState s) eqn:Est; try discriminate.
      pose proof (tightness_range s (reachable_Inv s Hr)) as Ht.
      simpl in Hstep.
      destruct tighter.
      * destruct (pauseTightness s =? 5) eqn:E5; [ discriminate | ].
        apply Z.eqb_neq in E5. injection Hstep as <-.
        split; [ reflexivity | ]. left. split; [ reflexivity | ].
        unfold handleTightnessChange, handleTightnessChange_value. simpl. lia.
      * destruct (pauseTightness s =? -5) eqn:E5; [ discriminate | ].
        apply Z.eqb_neq in E5. injection Hstep as <-.
        split; [ reflexivity | ]. right. split; [ reflexivity | ].
        unfold handleTightnessChange, handleTightnessChange_value. simpl. lia.
    + destruct (RecordingState_eqb (recordingState s) IDLE); [ | discriminate ].
      injection Hstep as <-. exfalso. apply Hne.
      destruct (startPreview_fields granted s) as (_ & _ & _ & E & _). exact E.
    + destruct (mediaRecorderRef s) as [[ | | ] | ]; try discriminate.
      injection Hstep as <-. exfalso. apply Hne.
      destruct (onstop_fields s) as (_ & _ & _ & E & _). exact E.
    + destruct (animationFrame s) as [seen | ]; [ | discriminate ].
      injection Hstep as <-. exfalso. apply Hne.
      destruct (runAudioAnalysis_keeps seen dataArray s) as (_ & E & _). exact E.
    + destruct (find_timer h s) as [t | ]; [ | discriminate ].
      destruct (due t <=? now s); [ | discriminate ].
      injection Hstep as <-. exfalso. apply Hne.
      destruct (fire_keeps_tightness t dataArray s) as [E _]. exact E.
    + destruct (may_wait dt s); [ | discriminate ].
      injection Hstep as <-. exfalso. apply Hne. reflexivity.
    + rewrite (step_contextState s s' state Hstep) in Hne.
      exfalso. apply Hne. reflexivity.
  - intros seen Hf.
    pose proof (reachable_Inv s' (reachable_step s s' e Hr Hstep)) as H'.
    destruct (frame_closure s' H' seen Hf) as [-> _]. reflexivity.
Qed.

Lemma tightness_fixed_in_session_witness :
  recordingState mounted = IDLE /\
  pauseTightness (handleTightnessChange 1 mounted) = pauseTightness mounted + 1.
Proof.
  assert (Hr : reachable mounted) by (exists []; reflexivity).
  assert (Hstep : step mounted (ClickTightness true)
                  = Some (handleTightnessChange 1 mounted)) by reflexivity.
  destruct (tightness_fixed_in_session _ _ _ Hr Hstep) as [H _].
  assert (Hne : pauseTightness (handleTightnessChange 1 mounted)
                <> pauseTightness mounted) by (simpl; discriminate).
  destruct (H Hne) as [Hidle [[_ E] | [E _]]].
  - split; [ exact Hidle | exact E ].
  - discriminate.
Defined.

(** ** The range of the baseline *)

Lemma averageVolume_in_range (dataArray : list byte) :
  sample_in_range (averageVolume dataArray).
Proof.
  destruct dataArray as [ | b rest]; [ left; reflexivity | right ].
  set (l := b :: rest).
  exists (Qred (inject_Z (sum_bins l) / inject_Z (Z.of_nat (length l)))).
  split; [ reflexivity | ].
  rewrite Qred_correct.
  pose proof (sum_bins_range l) as Hr.
  assert (Hn : (0 < inject_Z (Z.of_nat (length l)))%Q).
  { unfold l. rewrite <- (Zlt_Qlt 0). simpl length. lia. }
  split.
  - apply Qle_shift_div_l; [ exact Hn | ].
    rewrite Qmult_0_l. rewrite <- (Zle_Qle 0). lia.
  - apply Qle_shift_div_r; [ exact Hn | ].
    change 255%Q with (inject_Z 255). rewrite <- inject_Z_mult.
    rewrite <- Zle_Qle. lia.
Qed.

Lemma sum_of_NaN (l : list num) : fold_left add l NaN = NaN.
Proof.
  induction l as [ | v rest IH]; [ reflexivity | exact IH ].
Qed.

Lemma inject_length_cons {A : Type} (x : A) (l : list A) :
  (inject_Z (Z.of_nat (length (x :: l))) == inject_Z (Z.of_nat (length l)) + 1)%Q.
Proof.
  change (length (x :: l)) with (S (length l)).
  rewrite Nat2Z.inj_succ. unfold Z.succ. rewrite inject_Z_plus. reflexivity.
Qed.

Lemma sum_in_range (l : list num) :
  Forall sample_in_range l ->
  forall a,
    fold_left add l (Num a) = NaN \/
    exists q, fold_left add l (Num a) = Num q /\
              (a <= q <= a + 255 * inject_Z (Z.of_nat (length l)))%Q.
Proof.
  induction 1 as [ | v rest Hv Hrest IH]; intro a.
  - right. exists a. split; [ reflexivity | ].
    cbn [length Z.of_nat]. change (inject_Z 0) with 0%Q. lra.
  - destruct Hv as [-> | (q & -> & Hq)].
    + left. simpl. apply sum_of_NaN.
    + simpl fold_left. unfold add at 2.
      destruct (IH (Qred (a + q))) as [E | (r & E & Hr)]; [ left; exact E | right ].
      exists r. split; [ exact E | ].
      rewrite Qred_correct in Hr. rewrite inject_length_cons. lra.
Qed.

(** The baseline of samples that are frame means. *)
Lemma baseline_in_range (calibrationData : list num) :
  Forall sample_in_range calibrationData ->
  exists q, baseline calibrationData = Num q /\ (0 < q <= 255)%Q.
Proof.
  intro Hall. unfold baseline.
  destruct calibrationData as [ | v rest];
    [ exists 1%Q; split; [ reflexivity | lra ] | ].
  change (0 <? length (v :: rest))%nat with true. cbv iota.
  unfold sum_samples, of_Z.
  destruct (sum_in_range (v :: rest) Hall (inject_Z 0)) as [-> | (q & -> & Hq)].
  - exists 1%Q. split; [ reflexivity | lra ].
  - change (length (v :: rest)) with (S (length rest)) at 1 2.
    cbn [div_length].
    set (n := inject_Z (Z.of_nat (S (length rest)))) in *.
    assert (Hn : (0 < n)%Q).
    { unfold n. rewrite <- (Zlt_Qlt 0). lia. }
    change (inject_Z 0) with 0%Q in Hq.
    change (inject_Z (Z.of_nat (length (v :: rest)))) with n in Hq.
    clearbody n.
    assert (Havg : (0 <= q / n <= 255)%Q).
    { split.
      - apply Qle_shift_div_l; [ exact Hn | lra ].
      - apply Qle_shift_div_r; [ exact Hn | lra ]. }
    unfold gt. destruct (lt (Num (inject_Z 0)) (Num (Qred (q / n)))) eqn:E.
    + exists (Qred (q / n)). split; [ reflexivity | ].
      apply lt_Num in E. change (inject_Z 0) with 0%Q in E.
      rewrite Qred_correct in *. lra.
    + exists 1%Q. split; [ reflexivity | lra ].
Qed.

Lemma keeps_samples_ok (s s' : Sys) :
  keeps_samples s s' -> samples_ok s -> samples_ok s'.
Proof.
  intros (E1 & E2 & E3) (H1 & H2 & H3).
  unfold samples_ok. rewrite E1, E2. auto.
Qed.

Lemma keeps_samples_refl (s : Sys) : keeps_samples s s.
Proof. unfold keeps_samples. auto. Qed.

Lemma keeps_samples_trans (s1 s2 s3 : Sys) :
  keeps_samples s1 s2 -> keeps_samples s2 s3 -> keeps_samples s1 s3.
Proof.
  intros (A1 & A2 & A3) (B1 & B2 & B3).
  unfold keeps_samples. repeat split; try congruence. auto.
Qed.

Lemma keeps_samples_runAudioAnalysis
      (seen : AnalysisClosure) (dataArray : list byte) (s : Sys) :
  keeps_samples s (runAudioAnalysis seen dataArray s).
Proof.
  destruct (runAudioAnalysis_keeps seen dataArray s) as (_ & _ & _ & K4 & _ & K6).
  split; [ exact K6 | split; [ exact K4 | ] ].
  unfold runAudioAnalysis.
  destruct (negb (analyserRef s)
            || RecordingState_eqb (seen_recordingState seen) CALIBRATING);
    [ simpl; auto | ].
  destruct (mediaRecorderRef s) as [st | ] eqn:E;
    [ intros _; discriminate | simpl; rewrite E; auto ].
Qed.

Lemma keeps_samples_handlers (s : Sys) :
  keeps_samples s (handleManualPause s) /\
  keeps_samples s (handleResume s) /\
  keeps_samples s (stopRecording s) /\
  keeps_samples s (handleReset s) /\
  keeps_samples s (onstop s) /\
  keeps_samples s (onSilenceElapsed s).
Proof.
  unfold keeps_samples.
  split; [ | split; [ | split; [ | split; [ | split ] ] ] ].
  - unfold handleManualPause.
    destruct (mediaRecorderRef s) as [[ | | ] | ] eqn:E; simpl;
      repeat split; try reflexivity; rewrite ?E; try (intros _; discriminate); auto.
  - unfold handleResume.
    destruct (mediaRecorderRef s) as [[ | | ] | ] eqn:E; simpl;
      repeat split; try reflexivity; rewrite ?E; try (intros _; discriminate); auto.
  - split; [ | split; [ apply stopRecording_threshold | ] ].
    + unfold stopRecording.
      destruct (mediaRecorderRef s);
        [ destruct (negb (RecordingState_eqb (recordingState s) IDLE)
                    && negb (RecordingState_eqb (recordingState s) STOPPED)) | ];
        simpl; destruct (silenceTimerRef s); reflexivity.
    + unfold stopRecording.
      destruct (mediaRecorderRef s) eqn:E; [ intros _; discriminate | ].
      simpl. destruct (silenceTimerRef s); simpl; rewrite E; auto.
  - destruct (handleReset_fields s) as (_ & _ & E3 & _ & _ & E6 & _).
    split; [ | split; [ exact E3 | rewrite E6; intro H; contradiction ] ].
    unfold handleReset, cleanupRecording. simpl.
    destruct (audioContextRef s) as [[ | | ] | ]; reflexivity.
  - destruct (onstop_fields s) as (_ & _ & E3 & _ & _ & E6 & _).
    split; [ | split; [ exact E3 | rewrite E6; intro H; contradiction ] ].
    unfold onstop, stopPreviewStream, cleanupRecording. simpl.
    destruct (audioContextRef s) as [[ | | ] | ]; simpl;
      destruct (streamRef s); reflexivity.
  - unfold onSilenceElapsed.
    destruct (mediaRecorderRef s) as [[ | | ] | ] eqn:E; simpl;
      repeat split; try reflexivity; rewrite ?E; try (intros _; discriminate); auto.
Qed.

Lemma In_push_array (a : nat) (v : num) (store : list (nat * list num))
      (k : nat) (data : list num) :
  In (k, data) (push_array a v store) ->
  In (k, data) store \/ exists old, In (k, old) store /\ data = old ++ [v].
Proof.
  induction store as [ | [k0 d0] rest IH]; simpl; [ tauto | ].
  destruct (k0 =? a)%nat.
  - intros [E | Hin].
    + injection E as <- <-. right. exists d0. split; [ left; reflexivity | reflexivity ].
    + left. right. exact Hin.
  - intros [E | Hin].
    + left. left. exact E.
    + destruct (IH Hin) as [H | (old & H & ->)].
      * left. right. exact H.
      * right. exists old. split; [ right; exact H | reflexivity ].
Qed.

Lemma read_array_in_range (a : nat) (store : list (nat * list num)) :
  (forall k data, In (k, data) store -> Forall sample_in_range data) ->
  Forall sample_in_range (read_array a store).
Proof.
  induction store as [ | [k0 d0] rest IH]; intro H; simpl.
  - constructor.
  - destruct (k0 =? a)%nat.
    + apply (H k0). left. reflexivity.
    + apply IH. intros k data Hin. apply (H k). right. exact Hin.
Qed.

Lemma samples_ok_fire (t : Timer) (dataArray : list byte) (s : Sys) :
  samples_ok s -> samples_ok (fire t dataArray s).
Proof.
  intro H. unfold fire.
  set (s1 := match every t with
             | Some period => rearm (handle t) period s
             | None => clearTimer (handle t) s
             end).
  assert (H1 : samples_ok s1).
  { apply (keeps_samples_ok s); [ | exact H ].
    unfold s1, keeps_samples. destruct (every t); simpl; auto. }
  clearbody s1. clear H s.
  destruct (callback t) as [ | | a | a c d seen]; simpl.
  - apply (keeps_samples_ok s1); [ apply keeps_samples_handlers | exact H1 ].
  - apply (keeps_samples_ok s1); [ | exact H1 ].
    unfold keeps_samples. simpl. auto.
  - unfold onCollectCalibrationData.
    destruct (audioContextRef s1) as [st | ]; [ | exact H1 ].
    destruct (analyserRef s1 && AudioContextState_eqb st running); [ | exact H1 ].
    destruct H1 as (A & B & C). unfold samples_ok. simpl.
    split; [ | split; assumption ].
    intros k data Hin. apply In_push_array in Hin.
    destruct Hin as [Hin | (old & Hin & ->)]; [ exact (A k data Hin) | ].
    apply Forall_app. split; [ exact (A k old Hin) | ].
    constructor; [ apply averageVolume_in_range | constructor ].
  - unfold onCalibrationElapsed, startActualRecording.
    set (s2 := s1 |> clearTimer c |> clearTimer d).
    destruct H1 as (A & B & C).
    destruct (baseline_in_range (read_array a (arrays s2))) as (q & Eq & Hq).
    { apply read_array_in_range. exact A. }
    assert (H3 : samples_ok (s2 |> set_silenceThresholdRef
                                     (baseline (read_array a (arrays s2))))).
    { unfold samples_ok. simpl. split; [ exact A | ].
      split; [ exists q; split; [ exact Eq | lra ] | ].
      intros _. exists q. split; assumption. }
    match goal with |- context [if ?b then _ else _] => destruct b end;
      [ exact H3 | ].
    apply (keeps_samples_ok
             (s2 |> set_silenceThresholdRef (baseline (read_array a (arrays s2)))
                 |> set_recordingState RECORDING
                 |> set_mediaRecorderRef (Some recording)));
      [ apply keeps_samples_runAudioAnalysis | ].
    unfold samples_ok. simpl. split; [ exact A | ].
    split; [ exists q; split; [ exact Eq | lra ] | ].
    intros _. exists q. split; assumption.
Qed.

Lemma samples_ok_step (s s' : Sys) (e : Event) :
  step s e = Some s' -> samples_ok s -> samples_ok s'.
Proof.
  intros Hstep H.
  destruct (keeps_samples_handlers s) as (K1 & K2 & K3 & K4 & K5 & _).
  destruct e; simpl in Hstep.
  - destruct (RecordingState_eqb (recordingState s) IDLE); [ | discriminate ].
    injection Hstep as <-.
    destruct (streamRef s) eqn:Es.
    + destruct H as (A & B & C). unfold samples_ok, startCalibration.
      simpl. rewrite Es. simpl.
      split; [ | split; assumption ].
      intros k data [E | Hin]; [ injection E as <- <-; constructor | eauto ].
    + rewrite (startCalibration_without_stream context s Es).
      apply (keeps_samples_ok s); [ | exact H ].
      unfold keeps_samples. simpl. auto.
  - destruct (RecordingState_eqb (recordingState s) RECORDING); [ | discriminate ].
    injection Hstep as <-. exact (keeps_samples_ok _ _ K1 H).
  - destruct (RecordingState_eqb (recordingState s) PAUSED); [ | discriminate ].
    injection Hstep as <-. exact (keeps_samples_ok _ _ K2 H).
  - destruct (RecordingState_eqb (recordingState s) RECORDING
              || RecordingState_eqb (recordingState s) PAUSED); [ | discriminate ].
    injection Hstep as <-. exact (keeps_samples_ok _ _ K3 H).
  - destruct (RecordingState_eqb (recordingState s) STOPPED); [ | discriminate ].
    injection Hstep as <-. exact (keeps_samples_ok _ _ K4 H).
  - destruct (RecordingState_eqb (recordingState s) IDLE
              && negb (pauseTightness s =? (if tighter then 5 else -5)));
      [ | discriminate ].
    injection Hstep as <-. apply (keeps_samples_ok s); [ | exact H ].
    unfold keeps_samples. simpl. auto.
  - destruct (RecordingState_eqb (recordingState s) IDLE); [ | discriminate ].
    injection Hstep as <-. apply (keeps_samples_ok s); [ | exact H ].
    unfold keeps_samples, startPreview, stopPreviewStream.
    destruct granted, (streamRef s); simpl; auto.
  - destruct (mediaRecorderRef s) as [[ | | ] | ]; try discriminate.
    injection Hstep as <-. exact (keeps_samples_ok _ _ K5 H).
  - destruct (animationFrame s) as [seen | ]; [ | discriminate ].
    injection Hstep as <-.
    exact (keeps_samples_ok _ _ (keeps_samples_runAudioAnalysis seen dataArray s) H).
  - destruct (find_timer h s) as [t | ]; [ | discriminate ].
    destruct (due t <=? now s); [ | discriminate ].
    injection Hstep as <-. apply samples_ok_fire. exact H.
  - destruct (may_wait dt s); [ | discriminate ].
    injection Hstep as <-. apply (keeps_samples_ok s); [ | exact H ].
    unfold keeps_samples. simpl. auto.
  - rewrite (step_contextState s s' state Hstep).
    apply (keeps_samples_ok s); [ | exact H ].
    unfold keeps_samples. simpl. auto.
Qed.

Lemma reachable_samples_ok (s : Sys) : reachable s -> samples_ok s.
Proof.
  intros [trace Hrun].
  assert (H0 : samples_ok mounted).
  { unfold samples_ok. simpl. split; [ intros k data [] | ].
    split; [ exists 0%Q; split; [ reflexivity | lra ] | ].
    intro H. contradiction. }
  revert Hrun H0. generalize mounted.
  induction trace as [ | e rest IH]; intros s0 Hrun H0; simpl in Hrun.
  - injection Hrun as <-. exact H0.
  - destruct (step s0 e) as [s1 | ] eqn:E; [ | discriminate ].
    exact (IH s1 Hrun (samples_ok_step s0 s1 e E H0)).
Qed.

(** In every reachable state the baseline is a number between 0 and
    255, the range of a frame mean; while the session is recording or
    paused it is positive, so the silence threshold is never 0. *)
Theorem baseline_within_byte_range (s : Sys) :
  reachable s ->
  exists b,
    silenceThresholdRef s = Num b /\
    (0 <= b <= 255)%Q /\
    (recordingState s = RECORDING \/ recordingState s = PAUSED -> (0 < b)%Q).
Proof.
  intro Hr. destruct (reachable_samples_ok s Hr) as (_ & (b & Eb & Hb) & Hpos).
  exists b. split; [ exact Eb | ]. split; [ exact Hb | ].
  intro Hst.
  destruct (loop_of_session s Hr Hst) as (_ & _ & H1 & H2).
  assert (Hrec : mediaRecorderRef s <> None).
  { destruct Hst as [E | E]; [ rewrite (H1 E) | rewrite (H2 E) ]; discriminate. }
  destruct (Hpos Hrec) as (q & Eq & Hq).
  rewrite Eb in Eq. injection Eq as ->. lra.
Qed.

Lemma baseline_within_byte_range_witness :
  exists b,
    silenceThresholdRef loud_room_paused = Num b /\
    (0 <= b <= 255)%Q /\
    (0 < b)%Q.
Proof.
  assert (Hr : reachable loud_room_paused).
  { apply (reachable_after
             (session_start (frame x78) (frame x05)
              ++ frames_20ms 20 x05 ++ [TimerFires 4 []])).
    vm_compute. reflexivity. }
  destruct (baseline_within_byte_range loud_room_paused Hr) as (b & E & Hb & Hpos).
  exists b. split; [ exact E | ]. split; [ exact Hb | ].
  apply Hpos. right. vm_compute. reflexivity.
Defined.




(** ** Thresholds out of the meter's reach *)

Lemma never_loud (dataArray : list byte) (b : Q) :
  (102 <= b)%Q ->
  isLoudEnoughToResume (averageVolume dataArray) (Num b) = false.
Proof.
  intro Hb.
  destruct (averageVolume_in_range dataArray) as [-> | (v & -> & Hv)].
  - reflexivity.
  - destruct (isLoudEnoughToResume (Num v) (Num b)) eqn:E; [ | reflexivity ].
    apply isLoud_Num in E. exfalso. lra.
Qed.

Lemma always_silent (dataArray : list byte) (b : Q) :
  (255 < 2 * b)%Q ->
  dataArray <> [] ->
  isSilent (averageVolume dataArray) (Num b) = true.
Proof.
  intros Hb Hne.
  destruct (averageVolume_in_range dataArray) as [E | (v & -> & Hv)].
  - destruct dataArray; [ contradiction | ].
    unfold averageVolume in E. simpl in E. discriminate.
  - apply isSilent_Num. lra.
Qed.

(** A frame mean is at most 255, so a resume threshold of 2.5 times a
    baseline of 102 or more is out of reach: in a session calibrated that
    loud, no frame ever resumes a paused recording, which is left to the
    Resume button. *)
Theorem loud_room_never_resumes (s : Sys) (b : Q) (dataArray : list byte) :
  reachable s ->
  recordingState s = PAUSED ->
  silenceThresholdRef s = Num b ->
  (102 <= b)%Q ->
  isLoudEnoughToResume (averageVolume dataArray) (silenceThresholdRef s) = false /\
  step s (AnimationFrame dataArray) = Some s.
Proof.
  intros Hr Hst Eb Hb.
  assert (Hl : isLoudEnoughToResume (averageVolume dataArray) (silenceThresholdRef s)
               = false) by (rewrite Eb; apply never_loud; exact Hb).
  split; [ exact Hl | ].
  apply paused_quiet_frame; assumption.
Qed.

Lemma loud_room_never_resumes_witness :
  silenceThresholdRef loud_room_paused = Num 120 /\
  step loud_room_paused (AnimationFrame (frame xff)) = Some loud_room_paused.
Proof.
  assert (Hr : reachable loud_room_paused).
  { apply (reachable_after
             (session_start (frame x78) (frame x05)
              ++ frames_20ms 20 x05 ++ [TimerFires 4 []])).
    vm_compute. reflexivity. }
  assert (Eb : silenceThresholdRef loud_room_paused = Num 120)
    by (vm_compute; reflexivity).
  split; [ exact Eb | ].
  apply (loud_room_never_resumes loud_room_paused 120 (frame xff) Hr).
  - vm_compute. reflexivity.
  - exact Eb.
  - unfold Qle. simpl. lia.
Defined.

(** Twice a baseline above 127.5 is more than any frame mean: in a
    session calibrated that loud every frame is silent, so once the
    silence timer is pending no frame, however loud, cancels it. *)
Theorem saturated_room_always_silent
        (s : Sys) (b : Q) (h : nat) (dataArray : list byte) :
  reachable s ->
  recordingState s = RECORDING ->
  silenceThresholdRef s = Num b ->
  (255 < 2 * b)%Q ->
  silenceTimerRef s = Some h ->
  dataArray <> [] ->
  isSilent (averageVolume dataArray) (silenceThresholdRef s) = true /\
  step s (AnimationFrame dataArray) = Some s.
Proof.
  intros Hr Hst Eb Hb Href Hne.
  assert (Hs : isSilent (averageVolume dataArray) (silenceThresholdRef s) = true)
    by (rewrite Eb; apply always_silent; assumption).
  split; [ exact Hs | ].
  destruct (loop_of_session s Hr (or_introl Hst)) as (Hfr & Han & Hrec & _).
  specialize (Hrec Hst).
  simpl. rewrite Hfr.
  rewrite (analysis_keeps_handle (idle_closure s) dataArray s Han) with (h := h);
    [ | simpl; discriminate | assumption | assumption | assumption ].
  rewrite (set_animationFrame_same s _ Hfr). reflexivity.
Qed.

Lemma saturated_room_always_silent_witness :
  silenceThresholdRef saturated_room_recording = Num 128 /\
  timers saturated_room_recording = [Build_Timer 4 3400 None silenceElapsed] /\
  step saturated_room_recording (AnimationFrame (frame xff))
  = Some saturated_room_recording.
Proof.
  assert (Hr : reachable saturated_room_recording).
  { apply (reachable_after (session_start (frame x80) (frame xff))).
    vm_compute. reflexivity. }
  assert (Eb : silenceThresholdRef saturated_room_recording = Num 128)
    by (vm_compute; reflexivity).
  split; [ exact Eb | ].
  split; [ vm_compute; reflexivity | ].
  apply (saturated_room_always_silent saturated_room_recording 128 4 (frame xff) Hr).
  - vm_compute. reflexivity.
  - exact Eb.
  - unfold Qlt. simpl. lia.
  - vm_compute. reflexivity.
  - discriminate.
Defined.

(** ** What the analysis of one frame can do *)

(** The analysis of a frame takes no time and touches neither the
    override flag, the baseline nor the tightness.  It never pauses and
    never stops: the lifecycle state and the recorder stay as they are,
    except that a loud frame resumes a paused session; and a frame in the
    dead zone between the two thresholds changes neither, while it leaves
    a recording session with no silence timer. *)
Theorem frame_analysis_effect (s s' : Sys) (dataArray : list byte) :
  reachable s ->
  step s (AnimationFrame dataArray) = Some s' ->
  now s' = now s /\
  isManuallyPaused s' = isManuallyPaused s /\
  silenceThresholdRef s' = silenceThresholdRef s /\
  pauseTightness s' = pauseTightness s /\
  ((recordingState s' = recordingState s /\ mediaRecorderRef s' = mediaRecorderRef s) \/
   (recordingState s = PAUSED /\
    isLoudEnoughToResume (averageVolume dataArray) (silenceThresholdRef s) = true /\
    recordingState s' = RECORDING /\
    mediaRecorderRef s' = Some recording)) /\
  (classify (averageVolume dataArray) (silenceThresholdRef s) = Neutral ->
   recordingState s' = recordingState s /\
   (recordingState s = RECORDING -> silenceTimerRef s' = None /\ timers s' = [])).
Proof.
  intros Hr Hstep.
  pose proof (reachable_step _ _ _ Hr Hstep) as Hr'.
  simpl in Hstep. destruct (animationFrame s) as [seen | ] eqn:Ef; [ | discriminate ].
  injection Hstep as <-.
  destruct (runAudioAnalysis_keeps seen dataArray s) as (K1 & K2 & K3 & K4 & _).
  repeat (split; [ assumption | ]).
  assert (Hst : recordingState s = RECORDING \/ recordingState s = PAUSED).
  { pose proof (lifecycle s (reachable_Inv s Hr)) as Hl. unfold lifecycle_ok in Hl.
    destruct (recordingState s); try tauto.
    - destruct Hl as [_ Hn]. congruence.
    - destruct Hl as (_ & Hn & _). congruence.
    - destruct Hl as [_ Hn]. congruence. }
  destruct (loop_of_session s Hr Hst) as (Hfr & Han & H1 & H2).
  rewrite Ef in Hfr. injection Hfr as ->.
  assert (Hrec : mediaRecorderRef s = Some recording \/ mediaRecorderRef s = Some paused)
    by (destruct Hst; [ left | right ]; auto).
  assert (Hnc : seen_recordingState (idle_closure s) <> CALIBRATING)
    by (simpl; discriminate).
  destruct (analysis_cases (idle_closure s) dataArray s Han Hnc Hrec)
    as [E | [(Er & Href & Hs & E) | [(h & Er & Href & Hs & E) | (Ep & Hl & _ & E)]]].
  - (* nothing but the frame is registered again *)
    rewrite E in *. simpl.
    split; [ left; split; reflexivity | ].
    intro Hn. split; [ reflexivity | ].
    intro Hrecording. specialize (H1 Hrecording).
    unfold classify in Hn.
    destruct (isSilent (averageVolume dataArray) (silenceThresholdRef s)) eqn:Es;
      [ discriminate | ].
    destruct (silenceTimerRef s) as [h | ] eqn:Href.
    + exfalso.
      rewrite (analysis_cancels (idle_closure s) dataArray s Han Hnc h H1 Es Href) in E.
      assert (Eref : silenceTimerRef
                       (s |> clearTimer h |> set_silenceTimerRef None
                          |> set_animationFrame (Some (idle_closure s)))
                     = silenceTimerRef (s |> set_animationFrame (Some (idle_closure s))))
        by (rewrite E; reflexivity).
      simpl in Eref. congruence.
    + split; [ reflexivity | ].
      apply (no_timer_without_handle _ Hr'); simpl; [ congruence | exact Href ].
  - (* a timer is set *)
    rewrite E. simpl.
    split; [ left; split; reflexivity | ].
    intro Hn. unfold classify in Hn. rewrite Hs in Hn. discriminate.
  - (* the timer is cleared *)
    rewrite E in *. simpl.
    split; [ left; split; reflexivity | ].
    intro Hn. split; [ reflexivity | ]. intros _.
    split; [ reflexivity | ].
    apply (no_timer_without_handle _ Hr'); simpl; [ | reflexivity ].
    destruct Hst as [-> | ->]; discriminate.
  - (* a loud frame resumes *)
    rewrite E. simpl.
    assert (Hp : recordingState s = PAUSED).
    { destruct Hst as [Hx | Hx]; [ rewrite (H1 Hx) in Ep; discriminate | exact Hx ]. }
    split; [ right; repeat split; assumption | ].
    intro Hn. unfold classify in Hn. rewrite Hl in Hn.
    destruct (isSilent (averageVolume dataArray) (silenceThresholdRef s)); discriminate.
Qed.

Lemma frame_analysis_effect_witness :
  classify (averageVolume (frame x16)) (silenceThresholdRef quiet_recording) = Neutral /\
  let s' := after [AnimationFrame (frame x16)] quiet_recording in
  recordingState s' = RECORDING /\
  silenceTimerRef s' = None /\
  timers s' = [].
Proof.
  assert (Hn : classify (averageVolume (frame x16)) (silenceThresholdRef quiet_recording)
               = Neutral) by (vm_compute; reflexivity).
  split; [ exact Hn | ]. intro s'.
  assert (Hstep : step quiet_recording (AnimationFrame (frame x16)) = Some s')
    by (vm_compute; reflexivity).
  destruct (frame_analysis_effect _ _ _ reachable_quiet_recording Hstep)
    as (_ & _ & _ & _ & _ & H).
  destruct (H Hn) as [E1 E2].
  assert (Hst : recordingState quiet_recording = RECORDING) by (vm_compute; reflexivity).
  split; [ congruence | ]. apply E2. exact Hst.
Defined.

(** ** The timer table of a reachable state *)

Lemma handles_differ (n : nat) :
  (S n =? n)%nat = false /\ (n =? S n)%nat = false /\
  (S (S n) =? n)%nat = false /\ (n =? S (S n))%nat = false.
Proof.
  repeat split; apply Nat.eqb_neq; lia.
Qed.

Ltac handles n :=
  destruct (handles_differ n) as (?Hd1 & ?Hd2 & ?Hd3 & ?Hd4).


Lemma timers_rearm (h : nat) (period : Z) (s : Sys) :
  timers (rearm h period s)
  = map (fun t => if (handle t =? h)%nat
                  then Build_Timer (handle t) (due t + period) (every t) (callback t)
                  else t)
        (timers s).
Proof. reflexivity. Qed.

Lemma timers_clearTimer (h : nat) (s : Sys) :
  timers (clearTimer h s) = filter (fun t => negb (handle t =? h)%nat) (timers s).
Proof. reflexivity. Qed.

Lemma calibration_table_weaken
      (context : AudioContextState) (started : Z) (s : Sys) :
  calibration_table_when (Some context) started s -> calibration_table started s.
Proof.
  intros (n & ticks & samples & seen & Ht & Hc & Hticks & Hsamples & Hnow
          & data & rest & Harr & _ & Hlen).
  exists n, ticks, samples, seen. repeat (split; [ assumption | ]).
  exists data, rest. split; [ exact Harr | ].
  destruct context; lia.
Qed.

Lemma calibration_step
      (steady : option AudioContextState) (started : Z) (s s' : Sys) (e : Event) :
  Inv s ->
  recordingState s = CALIBRATING ->
  calibration_table_when steady started s ->
  (steady <> None -> is_context_change e = false) ->
  step s e = Some s' ->
  (recordingState s' = CALIBRATING /\ calibration_table_when steady started s') \/
  (recordingState s' = RECORDING /\
   now s = started + CALIBRATION_TIME_MS /\
   now s' = started + CALIBRATION_TIME_MS /\
   silence_table s' /\
   exists data,
     silenceThresholdRef s' = baseline data /\
     Z.of_nat (length data) <= 60 /\
     match steady with
     | None => True
     | Some running => 59 <= Z.of_nat (length data)
     | Some _ => data = []
     end).
Proof.
  intros HI Hst (n & ticks & samples & seen & Ht & Hc & Hticks & Hsamples & Hnow
                 & data & rest & Harr & Hcount)
         Hsteady Hstep.
  pose proof HI as HI0. use_inv HI.
  unfold lifecycle_ok in Hlife. rewrite Hst in Hlife.
  destruct Hlife as (Hrec & Hfr & Hstream & Han & _).
  handles n.
  destruct e; simpl in Hstep; rewrite ?Hst, ?Hrec, ?Hfr in Hstep; try discriminate.
  - (* a timer *)
    unfold find_timer in Hstep. rewrite Ht in Hstep. cbn [find handle] in Hstep.
    destruct (n =? h)%nat eqn:E1; [ | destruct (S n =? h)%nat eqn:E2;
                                      [ | destruct (S (S n) =? h)%nat eqn:E3;
                                          [ | discriminate ] ] ].
    + (* the countdown *)
      cbn [due] in Hstep.
      destruct (started + 100 * (ticks + 1) <=? now s) eqn:Edue; [ | discriminate ].
      apply Z.leb_le in Edue. injection Hstep as <-.
      left. unfold fire. cbn [every handle callback run_callback].
      unfold onCountdownTick.
      split; [ exact Hst | ].
      exists n, (ticks + 1), samples, seen.
      split.
      { cbn [timers set_calibrationCountdown]. rewrite timers_rearm, Ht.
        cbn [map handle due every callback].
        rewrite Nat.eqb_refl, Hd1, Hd3.
        do 2 f_equal. lia. }
      split; [ cbn [calibrationCountdown set_calibrationCountdown]; simpl calibrationCountdown | ].
      { rewrite Hc. lia. }
      change (now (rearm n 100 s |> set_calibrationCountdown
                     (calibrationCountdown (rearm n 100 s) - 100))) with (now s).
      split; [ lia | ]. split; [ lia | ]. split; [ lia | ].
      exists data, rest. split; [ exact Harr | exact Hcount ].
    + (* the sampling interval *)
      cbn [due] in Hstep.
      destruct (started + 50 * (samples + 1) <=? now s) eqn:Edue; [ | discriminate ].
      apply Z.leb_le in Edue. injection Hstep as <-.
      unfold fire. cbn [every handle callback run_callback].
      set (s1 := rearm (S n) 50 s).
      assert (F : recordingState s1 = recordingState s /\ now s1 = now s /\
                  calibrationCountdown s1 = calibrationCountdown s /\
                  arrays s1 = arrays s /\ audioContextRef s1 = audioContextRef s /\
                  analyserRef s1 = analyserRef s)
        by (unfold s1; simpl; repeat split; reflexivity).
      destruct F as (F1 & F2 & F3 & F4 & F5 & F6).
      assert (Ht1 : timers s1 =
                    [ Build_Timer n (started + 100 * (ticks + 1)) (Some 100) countdownTick;
                      Build_Timer (S n) (started + 50 * (samples + 1 + 1)) (Some 50)
                                  (collectCalibrationData n);
                      Build_Timer (S (S n)) (started + CALIBRATION_TIME_MS) None
                                  (calibrationElapsed n (S n) n seen) ]).
      { unfold s1. rewrite timers_rearm, Ht.
        cbn [map handle due every callback].
        rewrite Nat.eqb_refl, Hd2. change (S (S n) =? S n)%nat with (S n =? n)%nat. rewrite Hd1.
        do 2 f_equal. f_equal. lia. }
      clearbody s1. left.
      assert (Hkeep : calibration_table_when steady started s1 \/ True) by (right; exact I).
      clear Hkeep.
      (* the run that takes no sample *)
      assert (Hskip : audioContextRef s <> Some running ->
                      recordingState s1 = CALIBRATING /\
                      calibration_table_when steady started s1).
      { intro Hnot. split; [ congruence | ].
        exists n, ticks, (samples + 1), seen.
        split; [ exact Ht1 | ]. split; [ congruence | ].
        rewrite F2. split; [ lia | ]. split; [ lia | ]. split; [ lia | ].
        exists data, rest. rewrite F4. split; [ exact Harr | ].
        destruct steady as [context | ]; [ | lia ].
        destruct Hcount as [Hctx Hlen]. rewrite F5. split; [ exact Hctx | ].
        destruct context; try exact Hlen. congruence. }
      unfold onCollectCalibrationData. rewrite F5, F6, Han.
      destruct (audioContextRef s) as [[ | | ] | ] eqn:Ectx; simpl andb; cbv iota;
        try (apply Hskip; discriminate).
      split; [ simpl; congruence | ].
      exists n, ticks, (samples + 1), seen.
      split; [ exact Ht1 | ].
      split; [ cbn [calibrationCountdown set_arrays]; congruence | ].
      change (now (s1 |> set_arrays
                     (push_array n (averageVolume dataArray) (arrays s1))))
        with (now s1).
      rewrite F2. split; [ lia | ]. split; [ lia | ]. split; [ lia | ].
      exists (data ++ [averageVolume dataArray]), rest.
      cbn [arrays set_arrays].
      change (audioContextRef (s1 |> set_arrays
                     (push_array n (averageVolume dataArray) (arrays s1))))
        with (audioContextRef s1).
      rewrite F4, Harr. cbn [push_array]. rewrite Nat.eqb_refl.
      split; [ reflexivity | ].
      rewrite length_app. simpl length.
      destruct steady as [context | ]; [ | lia ].
      destruct Hcount as [Hctx Hlen].
      assert (context = running) by congruence. subst context.
      split; [ exact F5 | lia ].
    + (* the completion *)
      cbn [due] in Hstep.
      destruct (started + CALIBRATION_TIME_MS <=? now s) eqn:Edue; [ | discriminate ].
      apply Z.leb_le in Edue. injection Hstep as <-.
      assert (Hseen : seen = idle_closure s).
      { assert (Hin : In (Build_Timer (S (S n)) (started + CALIBRATION_TIME_MS) None
                                      (calibrationElapsed n (S n) n seen)) (timers s))
          by (rewrite Ht; simpl; auto).
        apply Htimers in Hin. unfold timer_ok in Hin. cbn [callback] in Hin.
        tauto. }
      right. unfold fire. cbn [every handle callback run_callback].
      unfold onCalibrationElapsed, startActualRecording.
      set (s1 := clearTimer (S (S n)) s |> clearTimer (S n) |> clearTimer n).
      assert (F : now s1 = now s /\ streamRef s1 = streamRef s /\
                  arrays s1 = arrays s /\ analyserRef s1 = analyserRef s /\
                  pauseTightness s1 = pauseTightness s)
        by (unfold s1; simpl; repeat split; reflexivity).
      destruct F as (F1 & F2 & F3 & F4 & F5).
      assert (Ht1 : timers s1 = []).
      { unfold s1. rewrite !timers_clearTimer, Ht.
        cbn [filter handle]. rewrite Hd4, Nat.eqb_refl.
        change (S n =? S (S n))%nat with (n =? S n)%nat. rewrite Hd2. cbn [negb filter handle].
        rewrite Hd2, Nat.eqb_refl. cbn [negb filter handle].
        rewrite Nat.eqb_refl. reflexivity. }
      clearbody s1.
      change (streamRef (s1 |> set_silenceThresholdRef (baseline (read_array n (arrays s1)))))
        with (streamRef s1).
      rewrite F2, Hstream. simpl negb. cbv iota.
      set (s2 := s1 |> set_silenceThresholdRef (baseline (read_array n (arrays s1)))
                    |> set_recordingState RECORDING
                    |> set_mediaRecorderRef (Some recording)).
      assert (G : now s2 = now s /\ analyserRef s2 = true /\ timers s2 = [] /\
                  mediaRecorderRef s2 = Some recording /\
                  recordingState s2 = RECORDING /\
                  silenceThresholdRef s2 = baseline data /\
                  pauseTightness s2 = pauseTightness s).
      { unfold s2. simpl. rewrite F3, Harr. simpl. rewrite Nat.eqb_refl.
        repeat split; congruence. }
      destruct G as (G1 & G2 & G3 & G4 & G5 & G6 & G7). clearbody s2.
      destruct (runAudioAnalysis_keeps seen dataArray s2) as (K1 & K2 & _ & K4 & _).
      assert (Hnc : seen_recordingState seen <> CALIBRATING)
        by (rewrite Hseen; simpl; discriminate).
      assert (Hsil : recordingState (runAudioAnalysis seen dataArray s2) = RECORDING /\
                     silence_table (runAudioAnalysis seen dataArray s2)).
      { destruct (analysis_cases seen dataArray s2 G2 Hnc (or_introl G4))
          as [E | [(_ & Href & _ & E) | [(h0 & _ & Href & _ & E) | (Ep & _)]]].
        - rewrite E. simpl. split; [ exact G5 | ]. left. exact G3.
        - rewrite E. simpl. split; [ exact G5 | ]. right.
          exists (nextHandle s2),
                 (now s2 + Z.max 0 (silenceDetectionTime (seen_pauseTightness seen))).
          rewrite G3. split; [ reflexivity | ]. split; [ reflexivity | ].
          cbn [now pauseTightness set_silenceTimerRef set_nextHandle set_timers
               set_animationFrame].
          rewrite Hseen. simpl seen_pauseTightness. rewrite G7.
          destruct (delay_in_range (pauseTightness s) Htight) as [_ Hd]. lia.
        - rewrite E. simpl. split; [ exact G5 | ]. left.
          cbn [timers set_silenceTimerRef]. rewrite timers_clearTimer.
          cbn [timers set_animationFrame]. rewrite G3. reflexivity.
        - congruence. }
      destruct Hsil as [Hs1 Hs2].
      split; [ exact Hs1 | ]. split; [ lia | ].
      split; [ rewrite K1, G1; lia | ]. split; [ exact Hs2 | ].
      exists data. split; [ rewrite K4; exact G6 | ].
      unfold CALIBRATION_TIME_MS in *.
      destruct steady as [context | ]; [ | split; [ lia | exact I ] ].
      destruct Hcount as [_ Hlen].
      destruct context; split; try lia;
        (destruct data; [ reflexivity | simpl in Hlen; lia ]).
  - (* time passes *)
    destruct (may_wait dt s) eqn:Ew; [ | discriminate ].
    injection Hstep as <-.
    unfold may_wait in Ew. rewrite Ht in Ew. cbn [forallb due] in Ew.
    rewrite !andb_true_iff, !Z.leb_le in Ew.
    destruct Ew as (W0 & W1 & W2 & W3 & _).
    left. split; [ exact Hst | ].
    exists n, ticks, samples, seen.
    split; [ exact Ht | ]. split; [ exact Hc | ].
    cbn [now set_now].
    split; [ lia | ]. split; [ lia | ]. split; [ lia | ].
    exists data, rest. split; [ exact Harr | exact Hcount ].
  - (* the context is suspended or resumed *)
    destruct steady as [context | ];
      [ specialize (Hsteady ltac:(discriminate)); discriminate | ].
    rewrite (step_contextState s s' state Hstep).
    left. split; [ exact Hst | ].
    exists n, ticks, samples, seen.
    split; [ exact Ht | ]. split; [ exact Hc | ].
    cbn [now set_audioContextRef].
    split; [ lia | ]. split; [ lia | ]. split; [ lia | ].
    exists data, rest. split; [ exact Harr | exact Hcount ].
Qed.

Lemma startCalibration_table (context : AudioContextState) (s : Sys) :
  streamRef s = true ->
  timers s = [] ->
  let s' := startCalibration context s in
  recordingState s' = CALIBRATING /\
  calibration_table_when (Some context) (now s) s' /\
  calibration_table (now s) s'.
Proof.
  intros Hstream Hnone s'.
  destruct (startCalibration_with_stream context s Hstream)
    as (E1 & E2 & _ & _ & _ & _ & _ & _ & _ & _ & _ & E12).
  fold s' in E1, E2, E12.
  assert (F : calibrationCountdown s' = CALIBRATION_TIME_MS /\
              arrays s' = (nextHandle s, []) :: arrays s /\
              audioContextRef s' = Some context).
  { unfold s', startCalibration. simpl. rewrite Hstream. simpl.
    repeat split; reflexivity. }
  destruct F as (F1 & F2 & F3).
  assert (Htable : calibration_table_when (Some context) (now s) s').
  { exists (nextHandle s), 0, 0, (analysis_of_render s).
    split.
    { rewrite E12, Hnone. reflexivity. }
    rewrite E1. unfold CALIBRATION_TIME_MS in *.
    split; [ lia | ]. split; [ lia | ]. split; [ lia | ]. split; [ lia | ].
    exists [], (arrays s). split; [ exact F2 | ].
    split; [ exact F3 | ]. destruct context; reflexivity. }
  split; [ exact E2 | ]. split; [ exact Htable | ].
  exact (calibration_table_weaken context (now s) s' Htable).
Qed.

Ltac fields :=
  cbn [now recordingState timers silenceTimerRef pauseTightness mediaRecorderRef
       set_mediaRecorderRef set_recordingState set_isManuallyPaused
       set_animationFrame set_now set_timers set_nextHandle set_silenceTimerRef
       set_audioContextRef].

Lemma silence_table_step (s s' : Sys) (e : Event) :
  reachable s ->
  recordingState s = RECORDING \/ recordingState s = PAUSED ->
  silence_table s ->
  step s e = Some s' ->
  timer_table_ok s' /\ recordingState s' <> CALIBRATING.
Proof.
  intros Hr Hst Hok Hstep.
  pose proof (reachable_Inv s Hr) as HI.
  destruct (loop_of_session s Hr Hst) as (Hfr & Han & H1 & H2).
  assert (Hrec : mediaRecorderRef s = Some recording \/ mediaRecorderRef s = Some paused)
    by (destruct Hst; [ left | right ]; auto).
  assert (Hdelay : 150 <= silenceDetectionTime (pauseTightness s) <= 650)
    by (apply delay_in_range, (tightness_range s HI)).
  destruct e; simpl in Hstep.
  - destruct Hst as [E | E]; rewrite E in Hstep; discriminate.
  - (* Pause *)
    destruct (RecordingState_eqb (recordingState s) RECORDING) eqn:E; [ | discriminate ].
    injection Hstep as <-.
    assert (E0 : recordingState s = RECORDING)
      by (destruct (recordingState s); try discriminate; reflexivity).
    unfold handleManualPause. rewrite (H1 E0).
    split; [ | fields; discriminate ].
    unfold timer_table_ok, silence_table. fields. exact Hok.
  - (* Resume *)
    destruct (RecordingState_eqb (recordingState s) PAUSED) eqn:E; [ | discriminate ].
    injection Hstep as <-.
    assert (E0 : recordingState s = PAUSED)
      by (destruct (recordingState s); try discriminate; reflexivity).
    unfold handleResume. rewrite (H2 E0).
    split; [ | fields; discriminate ].
    unfold timer_table_ok, silence_table. fields. exact Hok.
  - (* Stop *)
    destruct (stop_clears_timers s Hr Hst) as (E1 & E2 & E3 & _).
    simpl in E1. rewrite E1 in Hstep. injection Hstep as <-.
    split; [ | rewrite E2; discriminate ].
    unfold timer_table_ok. rewrite E2. exact E3.
  - destruct Hst as [E | E]; rewrite E in Hstep; discriminate.
  - destruct Hst as [E | E]; rewrite E in Hstep; discriminate.
  - destruct Hst as [E | E]; rewrite E in Hstep; discriminate.
  - destruct Hrec as [E | E]; rewrite E in Hstep; discriminate.
  - (* a frame *)
    rewrite Hfr in Hstep. injection Hstep as <-.
    assert (Hnc : seen_recordingState (idle_closure s) <> CALIBRATING)
      by (simpl; discriminate).
    destruct (analysis_cases (idle_closure s) dataArray s Han Hnc Hrec)
      as [E | [(Er & Href & _ & E) | [(h & Er & Href & _ & E) | (Ep & _ & _ & E)]]];
      rewrite E;
      (split; [ | fields; try (change (recordingState
                                        (s |> set_animationFrame (Some (idle_closure s))
                                           |> clearTimer h))
                                 with (recordingState s));
                  destruct Hst as [Ex | Ex]; rewrite ?Ex; discriminate ]);
      unfold timer_table_ok; fields.
    + destruct Hst as [-> | ->]; exact Hok.
    + assert (Hnone : timers s = []).
      { destruct Hok as [Hn | (h & d & _ & Hh & _)]; [ exact Hn | congruence ]. }
      destruct Hst as [-> | ->]; right;
        exists (nextHandle s),
               (now s + Z.max 0 (silenceDetectionTime
                                   (seen_pauseTightness (idle_closure s))));
        fields; rewrite Hnone; simpl seen_pauseTightness;
        (split; [ reflexivity | ]); (split; [ reflexivity | ]); lia.
    + assert (Hnone : timers (s |> set_animationFrame (Some (idle_closure s))
                                |> clearTimer h) = []).
      { rewrite timers_clearTimer. fields.
        destruct Hok as [-> | (h0 & d & -> & Hh & _)]; [ reflexivity | ].
        assert (h0 = h) by congruence. subst h0.
        cbn [filter handle]. rewrite Nat.eqb_refl. reflexivity. }
      change (recordingState (s |> set_animationFrame (Some (idle_closure s))
                                |> clearTimer h))
        with (recordingState s).
      destruct Hst as [-> | ->]; left; exact Hnone.
    + exact Hok.
  - (* a timer *)
    destruct (find_timer h s) as [t | ] eqn:Ef; [ | discriminate ].
    destruct (due t <=? now s); [ | discriminate ].
    injection Hstep as <-.
    destruct Hok as [Hn | (h0 & d & Ht & Hh & Hd)].
    { unfold find_timer in Ef. rewrite Hn in Ef. discriminate. }
    unfold find_timer in Ef. rewrite Ht in Ef. cbn [find handle] in Ef.
    destruct (h0 =? h)%nat eqn:Eh; [ | discriminate ].
    injection Ef as <-.
    unfold fire. cbn [every handle callback run_callback].
    set (s1 := clearTimer h0 s).
    assert (F : timers s1 = [] /\ mediaRecorderRef s1 = mediaRecorderRef s /\
                recordingState s1 = recordingState s).
    { unfold s1. rewrite timers_clearTimer, Ht. cbn [filter handle].
      rewrite Nat.eqb_refl. repeat split; reflexivity. }
    destruct F as (F1 & F2 & F3). clearbody s1.
    unfold onSilenceElapsed. rewrite F2.
    destruct Hrec as [-> | ->];
      (split; [ | fields; rewrite ?F3; destruct Hst as [Ex | Ex]; rewrite ?Ex;
                  discriminate ]);
      unfold timer_table_ok; fields.
    + left. exact F1.
    + rewrite F3. destruct Hst as [-> | ->]; left; exact F1.
  - (* time passes *)
    destruct (may_wait dt s) eqn:Ew; [ | discriminate ].
    injection Hstep as <-.
    unfold may_wait in Ew. apply andb_true_iff in Ew. destruct Ew as [W0 W1].
    apply Z.leb_le in W0.
    assert (Hnext : silence_table (s |> set_now (now s + dt))).
    { destruct Hok as [Hn | (h0 & d & Ht & Hh & Hd)]; [ left; exact Hn | ].
      right. exists h0, d. fields.
      rewrite Ht in W1. cbn [forallb due] in W1.
      rewrite andb_true_r in W1. apply Z.leb_le in W1.
      repeat split; try assumption; lia. }
    split; [ | fields; destruct Hst as [-> | ->]; discriminate ].
    unfold timer_table_ok. fields. destruct Hst as [-> | ->]; exact Hnext.
  - (* the context is suspended or resumed *)
    rewrite (step_contextState s s' state Hstep).
    split; [ | fields; destruct Hst as [-> | ->]; discriminate ].
    unfold timer_table_ok, silence_table. fields.
    destruct Hst as [-> | ->]; exact Hok.
Qed.

Lemma timer_table_step (s s' : Sys) (e : Event) :
  reachable s ->
  timer_table_ok s ->
  step s e = Some s' ->
  timer_table_ok s'.
Proof.
  intros Hr Hok Hstep.
  pose proof (reachable_Inv s Hr) as HI.
  unfold timer_table_ok in Hok.
  destruct (recordingState s) eqn:Hst.
  - (* idle *)
    destruct (is_start e) eqn:Es.
    + destruct e; try discriminate. simpl in Hstep. rewrite Hst in Hstep.
      injection Hstep as <-.
      destruct (streamRef s) eqn:Hstream.
      * destruct (startCalibration_table context s Hstream Hok) as (E1 & _ & E2).
        unfold timer_table_ok. rewrite E1. exists (now s). exact E2.
      * rewrite (startCalibration_without_stream context s Hstream).
        unfold timer_table_ok. simpl. exact Hok.
    + destruct (quiescent_run [e] s s' Hr (or_intror Hst) Hok) as (_ & H1 & H2 & _).
      * simpl. rewrite Es. reflexivity.
      * simpl. rewrite Hstep. reflexivity.
      * unfold timer_table_ok. destruct H1 as [-> | ->]; exact H2.
  - (* calibrating *)
    destruct Hok as [started Htable].
    destruct (calibration_step None started s s' e HI Hst Htable
                               (fun H => False_ind _ (H eq_refl)) Hstep)
      as [(E1 & E2) | (E1 & _ & _ & E2 & _)];
      unfold timer_table_ok; rewrite E1.
    + exists started. exact E2.
    + exact E2.
  - exact (proj1 (silence_table_step s s' e Hr (or_introl Hst) Hok Hstep)).
  - exact (proj1 (silence_table_step s s' e Hr (or_intror Hst) Hok Hstep)).
  - (* stopped *)
    destruct (is_start e) eqn:Es.
    + destruct e; try discriminate. simpl in Hstep. rewrite Hst in Hstep. discriminate.
    + destruct (quiescent_run [e] s s' Hr (or_introl Hst) Hok) as (_ & H1 & H2 & _).
      * simpl. rewrite Es. reflexivity.
      * simpl. rewrite Hstep. reflexivity.
      * unfold timer_table_ok. destruct H1 as [-> | ->]; exact H2.
Qed.

Lemma reachable_timer_table (s : Sys) : reachable s -> timer_table_ok s.
Proof.
  intros [trace Hrun].
  assert (H0 : reachable mounted /\ timer_table_ok mounted).
  { split; [ exists []; reflexivity | reflexivity ]. }
  revert Hrun H0. generalize mounted.
  induction trace as [ | e rest IH]; intros s0 Hrun [Hr H0]; simpl in Hrun.
  - injection Hrun as <-. exact H0.
  - destruct (step s0 e) as [s1 | ] eqn:E; [ | discriminate ].
    apply (IH s1 Hrun). split.
    + exact (reachable_step s0 s1 e Hr E).
    + exact (timer_table_step s0 s1 e Hr H0 E).
Qed.

(** The timers that can be pending.  None while idle or stopped; during a
    calibration the countdown interval, the sampling interval and the
    completion timer, and nothing else; while recording or paused at
    most the one silence timer, whose handle is the stored one and which
    is due within the silence detection time of the session.  Handles
    are never shared. *)
Theorem pending_timers (s : Sys) :
  reachable s ->
  timer_table_ok s /\
  NoDup (map handle (timers s)) /\
  (length (timers s) <= 3)%nat.
Proof.
  intro Hr. pose proof (reachable_timer_table s Hr) as Hok.
  split; [ exact Hok | ].
  unfold timer_table_ok in Hok.
  assert (Hnil : timers s = [] ->
                 NoDup (map handle (timers s)) /\ (length (timers s) <= 3)%nat).
  { intros ->. simpl. split; [ constructor | lia ]. }
  assert (Hsil : silence_table s ->
                 NoDup (map handle (timers s)) /\ (length (timers s) <= 3)%nat).
  { intros [Hn | (h & d & -> & _)]; [ exact (Hnil Hn) | ].
    simpl. split; [ | lia ]. constructor; [ intros [] | constructor ]. }
  destruct (recordingState s); auto.
  destruct Hok as (started & n & ticks & samples & seen & -> & _).
  simpl. split; [ | lia ].
  repeat constructor; simpl; lia.
Qed.

Lemma pending_timers_witness :
  timer_table_ok calibrating /\
  NoDup (map handle (timers calibrating)) /\
  (length (timers calibrating) <= 3)%nat.
Proof.
  apply (pending_timers calibrating).
  exists [PreviewStream true; ClickStart running; Wait 50; TimerFires 2 (frame x0a)].
  vm_compute. reflexivity.
Defined.

(** ** The length of a calibration *)





(** ** The badge during a calibration *)

Lemma ceil_div_1000 (c : Z) :
  c <= 1000 * ceil_div c 1000 < c + 1000.
Proof.
  unfold ceil_div. pose proof (Z.div_mod (- c) 1000).
  pose proof (Z.mod_pos_bound (- c) 1000). lia.
Qed.

(** The badge is hidden exactly while idle.  During a calibration it
    shows a number of seconds between 0 and 3 which is never less than
    the time left until the completion timer is due, and exceeds it by
    less than 1.1 s: the countdown itself lags the clock by at most
    100 ms and never becomes negative. *)
Theorem status_during_calibration (s : Sys) :
  reachable s ->
  (StatusIndicator (recordingState s) (calibrationCountdown s) = None <->
   recordingState s = IDLE) /\
  (recordingState s = CALIBRATING ->
   exists seconds remaining t,
     StatusIndicator (recordingState s) (calibrationCountdown s)
     = Some (calibrating_text seconds) /\
     In t (timers s) /\ is_calibrationElapsed t = true /\
     due t = now s + remaining /\
     0 <= remaining <= CALIBRATION_TIME_MS /\
     remaining <= calibrationCountdown s <= remaining + 100 /\
     0 <= seconds <= 3 /\
     remaining <= 1000 * seconds < remaining + 1100).
Proof.
  intro Hr. split.
  - unfold StatusIndicator.
    destruct (recordingState s); simpl; split; intro H; congruence.
  - intro Hst.
    pose proof (reachable_timer_table s Hr) as Hok. unfold timer_table_ok in Hok.
    rewrite Hst in Hok.
    destruct Hok as (started & n & ticks & samples & seen & Ht & Hc & Hticks & _
                     & Hnow & _).
    exists (ceil_div (calibrationCountdown s) 1000),
           (started + CALIBRATION_TIME_MS - now s),
           (Build_Timer (S (S n)) (started + CALIBRATION_TIME_MS) None
                        (calibrationElapsed n (S n) n seen)).
    pose proof (ceil_div_1000 (calibrationCountdown s)) as Hceil.
    rewrite Hst. unfold CALIBRATION_TIME_MS in *.
    split; [ reflexivity | ].
    split; [ rewrite Ht; simpl; auto | ].
    split; [ reflexivity | ].
    split; [ cbn [due]; lia | ].
    split; [ lia | ]. split; [ lia | ]. split; lia.
Qed.

Lemma status_during_calibration_witness :
  exists seconds remaining t,
    StatusIndicator (recordingState calibrating) (calibrationCountdown calibrating)
    = Some (calibrating_text seconds) /\
    In t (timers calibrating) /\ is_calibrationElapsed t = true /\
    due t = now calibrating + remaining /\
    0 <= remaining <= CALIBRATION_TIME_MS /\
    remaining <= calibrationCountdown calibrating <= remaining + 100 /\
    0 <= seconds <= 3 /\
    remaining <= 1000 * seconds < remaining + 1100.
Proof.
  apply (status_during_calibration calibrating).
  - exists [PreviewStream true; ClickStart running; Wait 50; TimerFires 2 (frame x0a)].
    vm_compute. reflexivity.
  - vm_compute. reflexivity.
Defined.

(** ** The samples of a calibration *)



(** A context that is suspended on the way leaves the samples taken
    before: two samples at level 30, then silence from the analyser's
    point of view, give the baseline 30. *)
Lemma context_suspended_midway :
  let s3 :=
    after ([PreviewStream true; ClickStart running]
           ++ calibration_rounds 1 1 2 (frame x1e)
           ++ [ContextStateChange suspended]
           ++ calibration_rounds 29 1 2 (frame x0a)
           ++ [TimerFires 3 (frame x05)]) mounted in
  recordingState s3 = RECORDING /\
  silenceThresholdRef s3 = Num 30.
Proof.
  intro s3. by_evaluation.
Qed.

(** ** Strings *)

Lemma visible_nil_iff (s : list N) :
  JSString.visible s = [] <-> forallb JSString.is_white_space s = true.
Proof.
  unfold JSString.visible.
  induction s as [ | c rest IH]; simpl; [ tauto | ].
  destruct (JSString.is_white_space c); simpl; [ exact IH | ].
  split; discriminate.
Qed.

Lemma visible_app (s1 s2 : list N) :
  JSString.visible (s1 ++ s2) = JSString.visible s1 ++ JSString.visible s2.
Proof. apply filter_app. Qed.

Lemma visible_rev (s : list N) :
  JSString.visible (rev s) = rev (JSString.visible s).
Proof.
  induction s as [ | c rest IH]; [ reflexivity | ].
  simpl rev. rewrite visible_app, IH.
  unfold JSString.visible at 2 3. simpl.
  destruct (JSString.is_white_space c); simpl.
  - rewrite app_nil_r. reflexivity.
  - reflexivity.
Qed.

Lemma visible_trimStart (s : list N) :
  JSString.visible (JSString.trimStart s) = JSString.visible s.
Proof.
  induction s as [ | c rest IH]; [ reflexivity | ].
  cbn [JSString.trimStart].
  destruct (JSString.is_white_space c) eqn:E; [ | reflexivity ].
  rewrite IH. unfold JSString.visible. simpl. rewrite E. reflexivity.
Qed.

Lemma visible_trimEnd (s : list N) :
  JSString.visible (JSString.trimEnd s) = JSString.visible s.
Proof.
  unfold JSString.trimEnd.
  rewrite visible_rev, visible_trimStart, visible_rev, rev_involutive. reflexivity.
Qed.

Lemma visible_trim (s : list N) :
  JSString.visible (JSString.trim s) = JSString.visible s.
Proof.
  unfold JSString.trim. rewrite visible_trimEnd. apply visible_trimStart.
Qed.

Lemma trimStart_nil_iff (s : list N) :
  JSString.trimStart s = [] <-> JSString.visible s = [].
Proof.
  induction s as [ | c rest IH]; simpl; [ tauto | ].
  unfold JSString.visible. simpl.
  destruct (JSString.is_white_space c); simpl; [ exact IH | ].
  split; discriminate.
Qed.

Lemma trim_nil_iff (s : list N) :
  JSString.trim s = [] <-> JSString.visible s = [].
Proof.
  unfold JSString.trim, JSString.trimEnd.
  split; intro H.
  - assert (H1 : JSString.trimStart (rev (JSString.trimStart s)) = []).
    { destruct (JSString.trimStart (rev (JSString.trimStart s))); [ reflexivity | ].
      simpl in H. destruct (rev l); discriminate. }
    apply trimStart_nil_iff in H1.
    rewrite visible_rev, visible_trimStart in H1.
    destruct (JSString.visible s); [ reflexivity | ].
    simpl in H1. destruct (rev l); discriminate.
  - apply trimStart_nil_iff in H. rewrite H. reflexivity.
Qed.

Lemma split_not_nil (sep : N) (s : list N) : JSString.split sep s <> [].
Proof.
  destruct s as [ | c rest]; simpl; [ discriminate | ].
  destruct (c =? sep)%N; [ discriminate | ].
  destruct (JSString.split sep rest); discriminate.
Qed.

Lemma split_no_separator (sep : N) (s piece : list N) :
  In piece (JSString.split sep s) -> ~ In sep piece.
Proof.
  revert piece. induction s as [ | c rest IH]; intros piece Hin; simpl in Hin.
  - destruct Hin as [<- | []]. intros [].
  - destruct (c =? sep)%N eqn:E.
    + destruct Hin as [<- | Hin]; [ intros [] | exact (IH piece Hin) ].
    + apply N.eqb_neq in E.
      destruct (JSString.split sep rest) as [ | first others] eqn:Es.
      * destruct Hin as [<- | []]. intros [H | []]. congruence.
      * destruct Hin as [<- | Hin].
        -- intros [H | H]; [ congruence | ].
           apply (IH first); [ left; reflexivity | exact H ].
        -- apply IH. right. exact Hin.
Qed.

Lemma visible_split (sep : N) (s : list N) :
  JSString.is_white_space sep = true ->
  concat (map JSString.visible (JSString.split sep s)) = JSString.visible s.
Proof.
  intro Hsep. induction s as [ | c rest IH]; [ reflexivity | ].
  simpl JSString.split.
  destruct (c =? sep)%N eqn:E.
  - apply N.eqb_eq in E. subst c. simpl. rewrite IH.
    unfold JSString.visible at 2. simpl. rewrite Hsep. reflexivity.
  - destruct (JSString.split sep rest) as [ | first others] eqn:Es.
    + exfalso. exact (split_not_nil sep rest Es).
    + simpl in IH. simpl.
      unfold JSString.visible at 1 3. simpl.
      destruct (JSString.is_white_space c); simpl.
      * exact IH.
      * f_equal. exact IH.
Qed.

Lemma visible_lines_of (pieces : list (list N)) :
  concat (map JSString.visible
              (filter (fun line => (0 <? length (JSString.trim line))%nat) pieces))
  = concat (map JSString.visible pieces).
Proof.
  induction pieces as [ | piece rest IH]; [ reflexivity | ].
  simpl. destruct (0 <? length (JSString.trim piece))%nat eqn:E; simpl.
  - rewrite IH. reflexivity.
  - rewrite IH.
    assert (Hb : JSString.visible piece = []).
    { apply trim_nil_iff. destruct (JSString.trim piece); [ reflexivity | discriminate ]. }
    rewrite Hb. reflexivity.
Qed.

Lemma line_not_blank (script line : list N) :
  In line (lines script) -> JSString.visible line <> [].
Proof.
  unfold lines. intros Hin Hb. apply filter_In in Hin. destruct Hin as [_ Hlen].
  apply trim_nil_iff in Hb. rewrite Hb in Hlen. discriminate.
Qed.

Lemma lines_nil_iff (script : list N) :
  lines script = [] <-> forallb JSString.is_white_space script = true.
Proof.
  assert (H : concat (map JSString.visible (lines script)) = JSString.visible script).
  { unfold lines. rewrite visible_lines_of, visible_split; [ | reflexivity ].
    apply visible_trim. }
  rewrite <- visible_nil_iff. split; intro E.
  - rewrite <- H, E. reflexivity.
  - destruct (lines script) as [ | line rest] eqn:El; [ reflexivity | exfalso ].
    apply (line_not_blank script line); [ rewrite El; left; reflexivity | ].
    rewrite E in H. simpl in H.
    destruct (JSString.visible line); [ reflexivity | discriminate ].
Qed.

Lemma script_lines_not_blank_aux (script line : list N) :
  In line (lines script) ->
  (0 <? length line)%nat = true /\
  forallb JSString.is_white_space script = false.
Proof.
  intro Hin. split.
  - pose proof (line_not_blank script line Hin) as Hv.
    destruct line; [ contradiction Hv; reflexivity | reflexivity ].
  - destruct (forallb JSString.is_white_space script) eqn:E; [ | reflexivity ].
    apply lines_nil_iff in E. rewrite E in Hin. destruct Hin.
Qed.

(** ** The lines of the script *)

(** No line of the teleprompter is blank or holds a line feed: each has
    a character that is not white space, so each is a truthy string. *)
Theorem script_lines_not_blank (script line : list N) :
  In line (lines script) ->
  (0 < length line)%nat /\
  ~ In JSString.LINE_FEED line /\
  exists c, In c line /\ JSString.is_white_space c = false.
Proof.
  intro Hin. pose proof (line_not_blank script line Hin) as Hv.
  assert (Hc : exists c, In c line /\ JSString.is_white_space c = false).
  { destruct (JSString.visible line) as [ | c rest] eqn:E; [ contradiction | ].
    exists c.
    assert (H : In c (JSString.visible line)) by (rewrite E; left; reflexivity).
    unfold JSString.visible in H. apply filter_In in H.
    destruct H as [H1 H2]. split; [ exact H1 | ].
    apply negb_true_iff. exact H2. }
  split; [ | split; [ | exact Hc ] ].
  - destruct line; [ destruct Hc as (c & [] & _) | simpl; lia ].
  - unfold lines in Hin. apply filter_In in Hin.
    exact (split_no_separator _ _ _ (proj1 Hin)).
Qed.

Lemma script_lines_not_blank_witness :
  (* the script "a \n\n b" *)
  let script := [97; 32; 10; 10; 32; 98]%N in
  lines script = [[97; 32]; [32; 98]]%N /\
  ((0 < length [32; 98]%N)%nat /\
   ~ In JSString.LINE_FEED [32; 98]%N /\
   exists c, In c [32; 98]%N /\ JSString.is_white_space c = false).
Proof.
  intro script.
  split; [ vm_compute; reflexivity | ].
  apply (script_lines_not_blank script).
  vm_compute. right. left. reflexivity.
Defined.

(** Cutting the script into lines loses no text: the lines hold the
    characters of the script that are not white space, all of them and
    in their order.  So there is no line exactly when the script is
    blank. *)
Theorem script_lines_keep_text (script : list N) :
  concat (map JSString.visible (lines script)) = JSString.visible script /\
  (lines script = [] <-> forallb JSString.is_white_space script = true).
Proof.
  split; [ | apply lines_nil_iff ].
  unfold lines. rewrite visible_lines_of, visible_split; [ | reflexivity ].
  apply visible_trim.
Qed.

(** ** The line shown *)

(** The index is that of a line, or 0 if there is none. *)
Lemma handleScriptScroll_in_range (direction : Direction) (p : Prompter) :
  let p' := handleScriptScroll direction p in
  script p' = script p /\
  scriptLines p' = scriptLines p /\
  (0 <= currentLineIndex p < Z.max 1 (Z.of_nat (length (scriptLines p))) ->
   0 <= currentLineIndex p' < Z.max 1 (Z.of_nat (length (scriptLines p))) /\
   Z.abs (currentLineIndex p' - currentLineIndex p) <= 1).
Proof.
  unfold handleScriptScroll.
  destruct (length (scriptLines p)) as [ | n] eqn:E.
  - simpl. repeat split; try tauto; lia.
  - cbn [Nat.eqb script scriptLines currentLineIndex].
    split; [ reflexivity | ]. split; [ reflexivity | ].
    intro H. destruct direction; lia.
Qed.

Lemma gestures_in_range (events : list Gesture) (g : Gestures) (p : Prompter) :
  0 <= currentLineIndex p < Z.max 1 (Z.of_nat (length (scriptLines p))) ->
  let p' := snd (gestures events g p) in
  script p' = script p /\
  scriptLines p' = scriptLines p /\
  0 <= currentLineIndex p' < Z.max 1 (Z.of_nat (length (scriptLines p))).
Proof.
  revert g p. induction events as [ | e rest IH]; intros g p Hp; simpl.
  - repeat split; tauto || lia.
  - destruct (gesture e g) as [g' call].
    assert (Hq : script (onScriptScroll call p) = script p /\
                 scriptLines (onScriptScroll call p) = scriptLines p /\
                 0 <= currentLineIndex (onScriptScroll call p)
                 < Z.max 1 (Z.of_nat (length (scriptLines p)))).
    { destruct call as [direction | ]; simpl; [ | repeat split; tauto || lia ].
      destruct (handleScriptScroll_in_range direction p) as (E1 & E2 & E3).
      repeat split; try assumption; apply E3; exact Hp. }
    destruct Hq as (Q1 & Q2 & Q3).
    destruct (IH g' (onScriptScroll call p)) as (I1 & I2 & I3).
    + rewrite Q2. exact Q3.
    + rewrite Q1, Q2 in *. repeat split; assumption || lia.
Qed.

(** From the start of a session on, whatever is scrolled, the index
    names a line of the script if there is one: the line shown is a line
    of the script, and the teleprompter is on display exactly while the
    session records or is paused and the script is not blank. *)
Theorem teleprompter_shows_a_line
        (p : Prompter) (g : Gestures) (events : list Gesture)
        (recordingState : RecordingState) :
  let p' := snd (gestures events g (startCalibration_script p)) in
  scriptLines p' = lines (script p) /\
  (currentScriptLine p' = None <-> lines (script p) = []) /\
  (forall line, currentScriptLine p' = Some line -> In line (lines (script p))) /\
  shouldShowTeleprompter recordingState (currentScriptLine p')
  = isRecordingActive recordingState
    && negb (forallb JSString.is_white_space (script p)).
Proof.
  intro p'.
  destruct (gestures_in_range events g (startCalibration_script p)) as (_ & E2 & E3).
  { simpl. lia. }
  fold p' in E2, E3. simpl in E2, E3.
  assert (Hcur : match currentScriptLine p' with
                 | Some line => In line (lines (script p))
                 | None => lines (script p) = []
                 end).
  { unfold currentScriptLine. rewrite E2.
    destruct (currentLineIndex p' <? 0) eqn:E; [ apply Z.ltb_lt in E; lia | ].
    destruct (nth_error (lines (script p)) (Z.to_nat (currentLineIndex p'))) eqn:En.
    - exact (nth_error_In _ _ En).
    - apply nth_error_None in En.
      destruct (lines (script p)); [ reflexivity | simpl length in *; lia ]. }
  split; [ exact E2 | ].
  split; [ | split ].
  - destruct (currentScriptLine p') as [line | ]; split; intro H;
      try discriminate; try reflexivity; try assumption.
    rewrite H in Hcur. contradiction.
  - intros line H. rewrite H in Hcur. exact Hcur.
  - unfold shouldShowTeleprompter. f_equal.
    destruct (currentScriptLine p') as [line | ].
    + destruct (script_lines_not_blank_aux (script p) line Hcur) as [H1 H2].
      rewrite H1, H2. reflexivity.
    + apply (proj1 (lines_nil_iff (script p))) in Hcur. rewrite Hcur. reflexivity.
Qed.

Lemma scroll_keeps_lines (direction : Direction) (n : nat) (p : Prompter) :
  scriptLines (Nat.iter n (handleScriptScroll direction) p) = scriptLines p.
Proof.
  induction n as [ | n IH]; [ reflexivity | ].
  rewrite Nat.iter_succ.
  destruct (handleScriptScroll_in_range direction
                     (Nat.iter n (handleScriptScroll direction) p)) as (_ & E & _).
  rewrite E. exact IH.
Qed.

(** Scrolling stops at both ends: [n] scrolls down from a line lead [n]
    lines on, or to the last line if that comes first, and [n] scrolls
    up lead [n] lines back, or to the first line. *)
Theorem scroll_stops_at_the_ends (p : Prompter) (n : nat) :
  0 <= currentLineIndex p < Z.of_nat (length (scriptLines p)) ->
  currentLineIndex (Nat.iter n (handleScriptScroll down) p)
  = Z.min (currentLineIndex p + Z.of_nat n) (Z.of_nat (length (scriptLines p)) - 1) /\
  currentLineIndex (Nat.iter n (handleScriptScroll up) p)
  = Z.max (currentLineIndex p - Z.of_nat n) 0.
Proof.
  intro Hp.
  assert (Hlen : (length (scriptLines p) =? 0)%nat = false)
    by (apply Nat.eqb_neq; lia).
  induction n as [ | n [IH1 IH2]]; [ simpl; lia | ].
  split.
  - rewrite Nat.iter_succ. unfold handleScriptScroll at 1.
    rewrite (scroll_keeps_lines down n p), Hlen.
    cbn [currentLineIndex]. rewrite IH1. lia.
  - rewrite Nat.iter_succ. unfold handleScriptScroll at 1.
    rewrite (scroll_keeps_lines up n p), Hlen.
    cbn [currentLineIndex]. rewrite IH2. lia.
Qed.

Lemma scroll_stops_at_the_ends_witness :
  (* three lines, the second one shown *)
  let p := {| script := []; scriptLines := [[97]; [98]; [99]]%N; currentLineIndex := 1 |} in
  currentLineIndex (Nat.iter 5 (handleScriptScroll down) p) = 2 /\
  currentLineIndex (Nat.iter 5 (handleScriptScroll up) p) = 0.
Proof.
  intro p.
  apply (scroll_stops_at_the_ends p 5).
  simpl. lia.
Defined.

(** ** Wheel and touch *)

Lemma wheel_scroll_times_late (events : list Gesture) (g : Gestures) (t : Z) :
  In t (wheel_scroll_times events g) ->
  lastScrollTime g + SCROLL_DEBOUNCE_MS <= t.
Proof.
  revert g. induction events as [ | e rest IH]; intros g Hin; [ destruct Hin | ].
  simpl in Hin.
  destruct e as [date_now deltaY | y | y | ]; simpl in Hin.
  - unfold handleWheel in Hin.
    destruct (date_now - lastScrollTime g <? SCROLL_DEBOUNCE_MS) eqn:E.
    + exact (IH g Hin).
    + apply Z.ltb_ge in E. destruct Hin as [<- | Hin]; [ lia | ].
      apply IH in Hin. simpl in Hin. unfold SCROLL_DEBOUNCE_MS in *. lia.
  - exact (IH _ Hin).
  - unfold handleTouchMove in Hin.
    destruct (touchStartY g) as [start | ]; [ | exact (IH g Hin) ].
    destruct (Qlt_le_dec TOUCH_SCROLL_THRESHOLD (Math_abs (y - start)));
      [ exact (IH _ Hin) | exact (IH g Hin) ].
  - exact (IH _ Hin).
Qed.

(** The wheel scrolls at most once in 200 ms: any two wheel events that
    scroll are at least [SCROLL_DEBOUNCE_MS] apart by the clock, and in
    the order of the clock, whatever else happens in between and even if
    the clock is set back. *)
Theorem wheel_scrolls_are_spaced (events : list Gesture) (g : Gestures) :
  ForallOrdPairs (fun earlier later => earlier + SCROLL_DEBOUNCE_MS <= later)
                 (lastScrollTime g :: wheel_scroll_times events g).
Proof.
  constructor.
  - apply Forall_forall. intros t Hin. exact (wheel_scroll_times_late events g t Hin).
  - revert g. induction events as [ | e rest IH]; intro g; [ constructor | ].
    simpl.
    destruct e as [date_now deltaY | y | y | ]; simpl.
    + unfold handleWheel.
      destruct (date_now - lastScrollTime g <? SCROLL_DEBOUNCE_MS) eqn:E; [ apply IH | ].
      constructor; [ | apply IH ].
      apply Forall_forall. intros t Hin.
      apply wheel_scroll_times_late in Hin. exact Hin.
    + apply IH.
    + unfold handleTouchMove.
      destruct (touchStartY g) as [start | ]; [ | apply IH ].
      destruct (Qlt_le_dec TOUCH_SCROLL_THRESHOLD (Math_abs (y - start))); apply IH.
    + apply IH.
Qed.

Lemma scrolls_without_touch (events : list Gesture) (g : Gestures) :
  forallb (fun e => negb (is_touch_start e) && negb (is_wheel e)) events = true ->
  touchStartY g = None ->
  scrolls events g = [].
Proof.
  revert g. induction events as [ | e rest IH]; intros g Hq Hg; [ reflexivity | ].
  simpl in Hq. apply andb_true_iff in Hq. destruct Hq as [He Hq].
  destruct e as [date_now deltaY | y | y | ]; try discriminate; simpl.
  - unfold handleTouchMove. rewrite Hg. exact (IH g Hq Hg).
  - apply IH; [ exact Hq | reflexivity ].
Qed.

Lemma gestures_scrolls (events : list Gesture) (g : Gestures) (p : Prompter) :
  snd (gestures events g p)
  = fold_left (fun q direction => handleScriptScroll direction q) (scrolls events g) p.
Proof.
  revert g p. induction events as [ | e rest IH]; intros g p; [ reflexivity | ].
  simpl. destruct (gesture e g) as [g' [direction | ]]; simpl; apply IH.
Qed.

(** One swipe scrolls one line at most: after a touch has begun, and
    until the next one begins, the moves and the end of the touch call
    [onScriptScroll] at most once, when the finger is first seen more
    than 30 pixels from where it went down; and with no touch begun they
    do not call it at all. *)
Theorem one_scroll_per_swipe (events : list Gesture) (g : Gestures) (p : Prompter) :
  forallb (fun e => negb (is_touch_start e) && negb (is_wheel e)) events = true ->
  (length (scrolls events g) <= 1)%nat /\
  (touchStartY g = None -> scrolls events g = []) /\
  (snd (gestures events g p) = p \/
   exists direction, snd (gestures events g p) = handleScriptScroll direction p).
Proof.
  intro Hq.
  assert (Hcount : (length (scrolls events g) <= 1)%nat).
  { revert g Hq. induction events as [ | e rest IH]; intros g Hq; [ simpl; lia | ].
    simpl in Hq. apply andb_true_iff in Hq. destruct Hq as [He Hq].
    destruct e as [date_now deltaY | y | y | ]; try discriminate; simpl.
    - unfold handleTouchMove.
      destruct (touchStartY g) as [start | ]; [ | apply IH; exact Hq ].
      destruct (Qlt_le_dec TOUCH_SCROLL_THRESHOLD (Math_abs (y - start)));
        [ | apply IH; exact Hq ].
      rewrite (scrolls_without_touch
                 rest {| lastScrollTime := lastScrollTime g; touchStartY := None |}
                 Hq eq_refl).
      simpl. lia.
    - apply IH. exact Hq. }
  split; [ exact Hcount | ].
  split; [ exact (scrolls_without_touch events g Hq) | ].
  rewrite gestures_scrolls.
  destruct (scrolls events g) as [ | direction [ | second rest]].
  - left. reflexivity.
  - right. exists direction. reflexivity.
  - simpl in Hcount. lia.
Qed.

Lemma one_scroll_per_swipe_witness :
  (* a finger that goes down at 300 and moves up to 260, 200 and 100 *)
  let g := handleTouchStart 300 gestures_mounted in
  let swipe := [TouchMove 280; TouchMove 260; TouchMove 200; TouchMove 100; TouchEnd] in
  scrolls swipe g = [down] /\
  (length (scrolls swipe g) <= 1)%nat.
Proof.
  intros g swipe.
  split; [ vm_compute; reflexivity | ].
  apply (one_scroll_per_swipe swipe g prompter_mounted).
  vm_compute. reflexivity.
Defined.

(** ** The canvas preview *)

Lemma Qdiv_lt_mul (a b c : Q) : (0 < c -> a < b / c -> a * c < b)%Q.
Proof.
  intros Hc H.
  apply (Qmult_lt_compat_r _ _ c Hc) in H.
  assert (E : (b / c * c == b)%Q) by (field; lra).
  rewrite E in H. exact H.
Qed.

Lemma Qdiv_le_mul (a b c : Q) : (0 < c -> b / c <= a -> b <= a * c)%Q.
Proof.
  intros Hc H.
  apply (Qmult_le_compat_r _ _ c) in H; [ | lra ].
  assert (E : (b / c * c == b)%Q) by (field; lra).
  rewrite E in H. exact H.
Qed.

(** What the canvas shows is the video cropped to the shape of the
    canvas, not squeezed into it: the source rectangle lies within the
    frame, is centred in it, spans it in one direction, and has the
    aspect ratio of the canvas. *)
Theorem canvas_shows_centred_crop
        (videoWidth videoHeight canvasWidth canvasHeight : Z) :
  0 < videoWidth -> 0 < videoHeight -> 0 < canvasWidth -> 0 < canvasHeight ->
  let r := drawFrame_source videoWidth videoHeight canvasWidth canvasHeight in
  ((0 <= sx r /\ 0 <= sy r /\ 0 < sWidth r /\ 0 < sHeight r /\
    sx r + sWidth r <= inject_Z videoWidth /\
    sy r + sHeight r <= inject_Z videoHeight) /\
   (sx r + sWidth r + sx r == inject_Z videoWidth /\
    sy r + sHeight r + sy r == inject_Z videoHeight) /\
   (sWidth r == inject_Z videoWidth \/ sHeight r == inject_Z videoHeight) /\
   sWidth r * inject_Z canvasHeight == sHeight r * inject_Z canvasWidth)%Q.
Proof.
  intros Hw Hh Hcw Hch.
  rewrite Zlt_Qlt in Hw, Hh, Hcw, Hch.
  change (inject_Z 0) with 0%Q in *.
  unfold drawFrame_source.
  set (W := inject_Z videoWidth) in *. set (H := inject_Z videoHeight) in *.
  set (CW := inject_Z canvasWidth) in *. set (CH := inject_Z canvasHeight) in *.
  clearbody W H CW CH.
  assert (Hc : (0 < CW / CH)%Q) by (apply Qlt_shift_div_l; [ exact Hch | lra ]).
  destruct (Qlt_le_dec (CW / CH) (W / H)) as [Hwide | Htall]; cbn [sx sy sWidth sHeight].
  - (* the video is wider than the canvas *)
    pose proof (Qdiv_lt_mul _ _ _ Hh Hwide) as Hk.
    assert (Hpos : (0 < H * (CW / CH))%Q) by (apply Qmult_lt_0_compat; assumption).
    assert (Ek : (CW / CH * H == H * (CW / CH))%Q) by ring.
    rewrite Ek in Hk.
    set (k := (H * (CW / CH))%Q) in *.
    assert (Ehalf : ((W - k) / 2 == (W - k) * (1 # 2))%Q) by (unfold Qdiv; reflexivity).
    rewrite !Ehalf.
    split; [ repeat split; lra | ].
    split; [ split; lra | ].
    split; [ right; reflexivity | ].
    unfold k. field. lra.
  - (* the video is as narrow as the canvas, or narrower *)
    pose proof (Qdiv_le_mul _ _ _ Hh Htall) as Hk.
    assert (Hk' : (W / (CW / CH) <= H)%Q).
    { apply Qle_shift_div_r; [ exact Hc | ]. lra. }
    assert (Hpos : (0 < W / (CW / CH))%Q).
    { apply Qlt_shift_div_l; [ exact Hc | ]. lra. }
    set (k := (W / (CW / CH))%Q) in *.
    assert (Ehalf : ((H - k) / 2 == (H - k) * (1 # 2))%Q) by (unfold Qdiv; reflexivity).
    rewrite !Ehalf.
    split; [ repeat split; lra | ].
    split; [ split; lra | ].
    split; [ left; reflexivity | ].
    unfold k. field. split; lra.
Qed.

Lemma canvas_shows_centred_crop_witness :
  (* a 1280 x 720 camera on a 360 x 640 portrait canvas *)
  let r := drawFrame_source 1280 720 360 640 in
  (sWidth r == 405 /\ sHeight r == 720 /\ sx r == 875 # 2 /\ sy r == 0)%Q /\
  (sx r + sWidth r <= inject_Z 1280)%Q.
Proof.
  intro r.
  split; [ vm_compute; repeat split; reflexivity | ].
  apply (canvas_shows_centred_crop 1280 720 360 640); lia.
Defined.

(** ** Speech *)

Lemma speech_tick (s s' : Sys) (e : Event) :
  reachable s ->
  recordingState s = RECORDING ->
  timers s = [] ->
  is_speech_tick (silenceThresholdRef s) e = true ->
  step s e = Some s' ->
  recordingState s' = RECORDING /\
  timers s' = [] /\
  silenceThresholdRef s' = silenceThresholdRef s /\
  is_automatic_pause s e = false.
Proof.
  intros Hr Hst Hnone He Hstep.
  destruct (loop_of_session s Hr (or_introl Hst)) as (Hfr & Han & H1 & _).
  specialize (H1 Hst).
  destruct e; try discriminate; simpl in Hstep, He.
  - rewrite Hfr in Hstep. injection Hstep as <-.
    apply negb_true_iff in He.
    assert (Hnc : seen_recordingState (idle_closure s) <> CALIBRATING)
      by (simpl; discriminate).
    destruct (silenceTimerRef s) as [h | ] eqn:Href.
    + rewrite (analysis_cancels (idle_closure s) dataArray s Han Hnc h H1 He Href).
      simpl. rewrite Hnone. simpl. repeat split; auto.
    + rewrite (analysis_nothing_to_cancel (idle_closure s) dataArray s Han Hnc H1 He Href).
      simpl. repeat split; auto.
  - destruct (may_wait dt s); [ | discriminate ].
    injection Hstep as <-. simpl. repeat split; auto.
Qed.

(** Speech is never cut: from a recording session with no silence timer
    pending, as long as every frame is at or above the silence threshold
    the session keeps recording, however much time passes; no timer is
    set and no automatic pause happens. *)
Theorem speech_is_never_cut (ticks : list Event) (s s' : Sys) :
  reachable s ->
  recordingState s = RECORDING ->
  timers s = [] ->
  forallb (is_speech_tick (silenceThresholdRef s)) ticks = true ->
  run s ticks = Some s' ->
  recordingState s' = RECORDING /\
  mediaRecorderRef s' = Some recording /\
  timers s' = [] /\
  automatic_pauses s ticks = 0%nat.
Proof.
  revert s. induction ticks as [ | e rest IH]; intros s Hr Hst Hnone Hq Hrun.
  - simpl in Hrun. injection Hrun as <-.
    destruct (loop_of_session s Hr (or_introl Hst)) as (_ & _ & H1 & _).
    simpl. repeat split; auto.
  - simpl in Hq. apply andb_true_iff in Hq. destruct Hq as [He Hq].
    simpl in Hrun. cbn [automatic_pauses].
    destruct (step s e) as [s1 | ] eqn:Estep; [ | discriminate ].
    destruct (speech_tick s s1 e Hr Hst Hnone He Estep) as (E1 & E2 & E3 & E5).
    rewrite <- E3 in Hq.
    destruct (IH s1 (reachable_step s s1 e Hr Estep) E1 E2 Hq Hrun)
      as (I1 & I2 & I3 & I4).
    rewrite E5, I4. repeat split; assumption.
Qed.

Lemma speech_is_never_cut_witness :
  (* a second of frames at level 22, twice the baseline and a little more *)
  let s := after [AnimationFrame (frame x16)] quiet_recording in
  let s' := after (frames_20ms 50 x16) s in
  now s' = now s + 1000 /\
  recordingState s' = RECORDING /\
  mediaRecorderRef s' = Some recording /\
  timers s' = [] /\
  automatic_pauses s (frames_20ms 50 x16) = 0%nat.
Proof.
  intros s s'.
  split; [ vm_compute; reflexivity | ].
  apply (speech_is_never_cut (frames_20ms 50 x16) s s').
  - apply (reachable_step quiet_recording s (AnimationFrame (frame x16))
                          reachable_quiet_recording).
    vm_compute. reflexivity.
  - vm_compute. reflexivity.
  - vm_compute. reflexivity.
  - vm_compute. reflexivity.
  - vm_compute. reflexivity.
Defined.

(** ** A recorder that stops unasked *)





(** ** Lifecycle state and recorder *)



(** ** The controls *)


